(** * ManageUsers: the Flask backend (app.py, models.py, config.py)

    A shallow embedding of the REST handlers of [backend/app.py] over the
    four tables of [backend/models.py].

    - Tables are lists of rows in rowid order; [first()] is the first match.
    - A handler runs inside a unit of work ([session]): it reads and writes
      the [pending] state (SQLAlchemy autoflushes before each query) and only
      [commit] copies it to the [stored] state.  Flask-SQLAlchemy removes the
      session when the request ends, so whatever was not committed is lost.
    - A Python [return] in the middle of a handler and an uncaught exception
      are outcomes of the handler monad.
    - Strings are ASCII strings; time is an integer number of seconds.
    - Python's integers have no bound and SQLite's are signed 64 bit.  The
      offset and the limit of [get_posts] are checked against that range as
      the driver does; a primary key is a natural number, the key of a stored
      row is in range, and a statement about a key with no row says which
      keys it speaks of. *)

From Stdlib Require Import List String Ascii Bool Arith ZArith Lia.
From Stdlib Require Import Permutation Sorted.
Import ListNotations.
Local Open Scope string_scope.
Local Open Scope nat_scope.

Set Implicit Arguments.

(* ===================================================================== *)
(** * models.py                                                           *)
(* ===================================================================== *)

(** werkzeug.security, idealised: a hash is opaque to the handlers, and
    checking a password against it succeeds exactly on the hashed password. *)
Inductive pwhash : Type := Hashed (password : string).

Definition generate_password_hash (password : string) : pwhash :=
  Hashed password.

Definition check_password_hash (h : pwhash) (password : string) : bool :=
  match h with Hashed p => String.eqb p password end.

Module User.
Record t : Type := mk {
  id : nat;
  username : string;
  email : string;
  password_hash : pwhash;
  is_admin : bool;
  created_at : Z
}.

Definition with_username (v : string) (u : t) : t :=
  mk (id u) v (email u) (password_hash u) (is_admin u) (created_at u).
Definition with_email (v : string) (u : t) : t :=
  mk (id u) (username u) v (password_hash u) (is_admin u) (created_at u).
Definition with_is_admin (v : bool) (u : t) : t :=
  mk (id u) (username u) (email u) (password_hash u) v (created_at u).

(** [set_password]: self.password_hash = generate_password_hash(password) *)
Definition set_password (password : string) (u : t) : t :=
  mk (id u) (username u) (email u) (generate_password_hash password)
     (is_admin u) (created_at u).

(** [check_password] *)
Definition check_password (u : t) (password : string) : bool :=
  check_password_hash (password_hash u) password.

(** [to_dict()] with include_sensitive=False, the only use in app.py. *)
Record dict : Type := mk_dict {
  d_id : nat;
  d_username : string;
  d_email : string;
  d_is_admin : bool;
  d_created_at : Z
}.
End User.

Module Post.
Record t : Type := mk {
  id : nat;
  title : string;
  content : string;
  user_id : nat;
  created_at : Z;
  updated_at : Z
}.

Definition with_title (v : string) (p : t) : t :=
  mk (id p) v (content p) (user_id p) (created_at p) (updated_at p).
Definition with_content (v : string) (p : t) : t :=
  mk (id p) (title p) v (user_id p) (created_at p) (updated_at p).
Definition with_updated_at (v : Z) (p : t) : t :=
  mk (id p) (title p) (content p) (user_id p) (created_at p) v.

Record dict : Type := mk_dict {
  d_id : nat;
  d_title : string;
  d_content : string;
  d_user_id : nat;
  d_created_at : Z;
  d_updated_at : Z;
  d_author : option (nat * string);
  d_likes_count : option nat;
  d_comments_count : option nat
}.
End Post.

Module Comment.
Record t : Type := mk {
  id : nat;
  content : string;
  user_id : nat;
  post_id : nat;
  created_at : Z;
  updated_at : Z
}.

Definition with_content (v : string) (c : t) : t :=
  mk (id c) v (user_id c) (post_id c) (created_at c) (updated_at c).
Definition with_updated_at (v : Z) (c : t) : t :=
  mk (id c) (content c) (user_id c) (post_id c) (created_at c) v.

Record dict : Type := mk_dict {
  d_id : nat;
  d_content : string;
  d_user_id : nat;
  d_post_id : nat;
  d_created_at : Z;
  d_updated_at : Z;
  d_author : option (nat * string);
  d_likes_count : option nat
}.
End Comment.

Module Like.

(** [post_id] and [comment_id] are the two nullable columns. *)
Record t : Type := mk {
  id : nat;
  user_id : nat;
  post_id : option nat;
  comment_id : option nat;
  created_at : Z
}.
End Like.

(** The four tables. *)
Record database : Type := mk_database {
  users : list User.t;
  posts : list Post.t;
  comments : list Comment.t;
  likes : list Like.t
}.

Definition empty_database : database := mk_database [] [] [] [].

Definition with_users (v : list User.t) (d : database) : database :=
  mk_database v (posts d) (comments d) (likes d).
Definition with_posts (v : list Post.t) (d : database) : database :=
  mk_database (users d) v (comments d) (likes d).
Definition with_comments (v : list Comment.t) (d : database) : database :=
  mk_database (users d) (posts d) v (likes d).
Definition with_likes (v : list Like.t) (d : database) : database :=
  mk_database (users d) (posts d) (comments d) v.

(** Equality of nullable integer columns, as [filter_by(col=v)] compares
    them: [col=None] is rendered IS NULL. *)
Definition opt_eqb (a b : option nat) : bool :=
  match a, b with
  | Some x, Some y => x =? y
  | None, None => true
  | _, _ => false
  end.

Definition is_none {A : Type} (o : option A) : bool :=
  match o with None => true | Some _ => false end.

Definition is_some {A : Type} (o : option A) : bool := negb (is_none o).

(** An INTEGER PRIMARY KEY of SQLite: one more than the largest key in use. *)
Definition next_id (ids : list nat) : nat := S (list_max ids).

(* ===================================================================== *)
(** * Requests and responses                                              *)
(* ===================================================================== *)

(** The JSON object of a request body.  Each key the handlers look at is a
    field, [None] when the key is absent; values have the type the
    docstrings of app.py document (strings, a boolean for is_admin).  A
    value of another type, [null] included, is no value of this type: what
    the handlers do with one (a [null] title reaches [commit] and fails the
    NOT NULL constraint) is not stated here. *)
Record json : Type := mk_json {
  j_username : option string;
  j_email : option string;
  j_password : option string;
  j_is_admin : option bool;
  j_title : option string;
  j_content : option string;
  j_current_password : option string;
  j_new_password : option string
}.

(** The Authorization header after [jwt.decode] has checked the signature:
    absent, not a token signed with SECRET_KEY, or the signed claims.  The
    only code that signs is [login], which writes the id of a stored row as
    [user_id]; a signed token without [user_id], on which [token_required]
    would raise KeyError, takes SECRET_KEY to make and is no value of this
    type. *)
Inductive authorization : Type :=
| NoHeader
| BadToken
| Bearer (user_id : nat) (exp : Z).

(** Flask's [request]: header, body as [request.get_json()] returns it
    ([None] when it returned None, which is the body [null]; else the JSON
    object), query parameters, and the clock [datetime.utcnow()].  A request
    with no JSON body at all does not get that far on Flask 2.1 and later:
    [get_json()] itself answers it 415, or 400 when the body does not parse,
    before the handler's next line, and it is no value of this type. *)
Record request : Type := mk_request {
  headers_Authorization : authorization;
  get_json : option json;
  args_page : option Z;
  args_per_page : option Z;
  args_q : option string;
  utcnow : Z
}.

(** config.py: JWT_EXPIRATION_DELTA = timedelta(hours=24) *)
Definition JWT_EXPIRATION_DELTA : Z := (24 * 3600)%Z.

Inductive message : Type :=
| Token_manquant
| Utilisateur_non_trouve
| Token_expire
| Token_invalide
| Acces_refuse_droits_administrateur_requis
| Donnees_incompletes
| Nom_d_utilisateur_deja_existant
| Email_deja_existant
| Utilisateur_cree_avec_succes
| Connexion_reussie
| Identifiants_incorrects
| Vous_ne_pouvez_pas_supprimer_votre_propre_compte
| Utilisateur_supprime_avec_succes
| Vous_ne_pouvez_pas_modifier_vos_propres_droits_admin
| Utilisateur_mis_a_jour_avec_succes
| Post_non_trouve
| Titre_et_contenu_requis
| Post_cree_avec_succes
| Acces_refuse
| Post_mis_a_jour_avec_succes
| Post_supprime_avec_succes
| Contenu_requis
| Commentaire_cree_avec_succes
| Commentaire_non_trouve
| Commentaire_mis_a_jour_avec_succes
| Commentaire_supprime_avec_succes
| Like_retire
| Post_like
| Commentaire_like
| Profil_mis_a_jour_avec_succes
| Mot_de_passe_actuel_et_nouveau_mot_de_passe_requis
| Mot_de_passe_actuel_incorrect
| Le_nouveau_mot_de_passe_doit_contenir_au_moins_6_caracteres
| Mot_de_passe_mis_a_jour_avec_succes
| La_recherche_doit_contenir_au_moins_2_caracteres.

(** One entry of the list built by [get_post_likes]. *)
Record like_entry : Type := mk_like_entry {
  le_id : nat;
  le_user : nat * string;
  le_created_at : Z
}.

(** What [jsonify] is given. *)
Inductive body : Type :=
| Msg (m : message)
| MsgUser (m : message) (user : User.dict)
| MsgTokenUser (m : message) (token : authorization) (user : User.dict)
| OneUser (user : User.dict)
| UserList (l : list User.dict)
| PostPage (l : list Post.dict) (total : nat) (page per_page total_pages : Z)
| OnePost (post : Post.dict)
| MsgPost (m : message) (post : Post.dict)
| CommentList (l : list Comment.dict)
| MsgComment (m : message) (comment : Comment.dict)
| MsgLiked (m : message) (liked : bool) (likes_count : nat)
| LikeList (l : list like_entry) (total : nat)
| Liked (liked : bool)
| Profile (user : User.dict) (recent_posts : list Post.dict)
          (total_posts total_comments total_likes : nat)
| SearchResult (l : list Post.dict) (total : nat) (query : string).

(** [jsonify(...), status] *)
Definition response : Type := (body * nat)%type.

Definition status (r : response) : nat := snd r.

Definition is_2xx (r : response) : bool :=
  (200 <=? status r) && (status r <? 300).

(* ===================================================================== *)
(** * The unit of work                                                    *)
(* ===================================================================== *)

Record session : Type := mk_session {
  pending : database;
  stored : database
}.

Inductive exn : Type :=
| TypeError
| KeyError
| AttributeError
| ZeroDivisionError
| ObjectDeletedError
| OverflowError.

Inductive outcome (A : Type) : Type :=
| Val (a : A)
| Return (r : response)
| Raise (e : exn).

Arguments Val {A} a.
Arguments Return {A} r.
Arguments Raise {A} e.

Definition M (A : Type) : Type := session -> outcome A * session.

Definition ret {A : Type} (a : A) : M A := fun s => (Val a, s).

Definition bind {A B : Type} (m : M A) (k : A -> M B) : M B :=
  fun s =>
    match m s with
    | (Val a, s') => k a s'
    | (Return r, s') => (Return r, s')
    | (Raise e, s') => (Raise e, s')
    end.

(** Python's [return] statement. *)
Definition return_ {A : Type} (r : response) : M A := fun s => (Return r, s).

Definition raise {A : Type} (e : exn) : M A := fun s => (Raise e, s).

Declare Scope py_scope.
Delimit Scope py_scope with py.
Notation "x <- m ;; k" := (bind m (fun x => k))
  (at level 61, m at next level, right associativity) : py_scope.
Notation "m ;; k" := (bind m (fun _ => k))
  (at level 61, right associativity) : py_scope.
Local Open Scope py_scope.

(** [if c: body] where the body is a statement. *)
Definition when (c : bool) (m : M unit) : M unit :=
  if c then m else ret tt.

(** Reading and writing the pending state. *)
Definition query {A : Type} (f : database -> A) : M A :=
  fun s => (Val (f (pending s)), s).

Definition modify (f : database -> database) : M unit :=
  fun s => (Val tt, mk_session (f (pending s)) (stored s)).

(** [db.session.commit()] *)
Definition commit : M unit :=
  fun s => (Val tt, mk_session (pending s) (pending s)).

(** What a request leaves behind: a response or an uncaught exception, and
    the stored state once the session has been removed. *)
Inductive result : Type :=
| Responded (r : response)
| Crashed (e : exn).

Definition run (h : M response) (db : database) : result * database :=
  match h (mk_session db db) with
  | (Val r, s) => (Responded r, stored s)
  | (Return r, s) => (Responded r, stored s)
  | (Raise e, s) => (Crashed e, stored s)
  end.

(* ===================================================================== *)
(** * Python values                                                       *)
(* ===================================================================== *)

(** Truth value of [data.get(key)]: a missing key gives None, and the empty
    string is false too. *)
Definition truthy (v : option string) : bool :=
  match v with
  | Some s => negb (String.eqb s "")
  | None => false
  end.

Definition json_is_empty (d : json) : bool :=
  is_none (j_username d) && is_none (j_email d) && is_none (j_password d)
  && is_none (j_is_admin d) && is_none (j_title d) && is_none (j_content d)
  && is_none (j_current_password d) && is_none (j_new_password d).

(** [not data]: None, or an object with none of the keys above.  (An object
    holding only other keys is not empty for Python; app.py only ever tests
    [not data or not data.get(key)], which is true for it all the same.) *)
Definition not_ (data : option json) : bool :=
  match data with
  | None => true
  | Some d => json_is_empty d
  end.

(** [key in data]: a TypeError when data is None. *)
Definition contains {A : Type} (key : json -> option A) (data : option json)
  : M bool :=
  match data with
  | None => raise TypeError
  | Some d => ret (is_some (key d))
  end.

(** [data[key]] *)
Definition getitem {A : Type} (key : json -> option A) (data : option json)
  : M A :=
  match data with
  | None => raise TypeError
  | Some d => match key d with
              | Some v => ret v
              | None => raise KeyError
              end
  end.

(** [data.get(key)]: an AttributeError when data is None. *)
Definition get {A : Type} (key : json -> option A) (data : option json)
  : M (option A) :=
  match data with
  | None => raise AttributeError
  | Some d => ret (key d)
  end.

(** [not data.get(key)] *)
Definition not_get (key : json -> option string) (data : option json)
  : M bool :=
  v <- get key data ;; ret (negb (truthy v)).

(** Python's short-circuit [or] and [and] on conditions. *)
Definition or_ (a b : M bool) : M bool :=
  x <- a ;; if x then ret true else b.

Definition and_ (a b : M bool) : M bool :=
  x <- a ;; if x then b else ret false.

(* ===================================================================== *)
(** * Queries                                                             *)
(* ===================================================================== *)

(** The integers the SQLite driver binds are signed 64 bit; Python's have
    no bound, and binding one outside the range raises OverflowError. *)
Definition sqlite_integer (v : Z) : bool :=
  (- 2 ^ 63 <=? v)%Z && (v <? 2 ^ 63)%Z.

(** A primary key the driver can bind. *)
Definition sqlite_key (k : nat) : bool := sqlite_integer (Z.of_nat k).

(** [Model.query.get(pk)].  The key of a stored row is a [sqlite_key].  For
    a key from a URL that is not one, the driver raises OverflowError before
    it looks for a row: these definitions leave that path out, and the
    statements about a key with no row take [sqlite_key] as a hypothesis. *)
Definition User_query_get (pk : nat) : M (option User.t) :=
  query (fun d => find (fun u => User.id u =? pk) (users d)).

Definition Post_query_get (pk : nat) : M (option Post.t) :=
  query (fun d => find (fun p => Post.id p =? pk) (posts d)).

Definition Comment_query_get (pk : nat) : M (option Comment.t) :=
  query (fun d => find (fun c => Comment.id c =? pk) (comments d)).

(** [User.query.filter_by(username=v).first()] *)
Definition User_query_filter_by_username (v : string) : M (option User.t) :=
  query (fun d => find (fun u => String.eqb (User.username u) v) (users d)).

(** [User.query.filter_by(email=v).first()] *)
Definition User_query_filter_by_email (v : string) : M (option User.t) :=
  query (fun d => find (fun u => String.eqb (User.email u) v) (users d)).

(** The row filter of [filter_by(user_id=u, post_id=p, comment_id=c)]. *)
Definition like_by (u : nat) (p c : option nat) (l : Like.t) : bool :=
  (Like.user_id l =? u) && opt_eqb (Like.post_id l) p
  && opt_eqb (Like.comment_id l) c.

(** The row filter of [filter_by(post_id=p, comment_id=c)]. *)
Definition like_on (p c : option nat) (l : Like.t) : bool :=
  opt_eqb (Like.post_id l) p && opt_eqb (Like.comment_id l) c.

Definition Like_query_filter_by_first (u : nat) (p c : option nat)
  : M (option Like.t) :=
  query (fun d => find (like_by u p c) (likes d)).

Definition Like_query_filter_by_all (p c : option nat) : M (list Like.t) :=
  query (fun d => filter (like_on p c) (likes d)).

(** The relationships of models.py. *)

(** [Post.likes]: and_(Post.id==Like.post_id, Like.comment_id==None) *)
Definition Post_likes (d : database) (pk : nat) : list Like.t :=
  filter (like_on (Some pk) None) (likes d).

(** [Post.comments] *)
Definition Post_comments (d : database) (pk : nat) : list Comment.t :=
  filter (fun c => Comment.post_id c =? pk) (comments d).

(** [Comment.likes]: and_(Comment.id==Like.comment_id, Like.post_id==None) *)
Definition Comment_likes (d : database) (pk : nat) : list Like.t :=
  filter (like_on None (Some pk)) (likes d).

(** [User.posts], [User.comments], [User.likes] *)
Definition User_posts (d : database) (pk : nat) : list Post.t :=
  filter (fun p => Post.user_id p =? pk) (posts d).

Definition User_comments (d : database) (pk : nat) : list Comment.t :=
  filter (fun c => Comment.user_id c =? pk) (comments d).

Definition User_likes (d : database) (pk : nat) : list Like.t :=
  filter (fun l => Like.user_id l =? pk) (likes d).

(** [ORDER BY created_at]: a stable insertion sort. *)
Section OrderBy.
Variable A : Type.
Variable key : A -> Z.

Fixpoint insert_desc (x : A) (l : list A) : list A :=
  match l with
  | [] => [x]
  | y :: l' => if (key x <? key y)%Z then y :: insert_desc x l'
               else x :: y :: l'
  end.

Definition order_by_desc (l : list A) : list A :=
  fold_right insert_desc [] l.

Fixpoint insert_asc (x : A) (l : list A) : list A :=
  match l with
  | [] => [x]
  | y :: l' => if (key y <? key x)%Z then y :: insert_asc x l'
               else x :: y :: l'
  end.

Definition order_by_asc (l : list A) : list A :=
  fold_right insert_asc [] l.
End OrderBy.

(** [OFFSET n] and [LIMIT n] of SQLite: a negative offset is 0, a negative
    limit is no limit. *)
Definition offset {A : Type} (n : Z) (l : list A) : list A :=
  skipn (Z.to_nat n) l.

Definition limit {A : Type} (n : Z) (l : list A) : list A :=
  if (n <? 0)%Z then l else firstn (Z.to_nat n) l.

(* ===================================================================== *)
(** * Writes                                                              *)
(* ===================================================================== *)

(** Assigning to attributes of a loaded object: the row with that primary
    key is rewritten in the pending state. *)
Definition update_row {A : Type} (id : A -> nat) (pk : nat) (f : A -> A)
  (l : list A) : list A :=
  map (fun r => if id r =? pk then f r else r) l.

Definition User_set (user : User.t) (f : User.t -> User.t) : M unit :=
  modify (fun d => with_users (update_row User.id (User.id user) f (users d)) d).

Definition Post_set (post : Post.t) (f : Post.t -> Post.t) : M unit :=
  modify (fun d => with_posts (update_row Post.id (Post.id post) f (posts d)) d).

Definition Comment_set (comment : Comment.t) (f : Comment.t -> Comment.t)
  : M unit :=
  modify (fun d =>
    with_comments (update_row Comment.id (Comment.id comment) f (comments d)) d).

(** Model constructors: the primary key and [created_at] are filled in when
    the object is added ([default=datetime.utcnow]). *)
Definition User_ (username email : string) (is_admin : bool) : User.t :=
  User.mk 0 username email (Hashed "") is_admin 0%Z.

Definition Post_ (title content : string) (user_id : nat) : Post.t :=
  Post.mk 0 title content user_id 0%Z 0%Z.

Definition Comment_ (content : string) (user_id post_id : nat) : Comment.t :=
  Comment.mk 0 content user_id post_id 0%Z 0%Z.

Definition Like_ (user_id : nat) (post_id comment_id : option nat) : Like.t :=
  Like.mk 0 user_id post_id comment_id 0%Z.

(** [db.session.add(obj)]: the new row, with its key, is what the handler
    holds afterwards. *)
Definition add_user (now : Z) (u : User.t) : M User.t :=
  fun s =>
    let d := pending s in
    let row := User.mk (next_id (map User.id (users d))) (User.username u)
                 (User.email u) (User.password_hash u) (User.is_admin u) now in
    (Val row, mk_session (with_users (users d ++ [row]) d) (stored s)).

Definition add_post (now : Z) (p : Post.t) : M Post.t :=
  fun s =>
    let d := pending s in
    let row := Post.mk (next_id (map Post.id (posts d))) (Post.title p)
                 (Post.content p) (Post.user_id p) now now in
    (Val row, mk_session (with_posts (posts d ++ [row]) d) (stored s)).

Definition add_comment (now : Z) (c : Comment.t) : M Comment.t :=
  fun s =>
    let d := pending s in
    let row := Comment.mk (next_id (map Comment.id (comments d)))
                 (Comment.content c) (Comment.user_id c) (Comment.post_id c)
                 now now in
    (Val row, mk_session (with_comments (comments d ++ [row]) d) (stored s)).

Definition add_like (now : Z) (l : Like.t) : M Like.t :=
  fun s =>
    let d := pending s in
    let row := Like.mk (next_id (map Like.id (likes d))) (Like.user_id l)
                 (Like.post_id l) (Like.comment_id l) now in
    (Val row, mk_session (with_likes (likes d ++ [row]) d) (stored s)).

(** [db.session.delete(obj)] with the cascades of the relationships
    ([cascade='all, delete-orphan']). *)
Definition delete_like_row (pk : nat) (d : database) : database :=
  with_likes (filter (fun l => negb (Like.id l =? pk)) (likes d)) d.

Definition delete_comment_row (pk : nat) (d : database) : database :=
  with_comments (filter (fun c => negb (Comment.id c =? pk)) (comments d))
    (with_likes (filter (fun l => negb (like_on None (Some pk) l)) (likes d)) d).

Definition delete_post_row (pk : nat) (d : database) : database :=
  let d1 := fold_right (fun c acc => delete_comment_row (Comment.id c) acc) d
              (Post_comments d pk) in
  with_posts (filter (fun p => negb (Post.id p =? pk)) (posts d1))
    (with_likes (filter (fun l => negb (like_on (Some pk) None l)) (likes d1))
       d1).

Definition delete_user_row (pk : nat) (d : database) : database :=
  let d1 := fold_right (fun p acc => delete_post_row (Post.id p) acc) d
              (User_posts d pk) in
  let d2 := fold_right (fun c acc => delete_comment_row (Comment.id c) acc) d1
              (User_comments d pk) in
  with_users (filter (fun u => negb (User.id u =? pk)) (users d2))
    (with_likes (filter (fun l => negb (Like.user_id l =? pk)) (likes d2)) d2).

Definition session_delete_user (user : User.t) : M unit :=
  modify (delete_user_row (User.id user)).

Definition session_delete_post (post : Post.t) : M unit :=
  modify (delete_post_row (Post.id post)).

Definition session_delete_comment (comment : Comment.t) : M unit :=
  modify (delete_comment_row (Comment.id comment)).

Definition session_delete_like (like : Like.t) : M unit :=
  modify (delete_like_row (Like.id like)).

(* ===================================================================== *)
(** * to_dict                                                             *)
(* ===================================================================== *)

(** Attributes are read from the session: after a commit the object is
    expired and reloaded by primary key. *)
Definition User_to_dict (user : User.t) : M User.dict :=
  row <- User_query_get (User.id user) ;;
  match row with
  | None => raise ObjectDeletedError
  | Some u => ret (User.mk_dict (User.id u) (User.username u) (User.email u)
                     (User.is_admin u) (User.created_at u))
  end.

(** [self.author], through the backref of [User.posts] / [User.comments]. *)
Definition author_of (d : database) (user_id : nat) : option (nat * string) :=
  match find (fun u => User.id u =? user_id) (users d) with
  | Some a => Some (User.id a, User.username a)
  | None => None
  end.

Definition Post_dict_of (d : database) (include_author include_stats : bool)
  (p : Post.t) : Post.dict :=
  Post.mk_dict (Post.id p) (Post.title p) (Post.content p) (Post.user_id p)
    (Post.created_at p) (Post.updated_at p)
    (if include_author then author_of d (Post.user_id p) else None)
    (if include_stats
     then Some (List.length (filter (fun l => is_none (Like.comment_id l))
                               (Post_likes d (Post.id p))))
     else None)
    (if include_stats then Some (List.length (Post_comments d (Post.id p)))
     else None).

Definition Post_to_dict (include_author include_stats : bool) (post : Post.t)
  : M Post.dict :=
  row <- Post_query_get (Post.id post) ;;
  match row with
  | None => raise ObjectDeletedError
  | Some p => query (fun d => Post_dict_of d include_author include_stats p)
  end.

Definition Comment_dict_of (d : database) (include_author include_stats : bool)
  (c : Comment.t) : Comment.dict :=
  Comment.mk_dict (Comment.id c) (Comment.content c) (Comment.user_id c)
    (Comment.post_id c) (Comment.created_at c) (Comment.updated_at c)
    (if include_author then author_of d (Comment.user_id c) else None)
    (if include_stats
     then Some (List.length (filter (fun l => is_none (Like.post_id l))
                               (Comment_likes d (Comment.id c))))
     else None).

Definition Comment_to_dict (include_author include_stats : bool)
  (comment : Comment.t) : M Comment.dict :=
  row <- Comment_query_get (Comment.id comment) ;;
  match row with
  | None => raise ObjectDeletedError
  | Some c => query (fun d => Comment_dict_of d include_author include_stats c)
  end.

(* ===================================================================== *)
(** * app.py: decorators                                                  *)
(* ===================================================================== *)

(** [token_required].  [jwt.decode] raises ExpiredSignatureError when the
    [exp] claim is not in the future. *)
Definition token_required (f : User.t -> M response) (req : request)
  : M response :=
  match headers_Authorization req with
  | NoHeader => return_ (Msg Token_manquant, 401)
  | BadToken => return_ (Msg Token_invalide, 401)
  | Bearer user_id exp =>
      if (exp <=? utcnow req)%Z then return_ (Msg Token_expire, 401)
      else
        current_user <- User_query_get user_id ;;
        match current_user with
        | None => return_ (Msg Utilisateur_non_trouve, 401)
        | Some current_user => f current_user
        end
  end.

(** [admin_required] *)
Definition admin_required (f : User.t -> M response) (current_user : User.t)
  : M response :=
  if negb (User.is_admin current_user)
  then return_ (Msg Acces_refuse_droits_administrateur_requis, 403)
  else f current_user.

(* ===================================================================== *)
(** * app.py: authentication                                              *)
(* ===================================================================== *)

(** [register] *)
Definition register (req : request) : M response :=
  let data := get_json req in
  c <- or_ (ret (not_ data))
         (or_ (not_get j_username data)
            (or_ (not_get j_email data) (not_get j_password data))) ;;
  when c (return_ (Msg Donnees_incompletes, 400)) ;;
  username <- getitem j_username data ;;
  existing <- User_query_filter_by_username username ;;
  when (is_some existing)
    (return_ (Msg Nom_d_utilisateur_deja_existant, 409)) ;;
  email <- getitem j_email data ;;
  existing <- User_query_filter_by_email email ;;
  when (is_some existing) (return_ (Msg Email_deja_existant, 409)) ;;
  is_admin <- get j_is_admin data ;;
  let user := User_ username email
                (match is_admin with Some b => b | None => false end) in
  password <- getitem j_password data ;;
  let user := User.set_password password user in
  user <- add_user (utcnow req) user ;;
  commit ;;
  d <- User_to_dict user ;;
  return_ (MsgUser Utilisateur_cree_avec_succes d, 201).

(** [login] *)
Definition login (req : request) : M response :=
  let data := get_json req in
  c <- or_ (ret (not_ data))
         (or_ (not_get j_username data) (not_get j_password data)) ;;
  when c (return_ (Msg Donnees_incompletes, 400)) ;;
  username <- getitem j_username data ;;
  user <- User_query_filter_by_username username ;;
  match user with
  | None => return_ (Msg Identifiants_incorrects, 401)
  | Some user =>
      password <- getitem j_password data ;;
      if negb (User.check_password user password)
      then return_ (Msg Identifiants_incorrects, 401)
      else
        let token := Bearer (User.id user)
                       (utcnow req + JWT_EXPIRATION_DELTA)%Z in
        d <- User_to_dict user ;;
        return_ (MsgTokenUser Connexion_reussie token d, 200)
  end.

(** [get_current_user] *)
Definition get_current_user (current_user : User.t) : M response :=
  d <- User_to_dict current_user ;;
  return_ (OneUser d, 200).

(* ===================================================================== *)
(** * app.py: administration                                              *)
(* ===================================================================== *)

(** [get_all_users] *)
Definition get_all_users (current_user : User.t) : M response :=
  l <- query users ;;
  return_ (UserList (map (fun u => User.mk_dict (User.id u) (User.username u)
                            (User.email u) (User.is_admin u)
                            (User.created_at u)) l), 200).

(** [delete_user] *)
Definition delete_user (current_user : User.t) (user_id : nat) : M response :=
  when (User.id current_user =? user_id)
    (return_ (Msg Vous_ne_pouvez_pas_supprimer_votre_propre_compte, 400)) ;;
  user <- User_query_get user_id ;;
  match user with
  | None => return_ (Msg Utilisateur_non_trouve, 404)
  | Some user =>
      session_delete_user user ;;
      commit ;;
      return_ (Msg Utilisateur_supprime_avec_succes, 200)
  end.

(** [update_user] *)
Definition update_user (current_user : User.t) (user_id : nat) (req : request)
  : M response :=
  user <- User_query_get user_id ;;
  match user with
  | None => return_ (Msg Utilisateur_non_trouve, 404)
  | Some user =>
      let data := get_json req in
      b <- contains j_username data ;;
      when b
        (v <- getitem j_username data ;;
         existing <- User_query_filter_by_username v ;;
         when (match existing with
               | Some e => negb (User.id e =? user_id)
               | None => false
               end)
           (return_ (Msg Nom_d_utilisateur_deja_existant, 409)) ;;
         v <- getitem j_username data ;;
         User_set user (User.with_username v)) ;;
      b <- contains j_email data ;;
      when b
        (v <- getitem j_email data ;;
         existing <- User_query_filter_by_email v ;;
         when (match existing with
               | Some e => negb (User.id e =? user_id)
               | None => false
               end)
           (return_ (Msg Email_deja_existant, 409)) ;;
         v <- getitem j_email data ;;
         User_set user (User.with_email v)) ;;
      b <- contains j_is_admin data ;;
      when b
        (when (User.id current_user =? user_id)
           (return_
              (Msg Vous_ne_pouvez_pas_modifier_vos_propres_droits_admin, 400)) ;;
         v <- getitem j_is_admin data ;;
         User_set user (User.with_is_admin v)) ;;
      b <- and_ (contains j_password data)
             (v <- getitem j_password data ;; ret (truthy (Some v))) ;;
      when b
        (v <- getitem j_password data ;;
         User_set user (User.set_password v)) ;;
      commit ;;
      d <- User_to_dict user ;;
      return_ (MsgUser Utilisateur_mis_a_jour_avec_succes d, 200)
  end.

(* ===================================================================== *)
(** * app.py: posts                                                       *)
(* ===================================================================== *)

(** [(total + per_page - 1) // per_page]; Python's [//] on integers is the
    floor division [Z.div]. *)
Definition total_pages (total per_page : Z) : Z :=
  ((total + per_page - 1) / per_page)%Z.

(** [get_posts].  [.all()] binds the offset and the limit: OverflowError
    when one of them is no [sqlite_integer]. *)
Definition get_posts (req : request) : M response :=
  let page := match args_page req with Some v => v | None => 1%Z end in
  let per_page := match args_per_page req with Some v => v | None => 10%Z end in
  posts_query <- query (fun d => order_by_desc Post.created_at (posts d)) ;;
  let total := List.length posts_query in
  when (negb (sqlite_integer ((page - 1) * per_page)%Z
              && sqlite_integer per_page))
    (raise OverflowError) ;;
  let l := limit per_page (offset ((page - 1) * per_page)%Z posts_query) in
  dicts <- query (fun d => map (Post_dict_of d true true) l) ;;
  when (per_page =? 0)%Z (raise ZeroDivisionError) ;;
  return_ (PostPage dicts total page per_page
             (total_pages (Z.of_nat total) per_page), 200).

(** [get_post] *)
Definition get_post (post_id : nat) : M response :=
  post <- Post_query_get post_id ;;
  match post with
  | None => return_ (Msg Post_non_trouve, 404)
  | Some post =>
      d <- Post_to_dict true true post ;;
      return_ (OnePost d, 200)
  end.

(** [create_post] *)
Definition create_post (current_user : User.t) (req : request) : M response :=
  let data := get_json req in
  c <- or_ (ret (not_ data))
         (or_ (not_get j_title data) (not_get j_content data)) ;;
  when c (return_ (Msg Titre_et_contenu_requis, 400)) ;;
  title <- getitem j_title data ;;
  content <- getitem j_content data ;;
  let post := Post_ title content (User.id current_user) in
  post <- add_post (utcnow req) post ;;
  commit ;;
  d <- Post_to_dict true true post ;;
  return_ (MsgPost Post_cree_avec_succes d, 201).

(** [update_post] *)
Definition update_post (current_user : User.t) (post_id : nat) (req : request)
  : M response :=
  post <- Post_query_get post_id ;;
  match post with
  | None => return_ (Msg Post_non_trouve, 404)
  | Some post =>
      when (negb (Post.user_id post =? User.id current_user)
            && negb (User.is_admin current_user))
        (return_ (Msg Acces_refuse, 403)) ;;
      let data := get_json req in
      b <- contains j_title data ;;
      when b
        (v <- getitem j_title data ;; Post_set post (Post.with_title v)) ;;
      b <- contains j_content data ;;
      when b
        (v <- getitem j_content data ;; Post_set post (Post.with_content v)) ;;
      Post_set post (Post.with_updated_at (utcnow req)) ;;
      commit ;;
      d <- Post_to_dict true true post ;;
      return_ (MsgPost Post_mis_a_jour_avec_succes d, 200)
  end.

(** [delete_post] *)
Definition delete_post (current_user : User.t) (post_id : nat) : M response :=
  post <- Post_query_get post_id ;;
  match post with
  | None => return_ (Msg Post_non_trouve, 404)
  | Some post =>
      when (negb (Post.user_id post =? User.id current_user)
            && negb (User.is_admin current_user))
        (return_ (Msg Acces_refuse, 403)) ;;
      session_delete_post post ;;
      commit ;;
      return_ (Msg Post_supprime_avec_succes, 200)
  end.

(* ===================================================================== *)
(** * app.py: comments                                                    *)
(* ===================================================================== *)

(** [get_comments] *)
Definition get_comments (post_id : nat) : M response :=
  post <- Post_query_get post_id ;;
  match post with
  | None => return_ (Msg Post_non_trouve, 404)
  | Some post =>
      l <- query (fun d =>
             map (Comment_dict_of d true true)
               (order_by_asc Comment.created_at
                  (filter (fun c => Comment.post_id c =? post_id)
                          (comments d)))) ;;
      return_ (CommentList l, 200)
  end.

(** [create_comment] *)
Definition create_comment (current_user : User.t) (post_id : nat)
  (req : request) : M response :=
  post <- Post_query_get post_id ;;
  match post with
  | None => return_ (Msg Post_non_trouve, 404)
  | Some post =>
      let data := get_json req in
      c <- or_ (ret (not_ data)) (not_get j_content data) ;;
      when c (return_ (Msg Contenu_requis, 400)) ;;
      content <- getitem j_content data ;;
      let comment := Comment_ content (User.id current_user) post_id in
      comment <- add_comment (utcnow req) comment ;;
      commit ;;
      d <- Comment_to_dict true true comment ;;
      return_ (MsgComment Commentaire_cree_avec_succes d, 201)
  end.

(** [update_comment] *)
Definition update_comment (current_user : User.t) (comment_id : nat)
  (req : request) : M response :=
  comment <- Comment_query_get comment_id ;;
  match comment with
  | None => return_ (Msg Commentaire_non_trouve, 404)
  | Some comment =>
      when (negb (Comment.user_id comment =? User.id current_user)
            && negb (User.is_admin current_user))
        (return_ (Msg Acces_refuse, 403)) ;;
      let data := get_json req in
      c <- or_ (ret (not_ data)) (not_get j_content data) ;;
      when c (return_ (Msg Contenu_requis, 400)) ;;
      v <- getitem j_content data ;;
      Comment_set comment (Comment.with_content v) ;;
      Comment_set comment (Comment.with_updated_at (utcnow req)) ;;
      commit ;;
      d <- Comment_to_dict true true comment ;;
      return_ (MsgComment Commentaire_mis_a_jour_avec_succes d, 200)
  end.

(** [delete_comment] *)
Definition delete_comment (current_user : User.t) (comment_id : nat)
  : M response :=
  comment <- Comment_query_get comment_id ;;
  match comment with
  | None => return_ (Msg Commentaire_non_trouve, 404)
  | Some comment =>
      when (negb (Comment.user_id comment =? User.id current_user)
            && negb (User.is_admin current_user))
        (return_ (Msg Acces_refuse, 403)) ;;
      session_delete_comment comment ;;
      commit ;;
      return_ (Msg Commentaire_supprime_avec_succes, 200)
  end.

(* ===================================================================== *)
(** * app.py: likes                                                       *)
(* ===================================================================== *)

(** [toggle_post_like] *)
Definition toggle_post_like (current_user : User.t) (post_id : nat)
  (req : request) : M response :=
  post <- Post_query_get post_id ;;
  match post with
  | None => return_ (Msg Post_non_trouve, 404)
  | Some post =>
      existing_like <- Like_query_filter_by_first (User.id current_user)
                         (Some post_id) None ;;
      match existing_like with
      | Some existing_like =>
          session_delete_like existing_like ;;
          commit ;;
          l <- query (fun d => Post_likes d (Post.id post)) ;;
          return_ (MsgLiked Like_retire false
                     (List.length
                        (filter (fun like => is_none (Like.comment_id like)) l)),
                   200)
      | None =>
          let like := Like_ (User.id current_user) (Some post_id) None in
          _ <- add_like (utcnow req) like ;;
          commit ;;
          l <- query (fun d => Post_likes d (Post.id post)) ;;
          return_ (MsgLiked Post_like true
                     (List.length
                        (filter (fun like => is_none (Like.comment_id like)) l)),
                   201)
      end
  end.

(** [toggle_comment_like] *)
Definition toggle_comment_like (current_user : User.t) (comment_id : nat)
  (req : request) : M response :=
  comment <- Comment_query_get comment_id ;;
  match comment with
  | None => return_ (Msg Commentaire_non_trouve, 404)
  | Some comment =>
      existing_like <- Like_query_filter_by_first (User.id current_user)
                         None (Some comment_id) ;;
      match existing_like with
      | Some existing_like =>
          session_delete_like existing_like ;;
          commit ;;
          l <- query (fun d => Comment_likes d (Comment.id comment)) ;;
          return_ (MsgLiked Like_retire false
                     (List.length
                        (filter (fun like => is_none (Like.post_id like)) l)),
                   200)
      | None =>
          let like := Like_ (User.id current_user) None (Some comment_id) in
          _ <- add_like (utcnow req) like ;;
          commit ;;
          l <- query (fun d => Comment_likes d (Comment.id comment)) ;;
          return_ (MsgLiked Commentaire_like true
                     (List.length
                        (filter (fun like => is_none (Like.post_id like)) l)),
                   201)
      end
  end.

(** The list comprehension of [get_post_likes]: [like.user] is None when the
    user row is gone, and [like.user.id] then raises. *)
Fixpoint like_entries (d : database) (l : list Like.t)
  : option (list like_entry) :=
  match l with
  | [] => Some []
  | like :: l' =>
      match find (fun u => User.id u =? Like.user_id like) (users d) with
      | None => None
      | Some user =>
          match like_entries d l' with
          | None => None
          | Some es =>
              Some (mk_like_entry (Like.id like)
                      (User.id user, User.username user)
                      (Like.created_at like) :: es)
          end
      end
  end.

(** [get_post_likes] *)
Definition get_post_likes (post_id : nat) : M response :=
  post <- Post_query_get post_id ;;
  match post with
  | None => return_ (Msg Post_non_trouve, 404)
  | Some post =>
      l <- Like_query_filter_by_all (Some post_id) None ;;
      es <- query (fun d => like_entries d l) ;;
      match es with
      | None => raise AttributeError
      | Some es => return_ (LikeList es (List.length l), 200)
      end
  end.

(** [get_comment_likes] *)
Definition get_comment_likes (comment_id : nat) : M response :=
  comment <- Comment_query_get comment_id ;;
  match comment with
  | None => return_ (Msg Commentaire_non_trouve, 404)
  | Some comment =>
      l <- Like_query_filter_by_all None (Some comment_id) ;;
      es <- query (fun d => like_entries d l) ;;
      match es with
      | None => raise AttributeError
      | Some es => return_ (LikeList es (List.length l), 200)
      end
  end.

(** [check_user_liked_post] *)
Definition check_user_liked_post (current_user : User.t) (post_id : nat)
  : M response :=
  post <- Post_query_get post_id ;;
  match post with
  | None => return_ (Msg Post_non_trouve, 404)
  | Some post =>
      like <- Like_query_filter_by_first (User.id current_user)
                (Some post_id) None ;;
      return_ (Liked (is_some like), 200)
  end.

(** [check_user_liked_comment] *)
Definition check_user_liked_comment (current_user : User.t) (comment_id : nat)
  : M response :=
  comment <- Comment_query_get comment_id ;;
  match comment with
  | None => return_ (Msg Commentaire_non_trouve, 404)
  | Some comment =>
      like <- Like_query_filter_by_first (User.id current_user)
                None (Some comment_id) ;;
      return_ (Liked (is_some like), 200)
  end.

(* ===================================================================== *)
(** * app.py: profiles                                                    *)
(* ===================================================================== *)

(** [get_user_profile] *)
Definition get_user_profile (user_id : nat) : M response :=
  user <- User_query_get user_id ;;
  match user with
  | None => return_ (Msg Utilisateur_non_trouve, 404)
  | Some user =>
      l <- query (fun d =>
             limit 10 (order_by_desc Post.created_at (User_posts d user_id))) ;;
      total_posts <- query (fun d => List.length (User_posts d user_id)) ;;
      total_comments <- query (fun d => List.length (User_comments d user_id)) ;;
      total_likes <- query (fun d => List.length (User_likes d user_id)) ;;
      d <- User_to_dict user ;;
      dicts <- query (fun d => map (Post_dict_of d false true) l) ;;
      return_ (Profile d dicts total_posts total_comments total_likes, 200)
  end.

(** [update_own_profile] *)
Definition update_own_profile (current_user : User.t) (req : request)
  : M response :=
  let data := get_json req in
  b <- contains j_username data ;;
  when b
    (v <- getitem j_username data ;;
     existing <- User_query_filter_by_username v ;;
     when (match existing with
           | Some e => negb (User.id e =? User.id current_user)
           | None => false
           end)
       (return_ (Msg Nom_d_utilisateur_deja_existant, 409)) ;;
     v <- getitem j_username data ;;
     User_set current_user (User.with_username v)) ;;
  b <- contains j_email data ;;
  when b
    (v <- getitem j_email data ;;
     existing <- User_query_filter_by_email v ;;
     when (match existing with
           | Some e => negb (User.id e =? User.id current_user)
           | None => false
           end)
       (return_ (Msg Email_deja_existant, 409)) ;;
     v <- getitem j_email data ;;
     User_set current_user (User.with_email v)) ;;
  commit ;;
  d <- User_to_dict current_user ;;
  return_ (MsgUser Profil_mis_a_jour_avec_succes d, 200).

(** [update_password] *)
Definition update_password (current_user : User.t) (req : request)
  : M response :=
  let data := get_json req in
  c <- or_ (ret (not_ data))
         (or_ (not_get j_current_password data)
            (not_get j_new_password data)) ;;
  when c
    (return_ (Msg Mot_de_passe_actuel_et_nouveau_mot_de_passe_requis, 400)) ;;
  v <- getitem j_current_password data ;;
  when (negb (User.check_password current_user v))
    (return_ (Msg Mot_de_passe_actuel_incorrect, 401)) ;;
  v <- getitem j_new_password data ;;
  when (String.length v <? 6)
    (return_
       (Msg Le_nouveau_mot_de_passe_doit_contenir_au_moins_6_caracteres, 400)) ;;
  v <- getitem j_new_password data ;;
  User_set current_user (User.set_password v) ;;
  commit ;;
  return_ (Msg Mot_de_passe_mis_a_jour_avec_succes, 200).

(* ===================================================================== *)
(** * app.py: search                                                      *)
(* ===================================================================== *)

(** SQL's [lower()] as SQLite has it: the 26 ASCII letters. *)
Definition lower_ascii (c : ascii) : ascii :=
  let n := nat_of_ascii c in
  if (65 <=? n) && (n <=? 90) then ascii_of_nat (n + 32) else c.

Fixpoint lower (s : string) : string :=
  match s with
  | EmptyString => EmptyString
  | String c s' => String (lower_ascii c) (lower s')
  end.

(** The LIKE operator: [%] stands for any run of characters, [_] for any
    one character, every other character for itself. *)
Fixpoint like (pattern : string) : string -> bool :=
  match pattern with
  | EmptyString => fun text =>
      match text with EmptyString => true | String _ _ => false end
  | String p pattern' =>
      if Ascii.eqb p "%" then
        fix star (text : string) : bool :=
          like pattern' text
          || match text with
             | EmptyString => false
             | String _ text' => star text'
             end
      else if Ascii.eqb p "_" then fun text =>
        match text with
        | EmptyString => false
        | String _ text' => like pattern' text'
        end
      else fun text =>
        match text with
        | EmptyString => false
        | String c text' => Ascii.eqb p c && like pattern' text'
        end
  end.

(** [column.ilike(pattern)], rendered [lower(column) LIKE lower(pattern)]. *)
Definition ilike (column pattern : string) : bool :=
  like (lower pattern) (lower column).

(** [search_posts] *)
Definition search_posts (req : request) : M response :=
  let query_ := match args_q req with Some v => v | None => "" end in
  when (String.eqb query_ "" || (String.length query_ <? 2))
    (return_ (Msg La_recherche_doit_contenir_au_moins_2_caracteres, 400)) ;;
  let search_pattern := "%" ++ query_ ++ "%" in
  l <- query (fun d =>
         limit 50
           (order_by_desc Post.created_at
              (filter (fun p => ilike (Post.title p) search_pattern
                                || ilike (Post.content p) search_pattern)
                      (posts d)))) ;;
  dicts <- query (fun d => map (Post_dict_of d true true) l) ;;
  return_ (SearchResult dicts (List.length l) query_, 200).

(* ===================================================================== *)
(** * app.py: initialisation and routing                                  *)
(* ===================================================================== *)

(** The body of [create_tables], run before the first request of a server
    process: the default administrator of an empty users table. *)
Definition create_tables (now : Z) : M unit :=
  n <- query (fun d => List.length (users d)) ;;
  when (n =? 0)
    (let admin := User_ "admin" "admin@example.com" true in
     let admin := User.set_password "admin123" admin in
     _ <- add_user now admin ;;
     commit).

Definition run_create_tables (now : Z) (db : database) : database :=
  stored (snd (create_tables now (mk_session db db))).

(** The URL map: one constructor per [@app.route]. *)
Inductive route : Type :=
| POST_register
| POST_login
| GET_me
| GET_admin_users
| DELETE_admin_users (user_id : nat)
| PUT_admin_users (user_id : nat)
| GET_posts
| GET_posts_id (post_id : nat)
| POST_posts
| PUT_posts_id (post_id : nat)
| DELETE_posts_id (post_id : nat)
| GET_posts_comments (post_id : nat)
| POST_posts_comments (post_id : nat)
| PUT_comments_id (comment_id : nat)
| DELETE_comments_id (comment_id : nat)
| POST_posts_like (post_id : nat)
| POST_comments_like (comment_id : nat)
| GET_posts_likes (post_id : nat)
| GET_comments_likes (comment_id : nat)
| GET_posts_user_liked (post_id : nat)
| GET_comments_user_liked (comment_id : nat)
| GET_users_profile (user_id : nat)
| PUT_profile
| PUT_profile_password
| GET_posts_search.

(** The view function behind each route, decorators applied. *)
Definition view (rt : route) (req : request) : M response :=
  match rt with
  | POST_register => register req
  | POST_login => login req
  | GET_me => token_required get_current_user req
  | GET_admin_users => token_required (admin_required get_all_users) req
  | DELETE_admin_users user_id =>
      token_required (admin_required (fun u => delete_user u user_id)) req
  | PUT_admin_users user_id =>
      token_required (admin_required (fun u => update_user u user_id req)) req
  | GET_posts => get_posts req
  | GET_posts_id post_id => get_post post_id
  | POST_posts => token_required (fun u => create_post u req) req
  | PUT_posts_id post_id =>
      token_required (fun u => update_post u post_id req) req
  | DELETE_posts_id post_id =>
      token_required (fun u => delete_post u post_id) req
  | GET_posts_comments post_id => get_comments post_id
  | POST_posts_comments post_id =>
      token_required (fun u => create_comment u post_id req) req
  | PUT_comments_id comment_id =>
      token_required (fun u => update_comment u comment_id req) req
  | DELETE_comments_id comment_id =>
      token_required (fun u => delete_comment u comment_id) req
  | POST_posts_like post_id =>
      token_required (fun u => toggle_post_like u post_id req) req
  | POST_comments_like comment_id =>
      token_required (fun u => toggle_comment_like u comment_id req) req
  | GET_posts_likes post_id => get_post_likes post_id
  | GET_comments_likes comment_id => get_comment_likes comment_id
  | GET_posts_user_liked post_id =>
      token_required (fun u => check_user_liked_post u post_id) req
  | GET_comments_user_liked comment_id =>
      token_required (fun u => check_user_liked_comment u comment_id) req
  | GET_users_profile user_id => get_user_profile user_id
  | PUT_profile => token_required (fun u => update_own_profile u req) req
  | PUT_profile_password => token_required (fun u => update_password u req) req
  | GET_posts_search => search_posts req
  end.

(** One request served: the response and the database it leaves. *)
Definition handle (rt : route) (req : request) (db : database)
  : result * database :=
  run (view rt req) db.

(** The database states the server can be in: a fresh file, then any
    sequence of server starts and requests. *)
Inductive reachable : database -> Prop :=
| reach_fresh : reachable empty_database
| reach_start : forall now db,
    reachable db -> reachable (run_create_tables now db)
| reach_request : forall rt req db,
    reachable db -> reachable (snd (handle rt req db)).

(* ===================================================================== *)
(** * Properties of requests and states                                   *)
(* ===================================================================== *)

(** A valid token hands the handler the user it names. *)
Definition authenticated (req : request) (db : database) (u : User.t) : Prop :=
  exists exp,
    headers_Authorization req = Bearer (User.id u) exp
    /\ (utcnow req < exp)%Z
    /\ find (fun x => User.id x =? User.id u) (users db) = Some u.

(** The check constraint [check_like_target] of models.py. *)
Definition check_like_target (l : Like.t) : bool :=
  (is_some (Like.post_id l) && is_none (Like.comment_id l))
  || (is_none (Like.post_id l) && is_some (Like.comment_id l)).

(** The ways one request changes the likes table. *)
Inductive likes_step (l : list Like.t) : list Like.t -> Prop :=
| likes_same : likes_step l l
| likes_removed : forall f, likes_step l (filter f l)
| likes_added : forall u p c now,
    find (like_by u p c) l = None ->
    check_like_target (Like.mk 0 u p c now) = true ->
    likes_step l (l ++ [Like.mk (next_id (map Like.id l)) u p c now]).

(** Rows were deleted, none added or changed. *)
Definition removal (l l' : list Like.t) : Prop := exists f, l' = filter f l.

(** What one request does to the stored state: nothing, or a commit behind
    a 2xx response. *)
Inductive effect (db : database) : result * database -> Prop :=
| effect_none : forall r, effect db (r, db)
| effect_commit : forall r db',
    is_2xx r = true ->
    likes_step (likes db) (likes db') ->
    effect db (Responded r, db').

(** What a user can like. *)
Inductive target : Type :=
| OnPost (post_id : nat)
| OnComment (comment_id : nat).

Definition target_post (t : target) : option nat :=
  match t with OnPost k => Some k | OnComment _ => None end.

Definition target_comment (t : target) : option nat :=
  match t with OnPost _ => None | OnComment k => Some k end.

(** The Like rows of user [u] on target [t], as the handlers select them. *)
Definition likes_by_on (db : database) (u : nat) (t : target) : list Like.t :=
  filter (like_by u (target_post t) (target_comment t)) (likes db).

(** The like state of a user and a target: what [check_user_liked_post]
    and [check_user_liked_comment] answer. *)
Definition liked (db : database) (u : nat) (t : target) : bool :=
  is_some (find (like_by u (target_post t) (target_comment t)) (likes db)).

Definition target_exists (db : database) (t : target) : Prop :=
  match t with
  | OnPost k => find (fun p => Post.id p =? k) (posts db) <> None
  | OnComment k => find (fun c => Comment.id c =? k) (comments db) <> None
  end.

(** The like endpoint of a target. *)
Definition toggle_like (u : User.t) (t : target) (req : request) : M response :=
  match t with
  | OnPost k => toggle_post_like u k req
  | OnComment k => toggle_comment_like u k req
  end.

Definition like_route (t : target) : route :=
  match t with
  | OnPost k => POST_posts_like k
  | OnComment k => POST_comments_like k
  end.

(** The row a like handler inserts. *)
Definition new_like (db : database) (u : nat) (t : target) (now : Z) : Like.t :=
  Like.mk (next_id (map Like.id (likes db))) u (target_post t)
    (target_comment t) now.

(** The status code of a response, if there is one. *)
Definition status_of (r : result) : option nat :=
  match r with
  | Responded resp => Some (status resp)
  | Crashed _ => None
  end.

(** [per_page] as [get_posts] reads it from the query string. *)
Definition per_page_of (req : request) : Z :=
  match args_per_page req with Some v => v | None => 10%Z end.

(** The row [update_post] leaves for a post [p] and a body [d]. *)
Definition updated_post (d : json) (now : Z) (p : Post.t) : Post.t :=
  Post.with_updated_at now
    (match j_content d with
     | Some v => Post.with_content v
     | None => fun x => x
     end
       (match j_title d with
        | Some v => Post.with_title v p
        | None => p
        end)).

(** The row [update_comment] leaves for a comment [c] and a content [v]. *)
Definition updated_comment (v : string) (now : Z) (c : Comment.t) : Comment.t :=
  Comment.with_updated_at now (Comment.with_content v c).

(** The conflict test of [update_user]: the value, if the body has one, is
    the [field] of a row found first that is not row [k]. *)
Definition taken_by_other (field : User.t -> string) (v : option string)
  (db : database) (k : nat) : bool :=
  match v with
  | Some s =>
      match find (fun x => String.eqb (field x) s) (users db) with
      | Some e => negb (User.id e =? k)
      | None => false
      end
  | None => false
  end.

(** The search the specification describes: the posts whose title or
    content contains the query as a substring, letter case aside, newest
    first, 50 at most. *)
Fixpoint starts_with (q s : string) : bool :=
  match q with
  | EmptyString => true
  | String a q' =>
      match s with
      | EmptyString => false
      | String c s' => Ascii.eqb a c && starts_with q' s'
      end
  end.

Fixpoint occurs_in (q s : string) : bool :=
  starts_with q s
  || match s with
     | EmptyString => false
     | String _ s' => occurs_in q s'
     end.

Definition contains_ci (q s : string) : bool :=
  occurs_in (lower q) (lower s).

Definition specified_search (q : string) (db : database) : list Post.t :=
  limit 50
    (order_by_desc Post.created_at
       (filter (fun p => contains_ci q (Post.title p)
                         || contains_ci q (Post.content p))
               (posts db))).


(** Every Like row points at exactly one of a post and a comment. *)
Definition likes_have_one_target (db : database) : Prop :=
  forall l, In l (likes db) -> check_like_target l = true.

(** No user has two Like rows on one target. *)
Definition at_most_one_like (db : database) : Prop :=
  forall u t, List.length (likes_by_on db u t) <= 1.

(** The invariants of the likes table together, the uniqueness stated on
    the raw columns. *)
Definition likes_inv (l : list Like.t) : Prop :=
  (forall x, In x l -> check_like_target x = true)
  /\ (forall u p c, List.length (filter (like_by u p c) l) <= 1)
  /\ NoDup (map Like.id l).

(** A response that is an error, or no response at all. *)
Definition failed (r : result) : Prop :=
  match r with
  | Responded resp => is_2xx resp = false
  | Crashed _ => True
  end.

(** [post.user_id != current_user.id and not current_user.is_admin] is the
    refusal test of the four mutation handlers; this is its negation. *)
Definition author_or_admin (owner : nat) (u : User.t) : bool :=
  (owner =? User.id u) || User.is_admin u.

(* ===================================================================== *)
(** * A small forum                                                       *)
(* ===================================================================== *)

(** Sample requests and the states they lead to: the server starts on an
    empty file, bob registers, writes a post and comments on it. *)
Definition body_user (username email password : string)
  (is_admin : option bool) : option json :=
  Some (mk_json (Some username) (Some email) (Some password) is_admin
          None None None None).

Definition body_post (title content : option string) : option json :=
  Some (mk_json None None None None title content None None).

Definition request_of (auth : authorization) (data : option json) (now : Z)
  : request :=
  mk_request auth data None None None now.

Definition token_admin : authorization := Bearer 1 1000.
Definition token_bob : authorization := Bearer 2 1000.

Definition db_started : database := run_create_tables 5 empty_database.

Definition db_bob : database :=
  snd (handle POST_register
         (request_of NoHeader (body_user "bob" "bob@example.com" "secret" None)
            10)
         db_started).

Definition db_post : database :=
  snd (handle POST_posts
         (request_of token_bob (body_post (Some "ab") (Some "cd")) 12) db_bob).

Definition db_forum : database :=
  snd (handle (POST_posts_comments 1)
         (request_of token_bob (body_post None (Some "nice")) 13) db_post).

(** Bob likes his post. *)
Definition db_liked : database :=
  snd (handle (POST_posts_like 1) (request_of token_bob None 14) db_forum).

Definition user_admin : User.t :=
  User.mk 1 "admin" "admin@example.com" (Hashed "admin123") true 5.

Definition user_bob : User.t :=
  User.mk 2 "bob" "bob@example.com" (Hashed "secret") false 10.

(* ===================================================================== *)
(** * Further properties of requests and states                           *)
(* ===================================================================== *)

(** [User.to_dict] of a row. *)
Definition User_dict_of (u : User.t) : User.dict :=
  User.mk_dict (User.id u) (User.username u) (User.email u) (User.is_admin u)
    (User.created_at u).

(** A row with primary key [k] exists: what a foreign key column asks of
    the table it points to. *)
Definition user_exists (us : list User.t) (k : nat) : bool :=
  is_some (find (fun x => User.id x =? k) us).

Definition post_exists (ps : list Post.t) (k : nat) : bool :=
  is_some (find (fun x => Post.id x =? k) ps).

Definition comment_exists (cs : list Comment.t) (k : nat) : bool :=
  is_some (find (fun x => Comment.id x =? k) cs).

(** The foreign keys of a Like row resolve, and the row has one target. *)
Definition like_refs_ok (d : database) (l : Like.t) : bool :=
  user_exists (users d) (Like.user_id l)
  && match Like.post_id l, Like.comment_id l with
     | Some p, None => post_exists (posts d) p
     | None, Some c => comment_exists (comments d) c
     | _, _ => false
     end.

(** The test [existing and existing.id != k] of the update handlers. *)
Definition taken (existing : option User.t) (k : nat) : bool :=
  match existing with
  | Some e => negb (User.id e =? k)
  | None => false
  end.

(** The writes the handlers commit, one row operation each: an insert takes
    the next key, a user's name and email are set only past the handler's
    uniqueness test, a post or comment keeps its key and its foreign keys,
    and a delete is the cascading one. *)
Inductive step : database -> database -> Prop :=
| step_add_user : forall us ps cs ls row,
    User.id row = next_id (map User.id us) ->
    find (fun x => String.eqb (User.username x) (User.username row)) us = None ->
    find (fun x => String.eqb (User.email x) (User.email row)) us = None ->
    step (mk_database us ps cs ls) (mk_database (us ++ [row]) ps cs ls)
| step_set_username : forall us ps cs ls k v,
    taken (find (fun x => String.eqb (User.username x) v) us) k = false ->
    step (mk_database us ps cs ls)
      (mk_database (update_row User.id k (User.with_username v) us) ps cs ls)
| step_set_email : forall us ps cs ls k v,
    taken (find (fun x => String.eqb (User.email x) v) us) k = false ->
    step (mk_database us ps cs ls)
      (mk_database (update_row User.id k (User.with_email v) us) ps cs ls)
| step_set_is_admin : forall us ps cs ls k v,
    step (mk_database us ps cs ls)
      (mk_database (update_row User.id k (User.with_is_admin v) us) ps cs ls)
| step_set_password : forall us ps cs ls k v,
    step (mk_database us ps cs ls)
      (mk_database (update_row User.id k (User.set_password v) us) ps cs ls)
| step_delete_user : forall d k, step d (delete_user_row k d)
| step_add_post : forall us ps cs ls row,
    Post.id row = next_id (map Post.id ps) ->
    user_exists us (Post.user_id row) = true ->
    step (mk_database us ps cs ls) (mk_database us (ps ++ [row]) cs ls)
| step_set_post : forall us ps cs ls k f,
    (forall p, Post.id (f p) = Post.id p /\ Post.user_id (f p) = Post.user_id p) ->
    step (mk_database us ps cs ls)
      (mk_database us (update_row Post.id k f ps) cs ls)
| step_delete_post : forall d k, step d (delete_post_row k d)
| step_add_comment : forall us ps cs ls row,
    Comment.id row = next_id (map Comment.id cs) ->
    user_exists us (Comment.user_id row) = true ->
    post_exists ps (Comment.post_id row) = true ->
    step (mk_database us ps cs ls) (mk_database us ps (cs ++ [row]) ls)
| step_set_comment : forall us ps cs ls k f,
    (forall c, Comment.id (f c) = Comment.id c
               /\ Comment.user_id (f c) = Comment.user_id c
               /\ Comment.post_id (f c) = Comment.post_id c) ->
    step (mk_database us ps cs ls)
      (mk_database us ps (update_row Comment.id k f cs) ls)
| step_delete_comment : forall d k, step d (delete_comment_row k d)
| step_add_like : forall us ps cs ls row,
    Like.id row = next_id (map Like.id ls) ->
    like_refs_ok (mk_database us ps cs ls) row = true ->
    step (mk_database us ps cs ls) (mk_database us ps cs (ls ++ [row]))
| step_delete_like : forall d k, step d (delete_like_row k d).

Inductive steps (d : database) : database -> Prop :=
| steps_refl : steps d d
| steps_snoc : forall d1 d2, steps d d1 -> step d1 d2 -> steps d d2.

(** What the constraints of models.py ask of a database: primary keys and
    the [unique=True] columns hold no value twice, and every foreign key
    points at a row. *)
Record consistent (d : database) : Prop := mk_consistent {
  user_ids : NoDup (map User.id (users d));
  usernames : NoDup (map User.username (users d));
  emails : NoDup (map User.email (users d));
  post_ids : NoDup (map Post.id (posts d));
  comment_ids : NoDup (map Comment.id (comments d));
  like_ids : NoDup (map Like.id (likes d));
  post_refs : forall p, In p (posts d) ->
    user_exists (users d) (Post.user_id p) = true;
  comment_refs : forall c, In c (comments d) ->
    user_exists (users d) (Comment.user_id c) = true
    /\ post_exists (posts d) (Comment.post_id c) = true;
  like_refs : forall l, In l (likes d) -> like_refs_ok d l = true
}.

(** The cascades of [delete_post_row] and [delete_user_row] over a list of
    rows. *)
Definition delete_comments (cs0 : list Comment.t) (d : database) : database :=
  fold_right (fun c acc => delete_comment_row (Comment.id c) acc) d cs0.

Definition delete_posts (ps0 : list Post.t) (d : database) : database :=
  fold_right (fun p acc => delete_post_row (Post.id p) acc) d ps0.


(** [page] as [get_posts] reads it from the query string. *)
Definition page_of (req : request) : Z :=
  match args_page req with Some v => v | None => 1%Z end.

(** The offset and the limit of [get_posts] can be bound. *)
Definition page_fits (req : request) : bool :=
  sqlite_integer ((page_of req - 1) * per_page_of req)%Z
  && sqlite_integer (per_page_of req).





(** The routes behind [@token_required]. *)
Definition protected (rt : route) : bool :=
  match rt with
  | POST_register | POST_login | GET_posts | GET_posts_id _
  | GET_posts_comments _ | GET_posts_likes _ | GET_comments_likes _
  | GET_users_profile _ | GET_posts_search => false
  | _ => true
  end.

(** The routes behind [@admin_required]. *)
Definition admin_only (rt : route) : bool :=
  match rt with
  | GET_admin_users | DELETE_admin_users _ | PUT_admin_users _ => true
  | _ => false
  end.

(** The routes registered with [methods=['GET']]. *)
Definition is_GET (rt : route) : bool :=
  match rt with
  | GET_me | GET_admin_users | GET_posts | GET_posts_id _
  | GET_posts_comments _ | GET_posts_likes _ | GET_comments_likes _
  | GET_posts_user_liked _ | GET_comments_user_liked _ | GET_users_profile _
  | GET_posts_search => true
  | _ => false
  end.

(** The routes that write the [is_admin] column or delete a user. *)
Definition manages_users (rt : route) : bool :=
  match rt with
  | POST_register | DELETE_admin_users _ | PUT_admin_users _ => true
  | _ => false
  end.

(** The privileges the users table records. *)
Definition privileges (db : database) : list (nat * bool) :=
  map (fun u => (User.id u, User.is_admin u)) (users db).

(** The administrator [create_tables] inserts. *)
Definition default_admin (now : Z) : User.t :=
  User.mk 1 "admin" "admin@example.com" (Hashed "admin123") true now.

(** The check endpoint and the list endpoint of a target. *)
Definition liked_route (t : target) : route :=
  match t with
  | OnPost k => GET_posts_user_liked k
  | OnComment k => GET_comments_user_liked k
  end.

Definition likes_route (t : target) : route :=
  match t with
  | OnPost k => GET_posts_likes k
  | OnComment k => GET_comments_likes k
  end.

(** The number of likes on a target. *)
Definition likes_count (db : database) (t : target) : nat :=
  List.length (filter (like_on (target_post t) (target_comment t)) (likes db)).

(** The rows [get_posts] selects for a page. *)
Definition posts_page (db : database) (page per_page : Z) : list Post.t :=
  limit per_page
    (offset ((page - 1) * per_page)%Z
       (order_by_desc Post.created_at (posts db))).

(** The orders of [ORDER BY key DESC] and [ORDER BY key]. *)
Definition descending {A : Type} (key : A -> Z) (a b : A) : Prop :=
  (key b <= key a)%Z.

Definition ascending {A : Type} (key : A -> Z) (a b : A) : Prop :=
  (key a <= key b)%Z.

Definition newest_first : Post.t -> Post.t -> Prop :=
  descending Post.created_at.

Definition oldest_first : Comment.t -> Comment.t -> Prop :=
  ascending Comment.created_at.


(** The row [update_own_profile] leaves for a user [r] and a body [d]. *)
Definition renamed (d : json) (r : User.t) : User.t :=
  match j_email d with
  | Some v => User.with_email v
  | None => fun x => x
  end (match j_username d with
       | Some v => User.with_username v r
       | None => r
       end).

(** The row [update_user] leaves for a user [r] and a body [d]. *)
Definition updated_user (d : json) (r : User.t) : User.t :=
  match j_password d with
  | Some v => if truthy (Some v) then User.set_password v else fun x => x
  | None => fun x => x
  end
    (match j_is_admin d with
     | Some b => User.with_is_admin b
     | None => fun x => x
     end (renamed d r)).

(* ===================================================================== *)
(** * Rows and keys                                                       *)
(* ===================================================================== *)

Section Rows.
Variable A : Type.
Variable id : A -> nat.

Lemma find_by_id_key (pk : nat) (l : list A) (r : A) :
  find (fun x => id x =? pk) l = Some r -> id r = pk.
Proof.
  intros H. apply find_some in H. destruct H as [_ H].
  now apply Nat.eqb_eq in H.
Qed.

Lemma find_update_row_field (pk : nat) (f : A -> A) (p : A -> bool)
  (l : list A) :
  (forall r, p (f r) = p r) ->
  find p (update_row id pk f l)
  = match find p l with
    | Some r => Some (if id r =? pk then f r else r)
    | None => None
    end.
Proof.
  intros Hp. unfold update_row.
  induction l as [|x l IH]; cbn; [reflexivity|].
  destruct (id x =? pk) eqn:E.
  - rewrite Hp. destruct (p x); [now rewrite E | exact IH].
  - destruct (p x); [now rewrite E | exact IH].
Qed.

Lemma update_row_twice (pk : nat) (f g : A -> A) (l : list A) :
  (forall r, id (g r) = id r) ->
  update_row id pk f (update_row id pk g l)
  = update_row id pk (fun r => f (g r)) l.
Proof.
  intros Hg. unfold update_row. rewrite map_map. apply map_ext.
  intros r. destruct (id r =? pk) eqn:E; [rewrite Hg|]; now rewrite E.
Qed.

Lemma list_max_ge (l : list nat) (n : nat) : In n l -> n <= list_max l.
Proof.
  intros H.
  pose proof (proj1 (list_max_le l (list_max l)) (le_n _)) as F.
  rewrite Forall_forall in F. now apply F.
Qed.

Lemma find_fresh_none (l : list A) :
  find (fun x => id x =? next_id (map id l)) l = None.
Proof.
  destruct (find _ l) eqn:E; [|reflexivity].
  pose proof (find_by_id_key _ _ E) as Hk.
  apply find_some in E. destruct E as [Hin _].
  apply (in_map id) in Hin. apply list_max_ge in Hin.
  unfold next_id in Hk. lia.
Qed.

Lemma find_app (p : A -> bool) (l l' : list A) :
  find p (l ++ l')
  = match find p l with Some r => Some r | None => find p l' end.
Proof.
  induction l as [|x l IH]; cbn; [reflexivity|].
  destruct (p x); [reflexivity | exact IH].
Qed.

Lemma find_added (l : list A) (row : A) :
  id row = next_id (map id l) ->
  find (fun x => id x =? id row) (l ++ [row]) = Some row.
Proof.
  intros H. rewrite find_app, H, find_fresh_none. cbn.
  now rewrite H, Nat.eqb_refl.
Qed.

Lemma find_filter_self (pk : nat) (l : list A) :
  find (fun x => id x =? pk) (filter (fun x => negb (id x =? pk)) l) = None.
Proof.
  induction l as [|x l IH]; cbn; [reflexivity|].
  destruct (id x =? pk) eqn:E; cbn; [exact IH | now rewrite E].
Qed.

End Rows.

Lemma filter_filter {A : Type} (p q : A -> bool) (l : list A) :
  filter p (filter q l) = filter (fun x => q x && p x) l.
Proof.
  induction l as [|x l IH]; cbn; [reflexivity|].
  destruct (q x); cbn; [destruct (p x)|]; now rewrite IH.
Qed.

Lemma filter_length_le {A : Type} (p q : A -> bool) (l : list A) :
  List.length (filter p (filter q l)) <= List.length (filter p l).
Proof.
  induction l as [|x l IH]; cbn; [lia|].
  destruct (q x); cbn; destruct (p x); cbn; lia.
Qed.

Lemma find_none_filter {A : Type} (p : A -> bool) (l : list A) :
  find p l = None -> filter p l = [].
Proof.
  induction l as [|x l IH]; cbn; [reflexivity|].
  destruct (p x); [discriminate | exact IH].
Qed.

Section OrderByFacts.
Variable A : Type.
Variable key : A -> Z.

Lemma insert_desc_length (x : A) (l : list A) :
  List.length (insert_desc key x l) = S (List.length l).
Proof.
  induction l as [|y l IH]; cbn; [reflexivity|].
  destruct (key x <? key y)%Z; cbn; [now rewrite IH | reflexivity].
Qed.

Lemma order_by_desc_length (l : list A) :
  List.length (order_by_desc key l) = List.length l.
Proof.
  unfold order_by_desc.
  induction l as [|x l IH]; cbn; [reflexivity|].
  now rewrite insert_desc_length, IH.
Qed.

End OrderByFacts.

(* ===================================================================== *)
(** * Running a handler symbolically                                      *)
(* ===================================================================== *)

(** Unfold the handler monad and the session primitives, nothing else. *)
Ltac mred :=
  cbv beta iota zeta delta
    [run bind ret return_ raise when or_ and_ query modify commit contains
     getitem get not_get User_query_get Post_query_get Comment_query_get
     User_query_filter_by_username User_query_filter_by_email
     Like_query_filter_by_first Like_query_filter_by_all
     User_set Post_set Comment_set add_user add_post add_comment add_like
     session_delete_user session_delete_post session_delete_comment
     session_delete_like User_to_dict Post_to_dict Comment_to_dict
     with_users with_posts with_comments with_likes
     is_some is_none negb andb orb];
  cbn [pending stored fst snd users posts comments likes].

(** One step: use what is known of a lookup, or split on the next test. *)
Ltac exec_step :=
  match goal with
  | H : find (fun x => _ x =? ?k) _ = Some ?r |- _ =>
      is_var k; apply find_by_id_key in H as ?; subst k
  | H : ?x = _ |- context [?x] => rewrite H
  | |- context [?a =? ?a] => rewrite Nat.eqb_refl
  | |- context [find _ (update_row _ _ _ _)] =>
      rewrite find_update_row_field by reflexivity
  | |- context [find _ (_ ++ [_])] => rewrite find_added by reflexivity
  | |- context [match ?x with _ => _ end] =>
      lazymatch x with
      | context [match _ with _ => _ end] => fail
      | _ => destruct x eqn:?
      end
  end.

Ltac exec := mred; repeat (exec_step; mred).

Lemma token_required_run (f : User.t -> M response) (req : request)
  (db : database) (u : User.t) :
  authenticated req db u ->
  run (token_required f req) db = run (f u) db.
Proof.
  intros (exp & Hh & Ht & Hu). unfold token_required. rewrite Hh.
  apply Z.leb_gt in Ht. rewrite Ht. mred. now rewrite Hu.
Qed.

Lemma token_required_cases (f : User.t -> M response) (req : request)
  (db : database) :
  (exists m, run (token_required f req) db = (Responded (Msg m, 401), db))
  \/ (exists u, authenticated req db u
                /\ run (token_required f req) db = run (f u) db).
Proof.
  unfold token_required.
  destruct (headers_Authorization req) as [| |uid exp] eqn:Hh;
    [left; now eexists | left; now eexists |].
  destruct (exp <=? utcnow req)%Z eqn:Ht; [left; now eexists|].
  destruct (find (fun x => User.id x =? uid) (users db)) as [u|] eqn:Hu.
  - right. exists u. pose proof (find_by_id_key _ _ _ Hu) as Hk. subst uid.
    split; [exists exp; repeat split; auto; now apply Z.leb_gt|].
    mred. now rewrite Hu.
  - left. mred. rewrite Hu. now eexists.
Qed.

Lemma admin_required_cases (f : User.t -> M response) (u : User.t)
  (db : database) :
  (User.is_admin u = false
   /\ run (admin_required f u) db
      = (Responded (Msg Acces_refuse_droits_administrateur_requis, 403), db))
  \/ (User.is_admin u = true
      /\ run (admin_required f u) db = run (f u) db).
Proof.
  unfold admin_required. destruct (User.is_admin u); [right | left]; auto.
Qed.

(* ===================================================================== *)
(** * What a request may do to the likes table                            *)
(* ===================================================================== *)

Lemma filter_all {A : Type} (l : list A) : filter (fun _ => true) l = l.
Proof. induction l as [|x l IH]; cbn; [reflexivity | now rewrite IH]. Qed.

Lemma removal_refl (l : list Like.t) : removal l l.
Proof. exists (fun _ => true). now rewrite filter_all. Qed.

Lemma removal_filter (f : Like.t -> bool) (l l' : list Like.t) :
  removal l l' -> removal l (filter f l').
Proof. intros [g ->]. rewrite filter_filter. now eexists. Qed.

Lemma delete_comment_row_likes (pk : nat) (d d0 : database) :
  removal (likes d0) (likes d) ->
  removal (likes d0) (likes (delete_comment_row pk d)).
Proof. intros H. unfold delete_comment_row. cbn. now apply removal_filter. Qed.

Lemma delete_comments_likes (cs : list Comment.t) (d d0 : database) :
  removal (likes d0) (likes d) ->
  removal (likes d0)
    (likes (fold_right (fun c acc => delete_comment_row (Comment.id c) acc)
              d cs)).
Proof.
  intros H. induction cs as [|c cs IH]; cbn [fold_right]; [exact H|].
  now apply delete_comment_row_likes.
Qed.

Lemma delete_post_row_likes (pk : nat) (d d0 : database) :
  removal (likes d0) (likes d) ->
  removal (likes d0) (likes (delete_post_row pk d)).
Proof.
  intros H. unfold delete_post_row. cbn.
  now apply removal_filter, delete_comments_likes.
Qed.

Lemma delete_posts_likes (ps : list Post.t) (d d0 : database) :
  removal (likes d0) (likes d) ->
  removal (likes d0)
    (likes (fold_right (fun p acc => delete_post_row (Post.id p) acc) d ps)).
Proof.
  intros H. induction ps as [|p ps IH]; cbn [fold_right]; [exact H|].
  now apply delete_post_row_likes.
Qed.

Lemma delete_user_row_likes (pk : nat) (d : database) :
  removal (likes d) (likes (delete_user_row pk d)).
Proof.
  unfold delete_user_row. cbn.
  apply removal_filter, delete_comments_likes, delete_posts_likes,
    removal_refl.
Qed.

Lemma removal_step (l l' : list Like.t) : removal l l' -> likes_step l l'.
Proof. intros [f ->]. apply likes_removed. Qed.

(** The cascades leave the other tables' rows they do not delete alone. *)
Lemma delete_comments_posts (cs : list Comment.t) (d : database) :
  posts (fold_right (fun c acc => delete_comment_row (Comment.id c) acc) d cs)
  = posts d.
Proof. induction cs as [|c cs IH]; cbn; [reflexivity | exact IH]. Qed.

Lemma delete_post_row_posts (pk : nat) (d : database) :
  posts (delete_post_row pk d)
  = filter (fun p => negb (Post.id p =? pk)) (posts d).
Proof. unfold delete_post_row. cbn. now rewrite delete_comments_posts. Qed.

Lemma delete_comment_row_comments (pk : nat) (d : database) :
  comments (delete_comment_row pk d)
  = filter (fun c => negb (Comment.id c =? pk)) (comments d).
Proof. reflexivity. Qed.

Ltac leaf :=
  first
    [ apply effect_none
    | apply effect_commit;
      [ reflexivity
      | first
          [ apply likes_same
          | apply removal_step;
            first [ apply delete_user_row_likes
                  | apply delete_post_row_likes, removal_refl
                  | apply delete_comment_row_likes, removal_refl ]
          | apply likes_removed
          | apply likes_added; [assumption | reflexivity] ] ] ].

Create HintDb effects.

Lemma register_effect req db : effect db (run (register req) db).
Proof. unfold register. exec; leaf. Qed.

Lemma login_effect req db : effect db (run (login req) db).
Proof. unfold login. exec; leaf. Qed.

Lemma get_current_user_effect u db : effect db (run (get_current_user u) db).
Proof. unfold get_current_user. exec; leaf. Qed.

Lemma get_all_users_effect u db : effect db (run (get_all_users u) db).
Proof. unfold get_all_users. exec; leaf. Qed.

Lemma delete_user_effect u k db : effect db (run (delete_user u k) db).
Proof. unfold delete_user. exec; leaf. Qed.

Lemma update_user_effect u k req db : effect db (run (update_user u k req) db).
Proof. unfold update_user. exec; leaf. Qed.

Lemma get_posts_effect req db : effect db (run (get_posts req) db).
Proof. unfold get_posts. exec; leaf. Qed.

Lemma get_post_effect k db : effect db (run (get_post k) db).
Proof. unfold get_post. exec; leaf. Qed.

Lemma create_post_effect u req db : effect db (run (create_post u req) db).
Proof. unfold create_post. exec; leaf. Qed.

Lemma update_post_effect u k req db : effect db (run (update_post u k req) db).
Proof. unfold update_post. exec; leaf. Qed.

Lemma delete_post_effect u k db : effect db (run (delete_post u k) db).
Proof. unfold delete_post. exec; leaf. Qed.

Lemma get_comments_effect k db : effect db (run (get_comments k) db).
Proof. unfold get_comments. exec; leaf. Qed.

Lemma create_comment_effect u k req db :
  effect db (run (create_comment u k req) db).
Proof. unfold create_comment. exec; leaf. Qed.

Lemma update_comment_effect u k req db :
  effect db (run (update_comment u k req) db).
Proof. unfold update_comment. exec; leaf. Qed.

Lemma delete_comment_effect u k db : effect db (run (delete_comment u k) db).
Proof. unfold delete_comment. exec; leaf. Qed.

Lemma toggle_post_like_effect u k req db :
  effect db (run (toggle_post_like u k req) db).
Proof. unfold toggle_post_like. exec; leaf. Qed.

Lemma toggle_comment_like_effect u k req db :
  effect db (run (toggle_comment_like u k req) db).
Proof. unfold toggle_comment_like. exec; leaf. Qed.

Lemma get_post_likes_effect k db : effect db (run (get_post_likes k) db).
Proof. unfold get_post_likes. exec; leaf. Qed.

Lemma get_comment_likes_effect k db : effect db (run (get_comment_likes k) db).
Proof. unfold get_comment_likes. exec; leaf. Qed.

Lemma check_user_liked_post_effect u k db :
  effect db (run (check_user_liked_post u k) db).
Proof. unfold check_user_liked_post. exec; leaf. Qed.

Lemma check_user_liked_comment_effect u k db :
  effect db (run (check_user_liked_comment u k) db).
Proof. unfold check_user_liked_comment. exec; leaf. Qed.

Lemma get_user_profile_effect k db : effect db (run (get_user_profile k) db).
Proof. unfold get_user_profile. exec; leaf. Qed.

Lemma update_own_profile_effect u req db :
  find (fun x => User.id x =? User.id u) (users db) = Some u ->
  effect db (run (update_own_profile u req) db).
Proof. intros Hu. unfold update_own_profile. exec; leaf. Qed.

Lemma update_password_effect u req db :
  effect db (run (update_password u req) db).
Proof. unfold update_password. exec; leaf. Qed.

Lemma search_posts_effect req db : effect db (run (search_posts req) db).
Proof. unfold search_posts. exec; leaf. Qed.

Lemma token_required_effect f req db :
  (forall u, authenticated req db u -> effect db (run (f u) db)) ->
  effect db (run (token_required f req) db).
Proof.
  intros H. destruct (token_required_cases f req db) as [[m ->] | (u & Hu & ->)].
  - apply effect_none.
  - now apply H.
Qed.

Lemma admin_required_effect f u db :
  (forall u, effect db (run (f u) db)) ->
  effect db (run (admin_required f u) db).
Proof.
  intros H. destruct (admin_required_cases f u db) as [[_ ->] | [_ ->]].
  - apply effect_none.
  - apply H.
Qed.

#[local] Hint Resolve register_effect login_effect get_current_user_effect
  get_all_users_effect delete_user_effect update_user_effect get_posts_effect
  get_post_effect create_post_effect update_post_effect delete_post_effect
  get_comments_effect create_comment_effect update_comment_effect
  delete_comment_effect toggle_post_like_effect toggle_comment_like_effect
  get_post_likes_effect get_comment_likes_effect check_user_liked_post_effect
  check_user_liked_comment_effect get_user_profile_effect
  update_own_profile_effect update_password_effect search_posts_effect
  : effects.

Lemma handle_effect rt req db : effect db (handle rt req db).
Proof.
  unfold handle.
  destruct rt; cbn [view];
    repeat first [ apply token_required_effect; intros ? (? & _ & _ & ?)
                 | apply admin_required_effect; intro ];
    auto with effects.
Qed.

Lemma run_create_tables_likes now db :
  likes (run_create_tables now db) = likes db.
Proof. unfold run_create_tables, create_tables. exec; reflexivity. Qed.

(* ===================================================================== *)
(** * Invariants of the likes table                                       *)
(* ===================================================================== *)

Lemma opt_eqb_eq (a b : option nat) : opt_eqb a b = true -> a = b.
Proof.
  destruct a, b; cbn; try discriminate; try reflexivity.
  intros H. apply Nat.eqb_eq in H. now subst.
Qed.

Lemma like_by_eq u p c l :
  like_by u p c l = true ->
  Like.user_id l = u /\ Like.post_id l = p /\ Like.comment_id l = c.
Proof.
  unfold like_by. intros H.
  apply andb_prop in H. destruct H as [H Hc].
  apply andb_prop in H. destruct H as [Hu Hp].
  apply Nat.eqb_eq in Hu. apply opt_eqb_eq in Hp. apply opt_eqb_eq in Hc.
  auto.
Qed.

Lemma one_target_step (l l' : list Like.t) :
  likes_step l l' ->
  (forall x, In x l -> check_like_target x = true) ->
  forall x, In x l' -> check_like_target x = true.
Proof.
  intros [|f|u p c now Hnone Hchk] H x Hx.
  - now apply H.
  - apply filter_In in Hx. now apply H.
  - apply in_app_or in Hx. destruct Hx as [Hx | [<- | []]].
    + now apply H.
    + exact Hchk.
Qed.

Lemma at_most_one_step (l l' : list Like.t) (u : nat) (p c : option nat) :
  likes_step l l' ->
  List.length (filter (like_by u p c) l) <= 1 ->
  List.length (filter (like_by u p c) l') <= 1.
Proof.
  intros [|f|u0 p0 c0 now Hnone Hchk] H.
  - apply H.
  - etransitivity; [apply filter_length_le | apply H].
  - rewrite filter_app. cbn [filter].
    destruct (like_by u p c _) eqn:E.
    + apply like_by_eq in E. cbn in E. destruct E as (-> & -> & ->).
      rewrite (find_none_filter _ _ Hnone). cbn. lia.
    + rewrite app_nil_r. apply H.
Qed.

Lemma NoDup_map_filter {A : Type} (g : A -> nat) (f : A -> bool) (l : list A) :
  NoDup (map g l) -> NoDup (map g (filter f l)).
Proof.
  induction l as [|x l IH]; cbn; [trivial|].
  intros H. inversion H as [|? ? Hnin Hnd]; subst.
  destruct (f x); cbn; [|now apply IH].
  constructor; [|now apply IH].
  intros Hin. apply Hnin. apply in_map_iff in Hin.
  destruct Hin as (y & Hy & Hin). apply filter_In in Hin.
  apply in_map_iff. exists y. tauto.
Qed.

Lemma next_id_fresh (ids : list nat) : ~ In (next_id ids) ids.
Proof.
  intros H. apply list_max_ge in H. unfold next_id in H. lia.
Qed.

Lemma ids_unique_step (l l' : list Like.t) :
  likes_step l l' -> NoDup (map Like.id l) -> NoDup (map Like.id l').
Proof.
  intros [|f|u p c now Hnone Hchk] H.
  - exact H.
  - now apply NoDup_map_filter.
  - rewrite map_app. cbn [map Like.id].
    apply NoDup_app; [exact H | repeat constructor; easy |].
    intros x Hx [<- | []]. now apply next_id_fresh in Hx.
Qed.

Lemma likes_inv_step (l l' : list Like.t) :
  likes_step l l' -> likes_inv l -> likes_inv l'.
Proof.
  intros Hs (H1 & H2 & H3). repeat split.
  - now apply (one_target_step Hs).
  - intros u p c. now apply (at_most_one_step u p c Hs).
  - now apply (ids_unique_step Hs).
Qed.

Lemma handle_likes_step rt req db :
  likes_step (likes db) (likes (snd (handle rt req db))).
Proof.
  destruct (handle_effect rt req db) as [r | r db' _ H]; cbn [snd];
    [apply likes_same | exact H].
Qed.

Lemma reachable_likes_inv (db : database) :
  reachable db -> likes_inv (likes db).
Proof.
  induction 1 as [|now db _ IH|rt req db _ IH].
  - repeat split; cbn; [easy | intros; lia | constructor].
  - now rewrite run_create_tables_likes.
  - exact (likes_inv_step (handle_likes_step rt req db) IH).
Qed.

(* ===================================================================== *)
(** * Properties of the specification                                     *)
(* ===================================================================== *)

(** C9.  A request that ends in an error response (or in an uncaught
    exception) leaves the stored database exactly as it found it: every
    handler commits, if at all, only on its way to a 2xx response, and what
    it had written to the session before is dropped with the session. *)
Theorem error_responses_commit_nothing :
  forall rt req db r db',
    handle rt req db = (r, db') -> failed r -> db' = db.
Proof.
  intros rt req db r db' H Hf.
  pose proof (handle_effect rt req db) as He. rewrite H in He.
  inversion He as [|r0 db0 H2xx _]; subst; [reflexivity|].
  cbn in Hf. congruence.
Qed.

(** C3.  Every Like row of a reachable database has exactly one of post_id
    and comment_id set, and every request keeps it so, the two like
    handlers included. *)
Theorem like_rows_have_one_target :
  (forall db, reachable db -> likes_have_one_target db)
  /\ (forall rt req db,
        likes_have_one_target db ->
        likes_have_one_target (snd (handle rt req db))).
Proof.
  split.
  - intros db H. apply reachable_likes_inv in H. exact (proj1 H).
  - intros rt req db H. exact (one_target_step (handle_likes_step rt req db) H).
Qed.

(** C4.  In a reachable database no user has two Like rows on one post or
    on one comment; every request keeps it so; and a like handler answers
    201, the insertion of a row, only when the database held no row of that
    user on that target. *)
Theorem one_like_per_user_and_target :
  (forall db, reachable db -> at_most_one_like db)
  /\ (forall rt req db,
        at_most_one_like db -> at_most_one_like (snd (handle rt req db)))
  /\ (forall u t req db,
        status_of (fst (run (toggle_like u t req) db)) = Some 201 ->
        likes_by_on db (User.id u) t = []).
Proof.
  split; [|split].
  - intros db H u t. apply reachable_likes_inv in H. apply H.
  - intros rt req db H u t.
    exact (at_most_one_step _ _ _ (handle_likes_step rt req db) (H u t)).
  - intros u [k|k] req db; unfold toggle_like, likes_by_on;
      [unfold toggle_post_like | unfold toggle_comment_like];
      exec; cbn; intros; try discriminate;
      now apply find_none_filter.
Qed.

(* ===================================================================== *)
(** * The like toggle                                                     *)
(* ===================================================================== *)

Lemma toggle_like_run u t req db :
  target_exists db t ->
  exists n,
    run (toggle_like u t req) db
    = match find (like_by (User.id u) (target_post t) (target_comment t))
              (likes db) with
      | Some x =>
          (Responded (MsgLiked Like_retire false n, 200),
           delete_like_row (Like.id x) db)
      | None =>
          (Responded
             (MsgLiked match t with
                       | OnPost _ => Post_like
                       | OnComment _ => Commentaire_like
                       end true n, 201),
           with_likes (likes db ++ [new_like db (User.id u) t (utcnow req)]) db)
      end.
Proof.
  destruct t as [k|k]; cbn [target_exists toggle_like target_post target_comment];
    intros He; [unfold toggle_post_like | unfold toggle_comment_like];
    exec; try contradiction; eexists; reflexivity.
Qed.

Lemma target_cols_inj (t t' : target) :
  target_post t = target_post t' -> target_comment t = target_comment t' ->
  t = t'.
Proof. destruct t, t'; cbn; congruence. Qed.

Lemma like_by_refl u p c k now : like_by u p c (Like.mk k u p c now) = true.
Proof.
  unfold like_by. cbn. rewrite Nat.eqb_refl.
  destruct p, c; cbn; now rewrite ?Nat.eqb_refl.
Qed.

Lemma find_filter_irrelevant {A : Type} (p q : A -> bool) (l : list A) :
  (forall y, In y l -> q y = false -> p y = false) ->
  find p (filter q l) = find p l.
Proof.
  induction l as [|y l IH]; cbn; intros H; [reflexivity|].
  destruct (q y) eqn:Eq; cbn.
  - destruct (p y); [reflexivity | apply IH; auto].
  - rewrite (H y); auto.
Qed.

Lemma NoDup_map_inj {A : Type} (g : A -> nat) (l : list A) (x y : A) :
  NoDup (map g l) -> In x l -> In y l -> g x = g y -> x = y.
Proof.
  induction l as [|z l IH]; cbn; [easy|].
  intros H. inversion H as [|? ? Hnin Hnd]; subst.
  intros [-> | Hx] [-> | Hy] E; auto.
  - exfalso. apply Hnin. rewrite E. now apply in_map.
  - exfalso. apply Hnin. rewrite <- E. now apply in_map.
Qed.

Lemma short_list_eq {A : Type} (l : list A) (x y : A) :
  List.length l <= 1 -> In x l -> In y l -> x = y.
Proof.
  destruct l as [|a [|b l]]; cbn; try easy; [|lia].
  intros _ [<- | []] [<- | []]. reflexivity.
Qed.

Section Toggle.
Variable db : database.
Variable u : nat.
Variable t : target.
Hypothesis Hinv : likes_inv (likes db).

Lemma liked_deleted_self (x : Like.t) :
  find (like_by u (target_post t) (target_comment t)) (likes db) = Some x ->
  liked (delete_like_row (Like.id x) db) u t = false.
Proof.
  intros Hx. unfold liked, delete_like_row. cbn [likes with_likes].
  destruct (find _ (filter _ _)) as [y|] eqn:Ey; [exfalso | reflexivity].
  apply find_some in Ey. destruct Ey as [Hy Hpy].
  apply filter_In in Hy. destruct Hy as [Hy Hid].
  apply find_some in Hx. destruct Hx as [Hxin Hpx].
  destruct Hinv as (_ & Huniq & _).
  assert (x = y) as ->.
  { apply (short_list_eq _ _ _ (Huniq u (target_post t) (target_comment t)));
      apply filter_In; auto. }
  now rewrite Nat.eqb_refl in Hid.
Qed.

Lemma liked_deleted_other (x : Like.t) (u' : nat) (t' : target) :
  find (like_by u (target_post t) (target_comment t)) (likes db) = Some x ->
  (u', t') <> (u, t) ->
  liked (delete_like_row (Like.id x) db) u' t' = liked db u' t'.
Proof.
  intros Hx Hne. unfold liked, delete_like_row. cbn [likes with_likes].
  f_equal. apply find_filter_irrelevant. intros y Hy Hid.
  apply negb_false_iff, Nat.eqb_eq in Hid.
  apply find_some in Hx. destruct Hx as [Hxin Hpx].
  destruct Hinv as (_ & _ & Hnd).
  assert (y = x) as -> by (apply (NoDup_map_inj Like.id _ _ _ Hnd); auto).
  destruct (like_by u' _ _ x) eqn:E; [exfalso | reflexivity].
  apply like_by_eq in E, Hpx.
  destruct E as (E1 & E2 & E3), Hpx as (F1 & F2 & F3).
  apply Hne. f_equal; [congruence|].
  apply target_cols_inj; congruence.
Qed.

Lemma liked_added_self (now : Z) :
  liked (with_likes (likes db ++ [new_like db u t now]) db) u t = true.
Proof.
  unfold liked, with_likes, new_like. cbn [likes]. rewrite find_app.
  destruct (find _ (likes db)); [reflexivity|].
  cbn [find]. now rewrite like_by_refl.
Qed.

Lemma liked_added_other (now : Z) (u' : nat) (t' : target) :
  (u', t') <> (u, t) ->
  liked (with_likes (likes db ++ [new_like db u t now]) db) u' t'
  = liked db u' t'.
Proof.
  intros Hne. unfold liked, with_likes, new_like. cbn [likes].
  rewrite find_app.
  destruct (find _ (likes db)); [reflexivity|].
  cbn [find].
  destruct (like_by u' _ _ _) eqn:E; [exfalso | reflexivity].
  apply like_by_eq in E. cbn in E. destruct E as (E1 & E2 & E3).
  apply Hne. f_equal; [congruence|].
  apply target_cols_inj; congruence.
Qed.

End Toggle.

Lemma like_route_run (u : User.t) (t : target) (req : request) (db : database) :
  authenticated req db u ->
  handle (like_route t) req db = run (toggle_like u t req) db.
Proof.
  intros H. unfold handle. destruct t; cbn [like_route view toggle_like];
    now rewrite (token_required_run _ H).
Qed.

(** One call of the like endpoint, by an authenticated user on an existing
    target. *)
Lemma like_route_once (u : User.t) (t : target) (req : request) (db : database) :
  likes_inv (likes db) ->
  target_exists db t ->
  authenticated req db u ->
  let r := handle (like_route t) req db in
  status_of (fst r) = Some (if liked db (User.id u) t then 200 else 201)
  /\ liked (snd r) (User.id u) t = negb (liked db (User.id u) t)
  /\ (forall u' t', (u', t') <> (User.id u, t) ->
                    liked (snd r) u' t' = liked db u' t')
  /\ users (snd r) = users db
  /\ posts (snd r) = posts db
  /\ comments (snd r) = comments db
  /\ likes_inv (likes (snd r)).
Proof.
  intros Hinv He Ha. cbn zeta.
  assert (Hstep : likes_step (likes db)
                    (likes (snd (handle (like_route t) req db))))
    by apply handle_likes_step.
  apply likes_inv_step in Hstep; [|exact Hinv].
  revert Hstep. rewrite (like_route_run t Ha).
  destruct (toggle_like_run u t req db He) as [n ->].
  destruct (find _ (likes db)) as [x|] eqn:Ex.
  - assert (Hl : liked db (User.id u) t = true)
      by (unfold liked; now rewrite Ex).
    rewrite Hl. cbn [fst snd status_of status negb]. intros Hstep.
    split; [reflexivity|].
    split; [eapply liked_deleted_self; eauto|].
    split; [intros u' t' Hne; eapply liked_deleted_other; eauto|].
    repeat (split; [reflexivity|]). exact Hstep.
  - assert (Hl : liked db (User.id u) t = false)
      by (unfold liked; now rewrite Ex).
    rewrite Hl. cbn [fst snd status_of status negb]. intros Hstep.
    split; [reflexivity|].
    split; [now apply liked_added_self|].
    split; [intros u' t' Hne; now apply liked_added_other|].
    repeat (split; [reflexivity|]). exact Hstep.
Qed.

(** C5.  The like endpoint is a toggle.  Called by an authenticated user on
    an existing post or comment of a reachable database, it answers 200 and
    deletes the user's Like row on the target when there is one, and answers
    201 and inserts one otherwise; the like state of every other user and
    target is untouched.  A second call by the same user on the same target
    restores the like state of the whole database. *)
Theorem like_is_a_toggle :
  forall db, reachable db ->
  forall (u : User.t) (t : target) (req req' : request),
    target_exists db t ->
    authenticated req db u ->
    authenticated req' db u ->
    let r1 := handle (like_route t) req db in
    let r2 := handle (like_route t) req' (snd r1) in
    (exists n,
       r1 = match find (like_by (User.id u) (target_post t) (target_comment t))
                       (likes db) with
            | Some x =>
                (Responded (MsgLiked Like_retire false n, 200),
                 delete_like_row (Like.id x) db)
            | None =>
                (Responded
                   (MsgLiked match t with
                             | OnPost _ => Post_like
                             | OnComment _ => Commentaire_like
                             end true n, 201),
                 with_likes
                   (likes db ++ [new_like db (User.id u) t (utcnow req)]) db)
            end)
    /\ status_of (fst r1) = Some (if liked db (User.id u) t then 200 else 201)
    /\ liked (snd r1) (User.id u) t = negb (liked db (User.id u) t)
    /\ (forall u' t', (u', t') <> (User.id u, t) ->
                      liked (snd r1) u' t' = liked db u' t')
    /\ status_of (fst r2) = Some (if liked db (User.id u) t then 201 else 200)
    /\ (forall u' t', liked (snd r2) u' t' = liked db u' t').
Proof.
  intros db Hr u t req req' He Ha Ha' r1 r2.
  apply reachable_likes_inv in Hr.
  destruct (@like_route_once u t req db Hr He Ha)
    as (S1 & L1 & O1 & U1 & P1 & C1 & I1).
  fold r1 in S1, L1, O1, U1, P1, C1, I1.
  assert (He1 : target_exists (snd r1) t).
  { destruct t; cbn [target_exists] in *; [now rewrite P1 | now rewrite C1]. }
  assert (Ha1 : authenticated req' (snd r1) u).
  { destruct Ha' as (exp & ? & ? & ?). exists exp. now rewrite U1. }
  destruct (@like_route_once u t req' (snd r1) I1 He1 Ha1) as (S2 & L2 & O2 & _).
  fold r2 in S2, L2, O2.
  split; [|repeat split; auto].
  - unfold r1. rewrite (like_route_run t Ha). now apply toggle_like_run.
  - rewrite S2, L1. now destruct (liked db (User.id u) t).
  - intros u' t'.
    destruct (Nat.eq_dec u' (User.id u)) as [->|Hu].
    + assert (Ht : {t' = t} + {t' <> t}) by (repeat decide equality).
      destruct Ht as [->|Ht].
      * rewrite L2, L1. apply negb_involutive.
      * rewrite O2, O1; congruence.
    + rewrite O2, O1; congruence.
Qed.

(* ===================================================================== *)
(** * Pagination                                                          *)
(* ===================================================================== *)

Lemma total_pages_bounds (t p : Z) :
  (0 <= t)%Z -> (1 <= p)%Z ->
  ((total_pages t p - 1) * p < t <= total_pages t p * p)%Z.
Proof.
  intros Ht Hp. unfold total_pages.
  pose proof (Z.div_mod (t + p - 1) p ltac:(lia)) as Hd.
  pose proof (Z.mod_pos_bound (t + p - 1) p ltac:(lia)) as Hm.
  nia.
Qed.

(** C8.  With [per_page] at least 1 and an offset and a limit SQLite can
    bind, [get_posts] answers 200 with the number of posts as [total] and,
    as [total_pages], the quotient (total + per_page - 1) // per_page, which
    is the ceiling of total / per_page: the integer k with
    (k - 1) * per_page < total <= k * per_page.  With an offset or a limit
    outside signed 64 bit it raises OverflowError and returns no field. *)
Theorem total_pages_is_the_ceiling :
  forall req db,
    (1 <= per_page_of req)%Z ->
    let t := Z.of_nat (List.length (posts db)) in
    let p := per_page_of req in
    (page_fits req = true ->
     exists l page k,
       handle GET_posts req db
       = (Responded (PostPage l (List.length (posts db)) page p k, 200), db)
       /\ k = ((t + p - 1) / p)%Z
       /\ ((k - 1) * p < t <= k * p)%Z)
    /\ (page_fits req = false ->
        handle GET_posts req db = (Crashed OverflowError, db)).
Proof.
  intros req db Hp t p.
  unfold handle. cbn [view]. unfold get_posts, page_fits, page_of.
  fold (per_page_of req). fold p. split; intros Hf; rewrite Hf; mred.
  - destruct (p =? 0)%Z eqn:E; [apply Z.eqb_eq in E; unfold p in E; lia|].
    rewrite order_by_desc_length. do 3 eexists.
    split; [reflexivity|]. split; [reflexivity|].
    fold t. apply total_pages_bounds; unfold t, p; lia.
  - reflexivity.
Qed.

(* ===================================================================== *)
(** * Registration                                                        *)
(* ===================================================================== *)

Lemma truthy_nonempty (s : string) : s <> "" -> truthy (Some s) = true.
Proof.
  intros H. cbn. apply negb_true_iff. now apply String.eqb_neq.
Qed.

(** C6.  The public registration endpoint stores the [is_admin] of the
    request: a body with is_admin true, next to a username and an email not
    in use and a password, creates an administrator. *)
Theorem register_grants_admin_on_request :
  forall req db d u e p,
    get_json req = Some d ->
    j_username d = Some u -> j_email d = Some e -> j_password d = Some p ->
    u <> "" -> e <> "" -> p <> "" ->
    j_is_admin d = Some true ->
    find (fun x => String.eqb (User.username x) u) (users db) = None ->
    find (fun x => String.eqb (User.email x) e) (users db) = None ->
    let row := User.mk (next_id (map User.id (users db))) u e (Hashed p) true
                 (utcnow req) in
    handle POST_register req db
    = (Responded
         (MsgUser Utilisateur_cree_avec_succes
            (User.mk_dict (User.id row) u e true (utcnow req)), 201),
       with_users (users db ++ [row]) db).
Proof.
  intros req db d u e p Hd Hu He Hp Nu Ne Np Ha Fu Fe row.
  apply truthy_nonempty in Nu, Ne, Np.
  unfold handle. cbn [view]. unfold register, not_. rewrite Hd.
  unfold json_is_empty. rewrite Hu.
  exec. reflexivity.
Qed.

(* ===================================================================== *)
(** * Ownership                                                           *)
(* ===================================================================== *)

Lemma delete_post_run u k db p :
  find (fun x => Post.id x =? k) (posts db) = Some p ->
  run (delete_post u k) db
  = if author_or_admin (Post.user_id p) u
    then (Responded (Msg Post_supprime_avec_succes, 200), delete_post_row k db)
    else (Responded (Msg Acces_refuse, 403), db).
Proof.
  intros Hp. unfold delete_post, author_or_admin. exec; reflexivity.
Qed.

Lemma delete_comment_run u k db c :
  find (fun x => Comment.id x =? k) (comments db) = Some c ->
  run (delete_comment u k) db
  = if author_or_admin (Comment.user_id c) u
    then (Responded (Msg Commentaire_supprime_avec_succes, 200),
          delete_comment_row k db)
    else (Responded (Msg Acces_refuse, 403), db).
Proof.
  intros Hc. unfold delete_comment, author_or_admin. exec; reflexivity.
Qed.

Lemma update_post_refused u k req db p :
  find (fun x => Post.id x =? k) (posts db) = Some p ->
  author_or_admin (Post.user_id p) u = false ->
  run (update_post u k req) db = (Responded (Msg Acces_refuse, 403), db).
Proof.
  unfold update_post, author_or_admin. intros Hp Ha.
  apply orb_false_elim in Ha. destruct Ha as [Ha1 Ha2].
  exec. reflexivity.
Qed.

Lemma update_post_applied u k req db p d :
  find (fun x => Post.id x =? k) (posts db) = Some p ->
  author_or_admin (Post.user_id p) u = true ->
  get_json req = Some d ->
  exists dict,
    run (update_post u k req) db
    = (Responded (MsgPost Post_mis_a_jour_avec_succes dict, 200),
       with_posts (update_row Post.id k (updated_post d (utcnow req)) (posts db))
         db).
Proof.
  unfold update_post, author_or_admin, updated_post. intros Hp Ha Hd.
  exec; try discriminate;
    rewrite ?update_row_twice by reflexivity; eexists; reflexivity.
Qed.

Lemma update_comment_refused u k req db c :
  find (fun x => Comment.id x =? k) (comments db) = Some c ->
  author_or_admin (Comment.user_id c) u = false ->
  run (update_comment u k req) db = (Responded (Msg Acces_refuse, 403), db).
Proof.
  unfold update_comment, author_or_admin. intros Hc Ha.
  apply orb_false_elim in Ha. destruct Ha as [Ha1 Ha2].
  exec. reflexivity.
Qed.

Lemma update_comment_applied u k req db c d v :
  find (fun x => Comment.id x =? k) (comments db) = Some c ->
  author_or_admin (Comment.user_id c) u = true ->
  get_json req = Some d -> j_content d = Some v -> v <> "" ->
  exists dict,
    run (update_comment u k req) db
    = (Responded (MsgComment Commentaire_mis_a_jour_avec_succes dict, 200),
       with_comments
         (update_row Comment.id k (updated_comment v (utcnow req)) (comments db))
         db).
Proof.
  unfold update_comment, author_or_admin, updated_comment, not_.
  intros Hc Ha Hd Hv Nv. apply truthy_nonempty in Nv.
  rewrite Hd. unfold json_is_empty. rewrite Hv.
  exec; try discriminate;
    rewrite ?update_row_twice by reflexivity; eexists; reflexivity.
Qed.

Lemma update_comment_without_content u k req db c :
  find (fun x => Comment.id x =? k) (comments db) = Some c ->
  author_or_admin (Comment.user_id c) u = true ->
  match get_json req with
  | Some d => truthy (j_content d)
  | None => false
  end = false ->
  run (update_comment u k req) db = (Responded (Msg Contenu_requis, 400), db).
Proof.
  unfold update_comment, author_or_admin, not_. intros Hc Ha Hd.
  exec; try discriminate; reflexivity.
Qed.

Lemma db_forum_reachable : reachable db_forum.
Proof. repeat apply reach_request. apply reach_start, reach_fresh. Qed.

Lemma db_forum_value :
  db_forum
  = mk_database [user_admin; user_bob] [Post.mk 1 "ab" "cd" 2 12 12]
      [Comment.mk 1 "nice" 2 1 13 13] [].
Proof. vm_compute. reflexivity. Qed.

(** C1, as stated, fails: the author of a comment who sends no content is
    answered 400 and the comment stays as it was. *)
Lemma author_update_without_content_not_applied :
  ~ (forall req db u k c,
       authenticated req db u ->
       find (fun x => Comment.id x =? k) (comments db) = Some c ->
       author_or_admin (Comment.user_id c) u = true ->
       status_of (fst (handle (PUT_comments_id k) req db)) = Some 200).
Proof.
  intros H.
  specialize (H (request_of token_bob (body_post None None) 20) db_forum
                user_bob 1 (Comment.mk 1 "nice" 2 1 13 13)).
  assert (Ha : authenticated (request_of token_bob (body_post None None) 20)
                 db_forum user_bob).
  { exists 1000%Z. repeat split. }
  specialize (H Ha eq_refl eq_refl). vm_compute in H. discriminate.
Qed.

(** C1, amended.  For an authenticated request on an existing post or
    comment: a requester who is neither its author nor an administrator is
    answered 403 by the update and by the delete handler, and the database
    is unchanged.  For the author or an administrator the delete handlers
    answer 200 and delete the row; [update_post] answers 200 and applies the
    fields of a JSON object body; [update_comment] answers 200 and applies a
    content that is not empty, and answers 400, changing nothing, when the
    body has no such content. *)
Theorem only_author_or_admin_mutates :
  forall req db u,
    authenticated req db u ->
    (forall k p,
        find (fun x => Post.id x =? k) (posts db) = Some p ->
        if author_or_admin (Post.user_id p) u
        then
          handle (DELETE_posts_id k) req db
          = (Responded (Msg Post_supprime_avec_succes, 200),
             delete_post_row k db)
          /\ find (fun x => Post.id x =? k) (posts (delete_post_row k db))
             = None
          /\ (forall d,
                get_json req = Some d ->
                exists dict,
                  handle (PUT_posts_id k) req db
                  = (Responded (MsgPost Post_mis_a_jour_avec_succes dict, 200),
                     with_posts
                       (update_row Post.id k (updated_post d (utcnow req))
                          (posts db))
                       db))
        else
          handle (DELETE_posts_id k) req db
          = (Responded (Msg Acces_refuse, 403), db)
          /\ handle (PUT_posts_id k) req db
             = (Responded (Msg Acces_refuse, 403), db))
    /\ (forall k c,
          find (fun x => Comment.id x =? k) (comments db) = Some c ->
          if author_or_admin (Comment.user_id c) u
          then
            handle (DELETE_comments_id k) req db
            = (Responded (Msg Commentaire_supprime_avec_succes, 200),
               delete_comment_row k db)
            /\ find (fun x => Comment.id x =? k)
                 (comments (delete_comment_row k db))
               = None
            /\ (forall d v,
                  get_json req = Some d -> j_content d = Some v -> v <> "" ->
                  exists dict,
                    handle (PUT_comments_id k) req db
                    = (Responded
                         (MsgComment Commentaire_mis_a_jour_avec_succes dict,
                          200),
                       with_comments
                         (update_row Comment.id k
                            (updated_comment v (utcnow req)) (comments db))
                         db))
            /\ (match get_json req with
                | Some d => truthy (j_content d)
                | None => false
                end = false ->
                handle (PUT_comments_id k) req db
                = (Responded (Msg Contenu_requis, 400), db))
          else
            handle (DELETE_comments_id k) req db
            = (Responded (Msg Acces_refuse, 403), db)
            /\ handle (PUT_comments_id k) req db
               = (Responded (Msg Acces_refuse, 403), db)).
Proof.
  intros req db u Ha. unfold handle. cbn [view].
  split.
  - intros k p Hp. rewrite !(token_required_run _ Ha).
    rewrite (delete_post_run u k db Hp).
    destruct (author_or_admin (Post.user_id p) u) eqn:E.
    + split; [reflexivity|]. split.
      * rewrite delete_post_row_posts. apply find_filter_self.
      * intros d Hd. now apply (update_post_applied u k req db Hp).
    + split; [reflexivity|]. now apply (update_post_refused u k req db Hp).
  - intros k c Hc. rewrite !(token_required_run _ Ha).
    rewrite (delete_comment_run u k db Hc).
    destruct (author_or_admin (Comment.user_id c) u) eqn:E.
    + split; [reflexivity|]. split; [|split].
      * rewrite delete_comment_row_comments. apply find_filter_self.
      * intros d v Hd Hv Nv.
        now apply (update_comment_applied u k req db Hc E Hd).
      * intros Hd. now apply (update_comment_without_content u k req db Hc).
    + split; [reflexivity|]. now apply (update_comment_refused u k req db Hc).
Qed.

(* ===================================================================== *)
(** * Administrators and their own account                                *)
(* ===================================================================== *)

Lemma admin_required_run (f : User.t -> M response) (u : User.t)
  (db : database) :
  User.is_admin u = true -> run (admin_required f u) db = run (f u) db.
Proof. intros H. unfold admin_required. now rewrite H. Qed.

Lemma delete_user_self u db :
  run (delete_user u (User.id u)) db
  = (Responded (Msg Vous_ne_pouvez_pas_supprimer_votre_propre_compte, 400),
     db).
Proof. unfold delete_user. exec. reflexivity. Qed.

Lemma update_user_self u req db d b :
  find (fun x => User.id x =? User.id u) (users db) = Some u ->
  get_json req = Some d ->
  j_is_admin d = Some b ->
  run (update_user u (User.id u) req) db
  = (Responded
       (if taken_by_other User.username (j_username d) db (User.id u)
        then (Msg Nom_d_utilisateur_deja_existant, 409)
        else if taken_by_other User.email (j_email d) db (User.id u)
             then (Msg Email_deja_existant, 409)
             else
               (Msg Vous_ne_pouvez_pas_modifier_vos_propres_droits_admin,
                400)),
     db).
Proof.
  intros Hu Hd Hb. unfold update_user, taken_by_other.
  exec; try reflexivity; cbn in *; congruence.
Qed.

(** C2, as stated, fails: an administrator who sends is_admin together with
    a username that another user has is answered 409, not 400. *)
Lemma admin_self_update_conflict_is_409 :
  ~ (forall req db u d b,
       authenticated req db u ->
       User.is_admin u = true ->
       get_json req = Some d ->
       j_is_admin d = Some b ->
       status_of (fst (handle (PUT_admin_users (User.id u)) req db))
       = Some 400).
Proof.
  intros H.
  pose (d := mk_json (Some "bob") None None (Some false) None None None None).
  specialize (H (request_of token_admin (Some d) 20) db_forum user_admin
                d false).
  assert (Ha : authenticated (request_of token_admin (Some d) 20) db_forum
                 user_admin).
  { exists 1000%Z. repeat split. }
  specialize (H Ha eq_refl eq_refl eq_refl). vm_compute in H. discriminate.
Qed.

(** C2, amended.  An administrator's DELETE on their own id is answered 400
    and deletes nothing.  Their PUT on their own id with an is_admin field
    commits nothing either, so the admin flag stays: the answer is 400,
    unless the body also has a username or an email that another user
    holds, which is answered 409 first. *)
Theorem admin_cannot_lock_themselves_out :
  forall req db u,
    authenticated req db u ->
    User.is_admin u = true ->
    handle (DELETE_admin_users (User.id u)) req db
    = (Responded (Msg Vous_ne_pouvez_pas_supprimer_votre_propre_compte, 400),
       db)
    /\ (forall d b,
          get_json req = Some d ->
          j_is_admin d = Some b ->
          handle (PUT_admin_users (User.id u)) req db
          = (Responded
               (if taken_by_other User.username (j_username d) db (User.id u)
                then (Msg Nom_d_utilisateur_deja_existant, 409)
                else if taken_by_other User.email (j_email d) db (User.id u)
                     then (Msg Email_deja_existant, 409)
                     else
                       (Msg
                          Vous_ne_pouvez_pas_modifier_vos_propres_droits_admin,
                        400)),
             db)).
Proof.
  intros req db u Ha Hadm. unfold handle. cbn [view].
  rewrite !(token_required_run _ Ha), !(@admin_required_run _ _ _ Hadm).
  split; [apply delete_user_self|].
  intros d b Hd Hb. destruct Ha as (_ & _ & _ & Hu).
  now apply update_user_self with (b := b).
Qed.

(* ===================================================================== *)
(** * Requests without a body                                             *)
(* ===================================================================== *)











(* ===================================================================== *)
(** * Search                                                              *)
(* ===================================================================== *)













(** C7.  The query is put into the LIKE pattern as it is, so its [_] and
    [%] are wildcards.  On the sample forum, whose one post has title "ab"
    and content "cd", the query "__" is answered with that post, 200,
    although neither text contains "__": the search the specification
    describes finds nothing there. *)
Theorem search_reads_the_query_as_a_pattern :
  handle GET_posts_search
    (mk_request NoHeader None None None (Some "__") 20) db_forum
  = (Responded
       (SearchResult
          [Post_dict_of db_forum true true (Post.mk 1 "ab" "cd" 2 12 12)]
          1 "__", 200),
     db_forum)
  /\ specified_search "__" db_forum = [].
Proof. split; vm_compute; reflexivity. Qed.

(* ===================================================================== *)
(** * The properties on the small forum                                   *)
(* ===================================================================== *)

Lemma db_liked_reachable : reachable db_liked.
Proof. apply reach_request, db_forum_reachable. Qed.

Lemma bob_authenticated (data : option json) (now : Z) :
  (now < 1000)%Z ->
  authenticated (request_of token_bob data now) db_forum user_bob.
Proof. intros H. exists 1000%Z. repeat split. exact H. Qed.

Lemma admin_authenticated (data : option json) (now : Z) :
  (now < 1000)%Z ->
  authenticated (request_of token_admin data now) db_forum user_admin.
Proof. intros H. exists 1000%Z. repeat split. exact H. Qed.

(** The administrator renames bob and gives him the administrator's own
    email: the new name is already in the session when the email is found
    taken, and nothing of it is stored. *)
Lemma error_responses_commit_nothing_witness :
  let req :=
    request_of token_admin
      (Some (mk_json (Some "robert") (Some "admin@example.com") None None
               None None None None)) 20 in
  fst (handle (PUT_admin_users 2) req db_forum)
  = Responded (Msg Email_deja_existant, 409)
  /\ snd (handle (PUT_admin_users 2) req db_forum) = db_forum.
Proof.
  intros req. split; [vm_compute; reflexivity|].
  apply (@error_responses_commit_nothing (PUT_admin_users 2) req db_forum
           (Responded (Msg Email_deja_existant, 409))
           (snd (handle (PUT_admin_users 2) req db_forum))).
  - vm_compute. reflexivity.
  - reflexivity.
Defined.

Lemma like_rows_have_one_target_witness :
  reachable db_liked /\ likes_have_one_target db_liked.
Proof.
  split; [exact db_liked_reachable|].
  apply (proj1 like_rows_have_one_target). exact db_liked_reachable.
Defined.

Lemma one_like_per_user_and_target_witness :
  reachable db_liked /\ at_most_one_like db_liked.
Proof.
  split; [exact db_liked_reachable|].
  apply (proj1 one_like_per_user_and_target). exact db_liked_reachable.
Defined.

Lemma like_is_a_toggle_witness :
  let req := request_of token_bob None 14 in
  let req' := request_of token_bob None 15 in
  reachable db_forum
  /\ target_exists db_forum (OnPost 1)
  /\ authenticated req db_forum user_bob
  /\ authenticated req' db_forum user_bob
  /\ forall u t,
       liked (snd (handle (like_route (OnPost 1)) req'
                     (snd (handle (like_route (OnPost 1)) req db_forum))))
         u t
       = liked db_forum u t.
Proof.
  intros req req'.
  assert (He : target_exists db_forum (OnPost 1)) by (vm_compute; discriminate).
  assert (Ha : authenticated req db_forum user_bob)
    by (apply bob_authenticated; reflexivity).
  assert (Ha' : authenticated req' db_forum user_bob)
    by (apply bob_authenticated; reflexivity).
  split; [exact db_forum_reachable|]. split; [exact He|].
  split; [exact Ha|]. split; [exact Ha'|].
  destruct (@like_is_a_toggle db_forum db_forum_reachable user_bob (OnPost 1)
              req req' He Ha Ha') as (_ & _ & _ & _ & _ & H).
  exact H.
Defined.

Lemma total_pages_is_the_ceiling_witness :
  let req := mk_request NoHeader None None (Some 3%Z) None 20 in
  (1 <= per_page_of req)%Z
  /\ page_fits req = true
  /\ exists l page k,
       handle GET_posts req db_forum
       = (Responded (PostPage l (List.length (posts db_forum)) page 3%Z k, 200),
          db_forum)
       /\ k = ((Z.of_nat (List.length (posts db_forum)) + 3 - 1) / 3)%Z
       /\ ((k - 1) * 3 < Z.of_nat (List.length (posts db_forum)) <= k * 3)%Z.
Proof.
  intros req.
  assert (H : (1 <= per_page_of req)%Z) by (vm_compute; discriminate).
  split; [exact H|]. split; [reflexivity|].
  exact (proj1 (@total_pages_is_the_ceiling req db_forum H) eq_refl).
Defined.

Lemma register_grants_admin_on_request_witness :
  let req :=
    request_of NoHeader
      (body_user "mallory" "mallory@example.com" "pw" (Some true)) 30 in
  handle POST_register req db_forum
  = (Responded
       (MsgUser Utilisateur_cree_avec_succes
          (User.mk_dict 3 "mallory" "mallory@example.com" true 30), 201),
     with_users
       (users db_forum
        ++ [User.mk 3 "mallory" "mallory@example.com" (Hashed "pw") true 30])
       db_forum).
Proof.
  intros req.
  apply (@register_grants_admin_on_request req db_forum
           (mk_json (Some "mallory") (Some "mallory@example.com") (Some "pw")
              (Some true) None None None None)
           "mallory" "mallory@example.com" "pw");
    try reflexivity; discriminate.
Defined.

Lemma only_author_or_admin_mutates_witness :
  let req := request_of token_bob None 20 in
  authenticated req db_forum user_bob
  /\ handle (DELETE_comments_id 1) req db_forum
     = (Responded (Msg Commentaire_supprime_avec_succes, 200),
        delete_comment_row 1 db_forum)
  /\ handle (PUT_comments_id 1) req db_forum
     = (Responded (Msg Contenu_requis, 400), db_forum).
Proof.
  intros req.
  assert (Ha : authenticated req db_forum user_bob)
    by (apply bob_authenticated; reflexivity).
  split; [exact Ha|].
  destruct (@only_author_or_admin_mutates req db_forum user_bob Ha) as [_ H].
  specialize (H 1 (Comment.mk 1 "nice" 2 1 13 13) eq_refl).
  change (author_or_admin 2 user_bob) with true in H. cbv iota in H.
  destruct H as (H1 & _ & _ & H2).
  split; [exact H1 | exact (H2 eq_refl)].
Defined.

Lemma admin_cannot_lock_themselves_out_witness :
  let req :=
    request_of token_admin
      (Some (mk_json None None None (Some false) None None None None)) 20 in
  authenticated req db_forum user_admin
  /\ User.is_admin user_admin = true
  /\ handle (DELETE_admin_users 1) req db_forum
     = (Responded (Msg Vous_ne_pouvez_pas_supprimer_votre_propre_compte, 400),
        db_forum)
  /\ handle (PUT_admin_users 1) req db_forum
     = (Responded
          (Msg Vous_ne_pouvez_pas_modifier_vos_propres_droits_admin, 400),
        db_forum).
Proof.
  intros req.
  assert (Ha : authenticated req db_forum user_admin)
    by (apply admin_authenticated; reflexivity).
  split; [exact Ha|]. split; [reflexivity|].
  destruct (@admin_cannot_lock_themselves_out req db_forum user_admin Ha
              eq_refl) as [H1 H2].
  split; [exact H1|].
  exact (H2 (mk_json None None None (Some false) None None None None) false
            eq_refl eq_refl).
Defined.


(* ===================================================================== *)
(** * Every request as a sequence of row operations                        *)
(* ===================================================================== *)

Ltac use_hyps :=
  repeat match goal with
         | H : ?x = _ |- context [?x] => rewrite H
         end.

Ltac unfold_refs :=
  unfold taken, user_exists, post_exists, comment_exists, like_refs_ok.

Ltac side :=
  unfold_refs;
  cbn [users posts comments likes User.id User.username User.email
       Post.id Post.user_id Comment.id Comment.user_id Comment.post_id
       Like.id Like.user_id Like.post_id Like.comment_id
       User_ Post_ Comment_ Like_ User.set_password];
  unfold_refs;
  rewrite ?find_update_row_field by reflexivity;
  use_hyps;
  first [ reflexivity
        | intro; repeat split; reflexivity
        | cbn; unfold_refs; use_hyps; reflexivity ].

Ltac one_step :=
  first [ apply step_add_user; side
        | apply step_set_username; side
        | apply step_set_email; side
        | apply step_set_is_admin
        | apply step_set_password
        | apply step_delete_user
        | apply step_add_post; side
        | apply step_set_post; side
        | apply step_delete_post
        | apply step_add_comment; side
        | apply step_set_comment; side
        | apply step_delete_comment
        | apply step_add_like; side
        | apply step_delete_like ].

Ltac walk :=
  first [ apply steps_refl
        | eapply steps_snoc; [ | solve [one_step] ]; walk ].

Section HandlerSteps.
Variables (us : list User.t) (ps : list Post.t) (cs : list Comment.t)
  (ls : list Like.t).
Let d := mk_database us ps cs ls.

Lemma register_steps req : steps d (snd (run (register req) d)).
Proof. unfold register, d. exec; walk. Qed.

Lemma login_steps req : steps d (snd (run (login req) d)).
Proof. unfold login, d. exec; walk. Qed.

Lemma get_current_user_steps u : steps d (snd (run (get_current_user u) d)).
Proof. unfold get_current_user, d. exec; walk. Qed.

Lemma get_all_users_steps u : steps d (snd (run (get_all_users u) d)).
Proof. unfold get_all_users, d. exec; walk. Qed.

Lemma delete_user_steps u k : steps d (snd (run (delete_user u k) d)).
Proof. unfold delete_user, d. exec; walk. Qed.

Lemma update_user_steps u k req : steps d (snd (run (update_user u k req) d)).
Proof. unfold update_user, d. exec; walk. Qed.

Lemma get_posts_steps req : steps d (snd (run (get_posts req) d)).
Proof. unfold get_posts, d. exec; walk. Qed.

Lemma get_post_steps k : steps d (snd (run (get_post k) d)).
Proof. unfold get_post, d. exec; walk. Qed.

Lemma create_post_steps u req :
  find (fun x => User.id x =? User.id u) us = Some u ->
  steps d (snd (run (create_post u req) d)).
Proof. intros Hu. unfold create_post, d. exec; walk. Qed.

Lemma update_post_steps u k req : steps d (snd (run (update_post u k req) d)).
Proof. unfold update_post, d. exec; walk. Qed.

Lemma delete_post_steps u k : steps d (snd (run (delete_post u k) d)).
Proof. unfold delete_post, d. exec; walk. Qed.

Lemma get_comments_steps k : steps d (snd (run (get_comments k) d)).
Proof. unfold get_comments, d. exec; walk. Qed.

Lemma create_comment_steps u k req :
  find (fun x => User.id x =? User.id u) us = Some u ->
  steps d (snd (run (create_comment u k req) d)).
Proof. intros Hu. unfold create_comment, d. exec; walk. Qed.

Lemma update_comment_steps u k req :
  steps d (snd (run (update_comment u k req) d)).
Proof. unfold update_comment, d. exec; walk. Qed.

Lemma delete_comment_steps u k : steps d (snd (run (delete_comment u k) d)).
Proof. unfold delete_comment, d. exec; walk. Qed.

Lemma toggle_post_like_steps u k req :
  find (fun x => User.id x =? User.id u) us = Some u ->
  steps d (snd (run (toggle_post_like u k req) d)).
Proof. intros Hu. unfold toggle_post_like, d. exec; walk. Qed.

Lemma toggle_comment_like_steps u k req :
  find (fun x => User.id x =? User.id u) us = Some u ->
  steps d (snd (run (toggle_comment_like u k req) d)).
Proof. intros Hu. unfold toggle_comment_like, d. exec; walk. Qed.

Lemma get_post_likes_steps k : steps d (snd (run (get_post_likes k) d)).
Proof. unfold get_post_likes, d. exec; walk. Qed.

Lemma get_comment_likes_steps k : steps d (snd (run (get_comment_likes k) d)).
Proof. unfold get_comment_likes, d. exec; walk. Qed.

Lemma check_user_liked_post_steps u k :
  steps d (snd (run (check_user_liked_post u k) d)).
Proof. unfold check_user_liked_post, d. exec; walk. Qed.

Lemma check_user_liked_comment_steps u k :
  steps d (snd (run (check_user_liked_comment u k) d)).
Proof. unfold check_user_liked_comment, d. exec; walk. Qed.

Lemma get_user_profile_steps k : steps d (snd (run (get_user_profile k) d)).
Proof. unfold get_user_profile, d. exec; walk. Qed.

Lemma update_own_profile_steps u req :
  steps d (snd (run (update_own_profile u req) d)).
Proof. unfold update_own_profile, d. exec; walk. Qed.

Lemma update_password_steps u req :
  steps d (snd (run (update_password u req) d)).
Proof. unfold update_password, d. exec; walk. Qed.

Lemma search_posts_steps req : steps d (snd (run (search_posts req) d)).
Proof. unfold search_posts, d. exec; walk. Qed.

Lemma create_tables_steps now : steps d (run_create_tables now d).
Proof.
  unfold run_create_tables, create_tables, d.
  destruct us as [|x l]; exec; try discriminate; walk.
Qed.
End HandlerSteps.

Section Keys.
Variable A : Type.
Variable id : A -> nat.

Lemma NoDup_map_added (l : list A) (row : A) :
  NoDup (map id l) -> id row = next_id (map id l) ->
  NoDup (map id (l ++ [row])).
Proof.
  intros H E. rewrite map_app. cbn [map].
  apply NoDup_app; [exact H | repeat constructor; easy |].
  intros x Hx [<- | []]. rewrite E in Hx. now apply next_id_fresh in Hx.
Qed.

Lemma update_row_map (B : Type) (g : A -> B) (k : nat) (f : A -> A)
  (l : list A) :
  (forall r, g (f r) = g r) -> map g (update_row id k f l) = map g l.
Proof.
  intros H. unfold update_row. rewrite map_map. apply map_ext.
  intros r. now destruct (id r =? k).
Qed.

Lemma update_row_absent (k : nat) (f : A -> A) (l : list A) :
  ~ In k (map id l) -> update_row id k f l = l.
Proof.
  unfold update_row. induction l as [|x l IH]; cbn; intros H; [reflexivity|].
  destruct (id x =? k) eqn:E.
  - apply Nat.eqb_eq in E. tauto.
  - f_equal. apply IH. tauto.
Qed.

Lemma exists_by_id_in (l : list A) (k : nat) :
  is_some (find (fun x => id x =? k) l) = true <-> In k (map id l).
Proof.
  split.
  - destruct (find _ l) as [r|] eqn:E; [|discriminate]. intros _.
    pose proof (find_by_id_key _ _ _ E) as <-.
    apply find_some in E. now apply in_map.
  - intros H. apply in_map_iff in H. destruct H as (x & <- & Hx).
    destruct (find _ l) eqn:E; [reflexivity|].
    apply (find_none _ _ E) in Hx. now rewrite Nat.eqb_refl in Hx.
Qed.

Lemma exists_update_row (l : list A) (k j : nat) (f : A -> A) :
  (forall r, id (f r) = id r) ->
  is_some (find (fun x => id x =? j) (update_row id k f l))
  = is_some (find (fun x => id x =? j) l).
Proof.
  intros H. rewrite find_update_row_field by (intros r; now rewrite H).
  now destruct (find _ l).
Qed.

Lemma exists_added (l : list A) (row : A) (j : nat) :
  is_some (find (fun x => id x =? j) l) = true ->
  is_some (find (fun x => id x =? j) (l ++ [row])) = true.
Proof. rewrite find_app. now destruct (find _ l). Qed.

Lemma find_filter_other (k j : nat) (l : list A) :
  j <> k ->
  find (fun x => id x =? j) (filter (fun x => negb (id x =? k)) l)
  = find (fun x => id x =? j) l.
Proof.
  intros Hk. induction l as [|x l IH]; cbn; [reflexivity|].
  destruct (id x =? k) eqn:E; cbn.
  - apply Nat.eqb_eq in E.
    destruct (id x =? j) eqn:E'; [apply Nat.eqb_eq in E'; lia | exact IH].
  - destruct (id x =? j); [reflexivity | exact IH].
Qed.

Lemma exists_filter_other (l : list A) (k j : nat) :
  j <> k ->
  is_some (find (fun x => id x =? j)
             (filter (fun x => negb (id x =? k)) l))
  = is_some (find (fun x => id x =? j) l).
Proof. intros H. now rewrite find_filter_other. Qed.
End Keys.

Section UniqueField.
Variable g : User.t -> string.
Variable set : string -> User.t -> User.t.
Hypothesis g_set : forall v r, g (set v r) = v.
Hypothesis id_set : forall v r, User.id (set v r) = User.id r.

Lemma find_field_none (v : string) (l : list User.t) :
  find (fun x => String.eqb (g x) v) l = None -> ~ In v (map g l).
Proof.
  intros H Hin. apply in_map_iff in Hin. destruct Hin as (x & <- & Hx).
  apply (find_none _ _ H) in Hx. now rewrite String.eqb_refl in Hx.
Qed.

Lemma unique_field_update (l : list User.t) (k : nat) (v : string) :
  NoDup (map User.id l) -> NoDup (map g l) ->
  taken (find (fun x => String.eqb (g x) v) l) k = false ->
  NoDup (map g (update_row User.id k (set v) l)).
Proof.
  induction l as [|x l IH]; [constructor|].
  intros Hid Hg Ht.
  inversion Hid as [|? ? Hidx Hidl]; inversion Hg as [|? ? Hgx Hgl]; subst.
  unfold update_row. cbn [map]. fold (update_row User.id k (set v) l).
  cbn [find] in Ht.
  destruct (User.id x =? k) eqn:E.
  - apply Nat.eqb_eq in E. subst k. rewrite g_set.
    rewrite update_row_absent by assumption.
    constructor; [|assumption]. intros Hin.
    destruct (String.eqb (g x) v) eqn:Ex.
    + apply String.eqb_eq in Ex. subst v. contradiction.
    + destruct (find _ l) as [e|] eqn:Ef.
      * cbn in Ht. apply negb_false_iff, Nat.eqb_eq in Ht.
        apply find_some in Ef. destruct Ef as [Hin' _].
        apply Hidx. rewrite <- Ht. now apply in_map.
      * now apply find_field_none in Ef.
  - destruct (String.eqb (g x) v) eqn:Ex.
    + cbn in Ht. now rewrite E in Ht.
    + constructor; [|now apply IH].
      intros Hin. apply in_map_iff in Hin. destruct Hin as (y & Hy & Hin).
      unfold update_row in Hin. apply in_map_iff in Hin.
      destruct Hin as (r & <- & Hr).
      destruct (User.id r =? k).
      * rewrite g_set in Hy. subst v. now rewrite String.eqb_refl in Ex.
      * apply Hgx. rewrite <- Hy. now apply in_map.
Qed.

Lemma unique_field_added (l : list User.t) (row : User.t) :
  NoDup (map g l) ->
  find (fun x => String.eqb (g x) (g row)) l = None ->
  NoDup (map g (l ++ [row])).
Proof.
  intros H Hf. rewrite map_app. cbn [map].
  apply NoDup_app; [exact H | repeat constructor; easy |].
  intros x Hx [<- | []]. now apply find_field_none in Hf.
Qed.
End UniqueField.

Lemma like_refs_ok_mono (d d' : database) (l : Like.t) :
  (forall j, user_exists (users d) j = true ->
             user_exists (users d') j = true) ->
  (forall j, post_exists (posts d) j = true ->
             post_exists (posts d') j = true) ->
  (forall j, comment_exists (comments d) j = true ->
             comment_exists (comments d') j = true) ->
  like_refs_ok d l = true -> like_refs_ok d' l = true.
Proof.
  intros Hu Hp Hc. unfold like_refs_ok. intros H.
  apply andb_prop in H. destruct H as [H1 H2].
  apply andb_true_intro. split; [now apply Hu|].
  destruct (Like.post_id l), (Like.comment_id l); auto.
Qed.

(** A change that keeps every key of the three referenced tables. *)
Lemma consistent_same_keys (d d' : database) :
  consistent d ->
  NoDup (map User.id (users d')) ->
  NoDup (map User.username (users d')) ->
  NoDup (map User.email (users d')) ->
  NoDup (map Post.id (posts d')) ->
  NoDup (map Comment.id (comments d')) ->
  NoDup (map Like.id (likes d')) ->
  (forall j, user_exists (users d) j = true ->
             user_exists (users d') j = true) ->
  (forall j, post_exists (posts d) j = true ->
             post_exists (posts d') j = true) ->
  (forall j, comment_exists (comments d) j = true ->
             comment_exists (comments d') j = true) ->
  (forall p, In p (posts d') ->
             In p (posts d)
             \/ user_exists (users d') (Post.user_id p) = true) ->
  (forall c, In c (comments d') ->
             In c (comments d)
             \/ (user_exists (users d') (Comment.user_id c) = true
                 /\ post_exists (posts d') (Comment.post_id c) = true)) ->
  (forall l, In l (likes d') ->
             In l (likes d) \/ like_refs_ok d' l = true) ->
  consistent d'.
Proof.
  intros Hd N1 N2 N3 N4 N5 N6 Hu Hp Hc Pp Pc Pl.
  destruct Hd as [_ _ _ _ _ _ Rp Rc Rl].
  constructor; auto.
  - intros p Hin. destruct (Pp p Hin); auto.
  - intros c Hin. destruct (Pc c Hin) as [H|H]; [|exact H].
    destruct (Rc c H). auto.
  - intros l Hin. destruct (Pl l Hin) as [H|H]; [|exact H].
    apply like_refs_ok_mono with (d := d); auto.
Qed.

Lemma in_update_row (A : Type) (id : A -> nat) (k : nat) (f : A -> A)
  (l : list A) (x : A) :
  In x (update_row id k f l) -> In x l \/ exists r, In r l /\ x = f r.
Proof.
  unfold update_row. intros H. apply in_map_iff in H.
  destruct H as (r & <- & Hr).
  destruct (id r =? k); [right; now exists r | now left].
Qed.

Lemma in_added (A : Type) (l : list A) (row x : A) :
  In x (l ++ [row]) -> In x l \/ x = row.
Proof.
  intros H. apply in_app_or in H. destruct H as [H | [<- | []]]; auto.
Qed.

Ltac same_tables :=
  cbn [users posts comments likes]; try assumption;
  try (intros; assumption); try (intros; now left).

Lemma consistent_users_updated us ps cs ls k f :
  consistent (mk_database us ps cs ls) ->
  (forall r, User.id (f r) = User.id r) ->
  NoDup (map User.username (update_row User.id k f us)) ->
  NoDup (map User.email (update_row User.id k f us)) ->
  consistent (mk_database (update_row User.id k f us) ps cs ls).
Proof.
  intros Hd Hid Hn He. pose proof Hd as [A1 A2 A3 A4 A5 A6 _ _ _].
  cbn [users posts comments likes] in *.
  apply (@consistent_same_keys _ _ Hd); same_tables.
  - now rewrite update_row_map.
  - intros j. unfold user_exists. now rewrite exists_update_row.
Qed.

Lemma consistent_delete_comment (k : nat) (d : database) :
  consistent d -> consistent (delete_comment_row k d).
Proof.
  intros Hd. pose proof Hd as [A1 A2 A3 A4 A5 A6 Rp Rc Rl].
  unfold delete_comment_row.
  constructor; cbn [users posts comments likes with_comments with_likes];
    auto using NoDup_map_filter.
  - intros c Hc. apply filter_In in Hc. now apply Rc.
  - intros l Hl. apply filter_In in Hl. destruct Hl as [Hl Hk].
    specialize (Rl l Hl). unfold like_refs_ok in *.
    cbn [users posts comments likes with_comments with_likes].
    apply andb_prop in Rl. destruct Rl as [R1 R2]. rewrite R1. cbn [andb].
    unfold like_on in Hk.
    destruct (Like.post_id l) as [p|], (Like.comment_id l) as [c|];
      try assumption.
    cbn in Hk. apply negb_true_iff, Nat.eqb_neq in Hk.
    unfold comment_exists in *. now rewrite exists_filter_other.
Qed.

Section DeleteComments.
Variable cs0 : list Comment.t.

Lemma consistent_delete_comments (d : database) :
  consistent d -> consistent (delete_comments cs0 d).
Proof.
  intros H. unfold delete_comments.
  induction cs0 as [|c l IH]; cbn [fold_right]; [exact H|].
  now apply consistent_delete_comment.
Qed.

Lemma delete_comments_users (d : database) :
  users (delete_comments cs0 d) = users d.
Proof.
  unfold delete_comments. induction cs0 as [|c l IH]; cbn; auto.
Qed.

Lemma delete_comments_posts' (d : database) :
  posts (delete_comments cs0 d) = posts d.
Proof.
  unfold delete_comments. induction cs0 as [|c l IH]; cbn; auto.
Qed.

Lemma delete_comments_comments (d : database) (c : Comment.t) :
  In c (comments (delete_comments cs0 d)) <->
  In c (comments d) /\ ~ In (Comment.id c) (map Comment.id cs0).
Proof.
  unfold delete_comments. induction cs0 as [|x l IH]; cbn [fold_right map].
  - cbn. tauto.
  - rewrite delete_comment_row_comments, filter_In, IH.
    rewrite negb_true_iff, Nat.eqb_neq. cbn [In]. intuition congruence.
Qed.
End DeleteComments.

Lemma NoDup_map_filter_any (A B : Type) (g : A -> B) (f : A -> bool)
  (l : list A) :
  NoDup (map g l) -> NoDup (map g (filter f l)).
Proof.
  induction l as [|x l IH]; cbn; [trivial|].
  intros H. inversion H as [|? ? Hnin Hnd]; subst.
  destruct (f x); cbn; [|now apply IH].
  constructor; [|now apply IH].
  intros Hin. apply Hnin. apply in_map_iff in Hin.
  destruct Hin as (y & Hy & Hin). apply filter_In in Hin.
  apply in_map_iff. exists y. tauto.
Qed.

Lemma delete_post_row_users (k : nat) (d : database) :
  users (delete_post_row k d) = users d.
Proof.
  unfold delete_post_row. cbn.
  apply (delete_comments_users (Post_comments d k) d).
Qed.

Lemma delete_post_row_comments (k : nat) (d : database) (c : Comment.t) :
  In c (comments (delete_post_row k d)) ->
  In c (comments d) /\ Comment.post_id c <> k.
Proof.
  unfold delete_post_row. cbn.
  change (fold_right _ d (Post_comments d k))
    with (delete_comments (Post_comments d k) d).
  rewrite delete_comments_comments. unfold Post_comments.
  intros [Hc Hn]. split; [exact Hc|]. intros E. apply Hn.
  apply in_map. apply filter_In. split; [exact Hc|].
  now apply Nat.eqb_eq.
Qed.

Lemma consistent_delete_post (k : nat) (d : database) :
  consistent d -> consistent (delete_post_row k d).
Proof.
  intros Hd.
  pose proof (@delete_post_row_comments k d) as Hcs.
  pose proof (delete_post_row_users k d) as Hus.
  pose proof (delete_post_row_posts k d) as Hps.
  unfold delete_post_row in *.
  change (fold_right _ d (Post_comments d k))
    with (delete_comments (Post_comments d k) d) in *.
  pose proof (consistent_delete_comments (Post_comments d k) Hd) as Hd1.
  set (d1 := delete_comments (Post_comments d k) d) in *.
  pose proof (delete_comments_posts' (Post_comments d k) d) as Hp1.
  fold d1 in Hp1.
  cbn [users posts comments likes with_posts with_likes] in *.
  destruct Hd1 as [A1 A2 A3 A4 A5 A6 Rp Rc Rl].
  constructor; cbn [users posts comments likes with_posts with_likes];
    auto using NoDup_map_filter.
  - intros p Hp. apply filter_In in Hp. now apply Rp.
  - intros c Hc. destruct (Rc c Hc) as [R1 R2]. split; [exact R1|].
    destruct (Hcs c Hc) as [_ Hn].
    unfold post_exists in *. now rewrite exists_filter_other.
  - intros l Hl. apply filter_In in Hl. destruct Hl as [Hl Hk].
    specialize (Rl l Hl). unfold like_refs_ok in *.
    cbn [users posts comments likes with_posts with_likes].
    apply andb_prop in Rl. destruct Rl as [R1 R2]. rewrite R1. cbn [andb].
    unfold like_on in Hk.
    destruct (Like.post_id l) as [p|], (Like.comment_id l) as [c|];
      try assumption.
    cbn in Hk. rewrite andb_true_r in Hk.
    apply negb_true_iff, Nat.eqb_neq in Hk.
    unfold post_exists in *. now rewrite exists_filter_other.
Qed.

Section DeletePosts.
Variable ps0 : list Post.t.

Lemma consistent_delete_posts (d : database) :
  consistent d -> consistent (delete_posts ps0 d).
Proof.
  intros H. unfold delete_posts.
  induction ps0 as [|p l IH]; cbn [fold_right]; [exact H|].
  now apply consistent_delete_post.
Qed.

Lemma delete_posts_users (d : database) :
  users (delete_posts ps0 d) = users d.
Proof.
  unfold delete_posts. induction ps0 as [|p l IH]; cbn [fold_right]; auto.
  now rewrite delete_post_row_users.
Qed.

Lemma delete_posts_posts (d : database) (p : Post.t) :
  In p (posts (delete_posts ps0 d)) <->
  In p (posts d) /\ ~ In (Post.id p) (map Post.id ps0).
Proof.
  unfold delete_posts. induction ps0 as [|x l IH]; cbn [fold_right map].
  - cbn. tauto.
  - rewrite delete_post_row_posts, filter_In, IH.
    rewrite negb_true_iff, Nat.eqb_neq. cbn [In]. intuition congruence.
Qed.

Lemma delete_posts_comments (d : database) (c : Comment.t) :
  In c (comments (delete_posts ps0 d)) -> In c (comments d).
Proof.
  unfold delete_posts. induction ps0 as [|x l IH]; cbn [fold_right]; auto.
  intros H. apply delete_post_row_comments in H. now apply IH.
Qed.
End DeletePosts.

Lemma delete_user_row_posts (k : nat) (d : database) (p : Post.t) :
  In p (posts (delete_user_row k d)) ->
  In p (posts d) /\ Post.user_id p <> k.
Proof.
  unfold delete_user_row. cbn.
  change (fold_right _ d (User_posts d k))
    with (delete_posts (User_posts d k) d).
  change (fold_right _ ?x (User_comments d k))
    with (delete_comments (User_comments d k) x).
  rewrite delete_comments_posts', delete_posts_posts. unfold User_posts.
  intros [Hp Hn]. split; [exact Hp|]. intros E. apply Hn.
  apply in_map. apply filter_In. split; [exact Hp|]. now apply Nat.eqb_eq.
Qed.

Lemma delete_user_row_comments (k : nat) (d : database) (c : Comment.t) :
  In c (comments (delete_user_row k d)) ->
  In c (comments d) /\ Comment.user_id c <> k.
Proof.
  unfold delete_user_row. cbn.
  change (fold_right _ d (User_posts d k))
    with (delete_posts (User_posts d k) d).
  change (fold_right _ ?x (User_comments d k))
    with (delete_comments (User_comments d k) x).
  rewrite delete_comments_comments. unfold User_comments.
  intros [Hc Hn]. apply delete_posts_comments in Hc.
  split; [exact Hc|]. intros E. apply Hn.
  apply in_map. apply filter_In. split; [exact Hc|]. now apply Nat.eqb_eq.
Qed.

Lemma consistent_delete_user (k : nat) (d : database) :
  consistent d -> consistent (delete_user_row k d).
Proof.
  intros Hd.
  pose proof (@delete_user_row_posts k d) as Hps.
  pose proof (@delete_user_row_comments k d) as Hcs.
  unfold delete_user_row in *.
  change (fold_right _ d (User_posts d k))
    with (delete_posts (User_posts d k) d) in *.
  change (fold_right _ ?x (User_comments d k))
    with (delete_comments (User_comments d k) x) in *.
  pose proof (consistent_delete_posts (User_posts d k) Hd) as Hd1.
  set (d1 := delete_posts (User_posts d k) d) in *.
  pose proof (consistent_delete_comments (User_comments d k) Hd1) as Hd2.
  set (d2 := delete_comments (User_comments d k) d1) in *.
  cbn [users posts comments likes with_users with_likes] in *.
  destruct Hd2 as [A1 A2 A3 A4 A5 A6 Rp Rc Rl].
  constructor; cbn [users posts comments likes with_users with_likes];
    auto using NoDup_map_filter, NoDup_map_filter_any.
  - intros p Hp. destruct (Hps p Hp) as [_ Hn].
    unfold user_exists in *. rewrite exists_filter_other; auto.
  - intros c Hc. destruct (Hcs c Hc) as [_ Hn].
    destruct (Rc c Hc) as [R1 R2]. split; [|exact R2].
    unfold user_exists in *. rewrite exists_filter_other; auto.
  - intros l Hl. apply filter_In in Hl. destruct Hl as [Hl Hk].
    specialize (Rl l Hl). unfold like_refs_ok in *.
    cbn [users posts comments likes with_users with_likes].
    apply andb_prop in Rl. destruct Rl as [R1 R2]. rewrite R2, andb_true_r.
    apply negb_true_iff, Nat.eqb_neq in Hk.
    unfold user_exists in *. now rewrite exists_filter_other.
Qed.

Lemma step_consistent (d d' : database) :
  step d d' -> consistent d -> consistent d'.
Proof.
  intros Hs Hd. pose proof Hd as [A1 A2 A3 A4 A5 A6 Rp Rc Rl].
  destruct Hs; cbn [users posts comments likes] in *;
    try (now first [ apply consistent_delete_user
                   | apply consistent_delete_post
                   | apply consistent_delete_comment ]).
  - (* add_user *)
    apply (@consistent_same_keys _ _ Hd); same_tables.
    + now apply NoDup_map_added.
    + now apply unique_field_added.
    + now apply unique_field_added.
    + intros j. now apply exists_added.
  - (* set_username *)
    apply consistent_users_updated; auto.
    + now apply unique_field_update with (g := User.username).
    + now rewrite update_row_map.
  - (* set_email *)
    apply consistent_users_updated; auto.
    + now rewrite update_row_map.
    + now apply unique_field_update with (g := User.email).
  - (* set_is_admin *)
    apply consistent_users_updated; auto; now rewrite update_row_map.
  - (* set_password *)
    apply consistent_users_updated; auto; now rewrite update_row_map.
  - (* add_post *)
    apply (@consistent_same_keys _ _ Hd); same_tables.
    + now apply NoDup_map_added.
    + intros j. now apply exists_added.
    + intros p Hp. apply in_added in Hp. destruct Hp as [Hp | ->]; auto.
  - (* set_post *)
    apply (@consistent_same_keys _ _ Hd); same_tables.
    + rewrite update_row_map; [assumption | intros r; apply H].
    + intros j. unfold post_exists. rewrite exists_update_row; [auto|].
      intros r. apply H.
    + intros p Hp. apply in_update_row in Hp.
      destruct Hp as [Hp | (r & Hr & ->)]; [now left | right].
      destruct (H r) as [_ ->]. now apply Rp.
  - (* add_comment *)
    apply (@consistent_same_keys _ _ Hd); same_tables.
    + now apply NoDup_map_added.
    + intros j. now apply exists_added.
    + intros c Hc. apply in_added in Hc. destruct Hc as [Hc | ->]; auto.
  - (* set_comment *)
    apply (@consistent_same_keys _ _ Hd); same_tables.
    + rewrite update_row_map; [assumption | intros r; apply H].
    + intros j. unfold comment_exists. rewrite exists_update_row; [auto|].
      intros r. apply H.
    + intros c Hc. apply in_update_row in Hc.
      destruct Hc as [Hc | (r & Hr & ->)]; [now left | right].
      destruct (H r) as (_ & -> & ->). now apply Rc.
  - (* add_like *)
    apply (@consistent_same_keys _ _ Hd); same_tables.
    + now apply NoDup_map_added.
    + intros l Hl. apply in_added in Hl. destruct Hl as [Hl | ->]; auto.
  - (* delete_like *)
    apply (@consistent_same_keys _ _ Hd); unfold delete_like_row; same_tables.
    + now apply NoDup_map_filter.
    + intros l Hl. apply filter_In in Hl. now left.
Qed.

Lemma steps_consistent (d d' : database) :
  steps d d' -> consistent d -> consistent d'.
Proof.
  induction 1 as [|d1 d2 _ IH Hs]; intros Hd; [exact Hd|].
  exact (step_consistent Hs (IH Hd)).
Qed.

Lemma token_required_steps f req db :
  (forall u, authenticated req db u -> steps db (snd (run (f u) db))) ->
  steps db (snd (run (token_required f req) db)).
Proof.
  intros H. destruct (token_required_cases f req db) as [[m ->] | (u & Hu & ->)].
  - apply steps_refl.
  - now apply H.
Qed.

Lemma admin_required_steps f u db :
  (forall u, steps db (snd (run (f u) db))) ->
  steps db (snd (run (admin_required f u) db)).
Proof.
  intros H. destruct (admin_required_cases f u db) as [[_ ->] | [_ ->]].
  - apply steps_refl.
  - apply H.
Qed.

Lemma handle_steps rt req db : steps db (snd (handle rt req db)).
Proof.
  unfold handle. destruct db as [us ps cs ls].
  destruct rt; cbn [view];
    repeat first [ apply token_required_steps; intros ? (? & _ & _ & ?)
                 | apply admin_required_steps; intro ];
    cbn [users] in *;
    auto using register_steps, login_steps, get_current_user_steps,
      get_all_users_steps, delete_user_steps, update_user_steps,
      get_posts_steps, get_post_steps, create_post_steps, update_post_steps,
      delete_post_steps, get_comments_steps, create_comment_steps,
      update_comment_steps, delete_comment_steps, toggle_post_like_steps,
      toggle_comment_like_steps, get_post_likes_steps,
      get_comment_likes_steps, check_user_liked_post_steps,
      check_user_liked_comment_steps, get_user_profile_steps,
      update_own_profile_steps, update_password_steps, search_posts_steps.
Qed.

Lemma empty_consistent : consistent empty_database.
Proof. constructor; cbn; try apply NoDup_nil; intros ? []. Qed.

Lemma reachable_consistent db : reachable db -> consistent db.
Proof.
  induction 1 as [|now db _ IH|rt req db _ IH].
  - apply empty_consistent.
  - destruct db as [us ps cs ls].
    exact (steps_consistent (create_tables_steps us ps cs ls now) IH).
  - exact (steps_consistent (handle_steps rt req db) IH).
Qed.

(* ===================================================================== *)
(** * Uncaught exceptions                                                 *)
(* ===================================================================== *)




Lemma like_entries_some (d : database) (l : list Like.t) :
  (forall x, In x l -> user_exists (users d) (Like.user_id x) = true) ->
  like_entries d l <> None.
Proof.
  induction l as [|x l IH]; cbn [like_entries]; intros H; [discriminate|].
  assert (Hx := H x (or_introl eq_refl)). unfold user_exists in Hx.
  destruct (find _ (users d)); [|discriminate].
  destruct (like_entries d l) eqn:E; [discriminate|].
  exfalso. apply IH; [|reflexivity]. intros y Hy. apply H. now right.
Qed.

Lemma consistent_like_user (d : database) (x : Like.t) :
  consistent d -> In x (likes d) ->
  user_exists (users d) (Like.user_id x) = true.
Proof.
  intros [_ _ _ _ _ _ _ _ Rl] Hx. specialize (Rl x Hx).
  unfold like_refs_ok in Rl. now apply andb_prop in Rl.
Qed.

Section NoCrash.
Variable P : exn -> Prop.
Variable db : database.



























End NoCrash.


(* ===================================================================== *)
(** * Accounts, tokens and passwords                                      *)
(* ===================================================================== *)

Lemma find_first_unique (A B : Type) (g : A -> B) (eqb : B -> B -> bool)
  (l : list A) (x : A) :
  (forall a b, eqb a b = true <-> a = b) ->
  NoDup (map g l) -> In x l ->
  find (fun y => eqb (g y) (g x)) l = Some x.
Proof.
  intros Heq. induction l as [|y l IH]; cbn; [easy|].
  intros Hn Hin. inversion Hn as [|? ? Hy Hl]; subst.
  destruct (eqb (g y) (g x)) eqn:E.
  - apply Heq in E. destruct Hin as [-> | Hin]; [reflexivity|].
    exfalso. apply Hy. rewrite E. now apply in_map.
  - destruct Hin as [-> | Hin]; [|now apply IH].
    assert (eqb (g x) (g x) = true) by now apply Heq. congruence.
Qed.

Lemma find_by_id_unique (A : Type) (id : A -> nat) (l : list A) (x : A) :
  NoDup (map id l) -> In x l -> find (fun y => id y =? id x) l = Some x.
Proof. apply find_first_unique. apply Nat.eqb_eq. Qed.

Lemma find_by_string_unique (A : Type) (g : A -> string) (l : list A) (x : A) :
  NoDup (map g l) -> In x l ->
  find (fun y => String.eqb (g y) (g x)) l = Some x.
Proof. apply find_first_unique. apply String.eqb_eq. Qed.

Lemma login_run req db d u p :
  get_json req = Some d ->
  j_username d = Some u -> j_password d = Some p ->
  u <> "" -> p <> "" ->
  run (login req) db
  = match find (fun x => String.eqb (User.username x) u) (users db) with
    | Some user =>
        if User.check_password user p
        then
          match find (fun x => User.id x =? User.id user) (users db) with
          | Some row =>
              (Responded
                 (MsgTokenUser Connexion_reussie
                    (Bearer (User.id user)
                       (utcnow req + JWT_EXPIRATION_DELTA))
                    (User_dict_of row), 200), db)
          | None => (Crashed ObjectDeletedError, db)
          end
        else (Responded (Msg Identifiants_incorrects, 401), db)
    | None => (Responded (Msg Identifiants_incorrects, 401), db)
    end.
Proof.
  intros Hd Hu Hp Nu Np. apply truthy_nonempty in Nu, Np.
  unfold login, not_. rewrite Hd. unfold json_is_empty. rewrite Hu.
  exec; reflexivity.
Qed.

Lemma get_current_user_run u db :
  find (fun x => User.id x =? User.id u) (users db) = Some u ->
  run (get_current_user u) db = (Responded (OneUser (User_dict_of u), 200), db).
Proof. intros Hu. unfold get_current_user. exec. reflexivity. Qed.

(** X5.  [login] with the password of an existing user answers 200 with a
    token for that user which expires after JWT_EXPIRATION_DELTA; with that
    token [get_current_user] returns the user until then, and 401
    [Token_expire] from then on. *)
Theorem login_token_round_trip :
  forall req db d u p user,
    consistent db ->
    get_json req = Some d ->
    j_username d = Some u -> j_password d = Some p ->
    u <> "" -> p <> "" ->
    find (fun x => String.eqb (User.username x) u) (users db) = Some user ->
    User.check_password user p = true ->
    let token := Bearer (User.id user) (utcnow req + JWT_EXPIRATION_DELTA) in
    handle POST_login req db
    = (Responded
         (MsgTokenUser Connexion_reussie token (User_dict_of user), 200), db)
    /\ (forall req',
          headers_Authorization req' = token ->
          handle GET_me req' db
          = if (utcnow req' <? utcnow req + JWT_EXPIRATION_DELTA)%Z
            then (Responded (OneUser (User_dict_of user), 200), db)
            else (Responded (Msg Token_expire, 401), db)).
Proof.
  intros req db d u p user Hc Hd Hu Hp Nu Np Hf Hpw token.
  assert (Hid : find (fun x => User.id x =? User.id user) (users db)
                = Some user).
  { apply find_by_id_unique; [apply Hc|]. now apply find_some in Hf. }
  unfold handle. cbn [view]. split.
  - rewrite (login_run req db Hd Hu Hp Nu Np), Hf, Hpw, Hid. reflexivity.
  - intros req' Hh. unfold token_required. rewrite Hh. unfold token.
    rewrite Z.leb_antisym.
    destruct (utcnow req' <? utcnow req + JWT_EXPIRATION_DELTA)%Z;
      cbn [negb]; [|reflexivity].
    mred. rewrite Hid. now apply get_current_user_run.
Qed.

(** X6.  [login] with an unknown username or a wrong password answers 401
    with the same message in both cases, and changes nothing. *)
Theorem login_refuses_bad_credentials :
  forall req db d u p,
    get_json req = Some d ->
    j_username d = Some u -> j_password d = Some p ->
    u <> "" -> p <> "" ->
    match find (fun x => String.eqb (User.username x) u) (users db) with
    | Some user => User.check_password user p = false
    | None => True
    end ->
    handle POST_login req db
    = (Responded (Msg Identifiants_incorrects, 401), db).
Proof.
  intros req db d u p Hd Hu Hp Nu Np H.
  unfold handle. cbn [view]. rewrite (login_run req db Hd Hu Hp Nu Np).
  destruct (find _ (users db)); [now rewrite H | reflexivity].
Qed.

(** X7.  Every route behind [@token_required] answers 401 and changes nothing
    when the request carries no valid token of an existing user. *)
Theorem protected_routes_need_a_valid_token :
  forall rt req db,
    protected rt = true ->
    (forall u, ~ authenticated req db u) ->
    exists m, handle rt req db = (Responded (Msg m, 401), db).
Proof.
  intros rt req db Hp Hn. unfold handle.
  destruct rt; try discriminate Hp; cbn [view];
    match goal with
    | |- context [token_required ?f req] =>
        destruct (token_required_cases f req db) as [[m ->] | (u & Hu & _)];
          [now exists m | now apply Hn in Hu]
    end.
Qed.

(** X8.  The three routes behind [@admin_required] answer 403 to an
    authenticated user who is no administrator, and change nothing. *)
Theorem admin_routes_refuse_other_users :
  forall rt req db u,
    admin_only rt = true ->
    authenticated req db u ->
    User.is_admin u = false ->
    handle rt req db
    = (Responded (Msg Acces_refuse_droits_administrateur_requis, 403), db).
Proof.
  intros rt req db u Hr Ha Hu. unfold handle.
  destruct rt; try discriminate Hr; cbn [view];
    rewrite (token_required_run _ Ha); unfold admin_required;
    now rewrite Hu.
Qed.

Lemma register_run req db d u e p :
  get_json req = Some d ->
  j_username d = Some u -> j_email d = Some e -> j_password d = Some p ->
  u <> "" -> e <> "" -> p <> "" ->
  run (register req) db
  = if is_some (find (fun x => String.eqb (User.username x) u) (users db))
    then (Responded (Msg Nom_d_utilisateur_deja_existant, 409), db)
    else if is_some (find (fun x => String.eqb (User.email x) e) (users db))
         then (Responded (Msg Email_deja_existant, 409), db)
         else
           let row :=
             User.mk (next_id (map User.id (users db))) u e (Hashed p)
               (match j_is_admin d with Some b => b | None => false end)
               (utcnow req) in
           (Responded
              (MsgUser Utilisateur_cree_avec_succes (User_dict_of row), 201),
            with_users (users db ++ [row]) db).
Proof.
  intros Hd Hu He Hp Nu Ne Np. apply truthy_nonempty in Nu, Ne, Np.
  unfold register, not_. rewrite Hd. unfold json_is_empty. rewrite Hu.
  exec; reflexivity.
Qed.

Lemma register_incomplete req db :
  match get_json req with
  | Some d => truthy (j_username d) && truthy (j_email d)
              && truthy (j_password d)
  | None => false
  end = false ->
  run (register req) db = (Responded (Msg Donnees_incompletes, 400), db).
Proof.
  intros H. unfold register. exec; try reflexivity; discriminate.
Qed.

Lemma field_in_use (g : User.t -> string) (v : string) (l : list User.t) :
  is_some (find (fun x => String.eqb (g x) v) l) = true <-> In v (map g l).
Proof.
  split.
  - destruct (find _ l) as [r|] eqn:E; [|discriminate]. intros _.
    apply find_some in E. destruct E as [Hin E].
    apply String.eqb_eq in E. subst v. now apply in_map.
  - intros H. destruct (find _ l) eqn:E; [reflexivity|].
    exfalso. revert H. now apply find_field_none.
Qed.

Lemma field_free (g : User.t -> string) (v : string) (l : list User.t) :
  ~ In v (map g l) -> find (fun x => String.eqb (g x) v) l = None.
Proof.
  intros H. destruct (find (fun x => String.eqb (g x) v) l) eqn:E;
    [|reflexivity].
  exfalso. apply H. apply field_in_use. now rewrite E.
Qed.

(** X9.  [register] answers 400 when [get_json()] returned None (the body
    is [null]) or the object lacks one of username, email and password or
    has it empty, 409 when the username is in use, and 409 when the email
    is; nothing is stored in these cases. *)
Theorem register_rejects_incomplete_and_duplicates :
  forall req db,
    (match get_json req with
     | Some d => truthy (j_username d) && truthy (j_email d)
                 && truthy (j_password d)
     | None => false
     end = false ->
     handle POST_register req db
     = (Responded (Msg Donnees_incompletes, 400), db))
    /\ (forall d u e p,
          get_json req = Some d ->
          j_username d = Some u -> j_email d = Some e ->
          j_password d = Some p ->
          u <> "" -> e <> "" -> p <> "" ->
          (In u (map User.username (users db)) ->
           handle POST_register req db
           = (Responded (Msg Nom_d_utilisateur_deja_existant, 409), db))
          /\ (~ In u (map User.username (users db)) ->
              In e (map User.email (users db)) ->
              handle POST_register req db
              = (Responded (Msg Email_deja_existant, 409), db))).
Proof.
  intros req db. unfold handle. cbn [view]. split.
  - apply register_incomplete.
  - intros d u e p Hd Hu He Hp Nu Ne Np.
    rewrite (register_run req db Hd Hu He Hp Nu Ne Np). split.
    + intros Hin. apply field_in_use in Hin. now rewrite Hin.
    + intros Hn Hin. apply field_in_use in Hin. rewrite Hin.
      destruct (is_some (find (fun x => String.eqb (User.username x) u)
                           (users db))) eqn:E; [|reflexivity].
      apply field_in_use in E. contradiction.
Qed.

(** X10.  After [register] with a free username and email, [login] with the
    same username and password answers 200 with a token for the new user. *)
Theorem register_then_login :
  forall req req' db d u e p,
    get_json req = Some d -> get_json req' = Some d ->
    j_username d = Some u -> j_email d = Some e -> j_password d = Some p ->
    u <> "" -> e <> "" -> p <> "" ->
    ~ In u (map User.username (users db)) ->
    ~ In e (map User.email (users db)) ->
    let row :=
      User.mk (next_id (map User.id (users db))) u e (Hashed p)
        (match j_is_admin d with Some b => b | None => false end)
        (utcnow req) in
    let db' := with_users (users db ++ [row]) db in
    handle POST_register req db
    = (Responded
         (MsgUser Utilisateur_cree_avec_succes (User_dict_of row), 201), db')
    /\ handle POST_login req' db'
       = (Responded
            (MsgTokenUser Connexion_reussie
               (Bearer (User.id row) (utcnow req' + JWT_EXPIRATION_DELTA))
               (User_dict_of row), 200), db').
Proof.
  intros req req' db d u e p Hd Hd' Hu He Hp Nu Ne Np Fu Fe row db'.
  unfold handle. cbn [view].
  pose proof (field_free User.username u (users db) Fu) as Eu.
  pose proof (field_free User.email e (users db) Fe) as Ee.
  split.
  - rewrite (register_run req db Hd Hu He Hp Nu Ne Np), Eu, Ee. reflexivity.
  - rewrite (login_run req' db' Hd' Hu Hp Nu Np).
    unfold db', row. cbn [users with_users].
    rewrite find_app, Eu. cbn [find User.username].
    rewrite String.eqb_refl.
    unfold User.check_password. cbn [User.password_hash check_password_hash].
    rewrite String.eqb_refl.
    rewrite find_added by reflexivity. reflexivity.
Qed.

Lemma update_password_run u req db d cur new :
  get_json req = Some d ->
  j_current_password d = Some cur -> j_new_password d = Some new ->
  cur <> "" -> new <> "" ->
  run (update_password u req) db
  = if negb (User.check_password u cur)
    then (Responded (Msg Mot_de_passe_actuel_incorrect, 401), db)
    else if String.length new <? 6
         then
           (Responded
              (Msg Le_nouveau_mot_de_passe_doit_contenir_au_moins_6_caracteres,
               400), db)
         else
           (Responded (Msg Mot_de_passe_mis_a_jour_avec_succes, 200),
            with_users
              (update_row User.id (User.id u) (User.set_password new)
                 (users db)) db).
Proof.
  intros Hd Hc Hn Nc Nn. apply truthy_nonempty in Nc, Nn.
  unfold update_password, not_. rewrite Hd.
  assert (E : json_is_empty d = false).
  { unfold json_is_empty. rewrite Hc. cbn. now rewrite !andb_false_r. }
  rewrite E. exec; reflexivity.
Qed.

Lemma update_password_incomplete u req db :
  match get_json req with
  | Some d => truthy (j_current_password d) && truthy (j_new_password d)
  | None => false
  end = false ->
  run (update_password u req) db
  = (Responded (Msg Mot_de_passe_actuel_et_nouveau_mot_de_passe_requis, 400),
     db).
Proof.
  intros H. unfold update_password. exec; try reflexivity; discriminate.
Qed.

(** X11.  [update_password] answers 400 when a field is missing or empty, 401
    when the current password is wrong, and 400 when the new password has
    fewer than 6 characters; the stored password stays as it was. *)
Theorem update_password_checks :
  forall req db u,
    authenticated req db u ->
    (match get_json req with
     | Some d => truthy (j_current_password d) && truthy (j_new_password d)
     | None => false
     end = false ->
     handle PUT_profile_password req db
     = (Responded
          (Msg Mot_de_passe_actuel_et_nouveau_mot_de_passe_requis, 400), db))
    /\ (forall d cur new,
          get_json req = Some d ->
          j_current_password d = Some cur -> j_new_password d = Some new ->
          cur <> "" -> new <> "" ->
          (User.check_password u cur = false ->
           handle PUT_profile_password req db
           = (Responded (Msg Mot_de_passe_actuel_incorrect, 401), db))
          /\ (User.check_password u cur = true ->
              String.length new < 6 ->
              handle PUT_profile_password req db
              = (Responded
                   (Msg
                      Le_nouveau_mot_de_passe_doit_contenir_au_moins_6_caracteres,
                    400), db))).
Proof.
  intros req db u Ha. unfold handle. cbn [view].
  rewrite (token_required_run _ Ha). split.
  - apply update_password_incomplete.
  - intros d cur new Hd Hc Hn Nc Nn.
    rewrite (update_password_run u req db Hd Hc Hn Nc Nn). split.
    + intros ->. reflexivity.
    + intros -> Hl. apply Nat.ltb_lt in Hl. now rewrite Hl.
Qed.

(** X12.  After a successful [update_password], [login] of that user succeeds
    with the new password and with no other, the old one included. *)
Theorem password_change_round_trip :
  forall req db u d cur new,
    consistent db ->
    authenticated req db u ->
    get_json req = Some d ->
    j_current_password d = Some cur -> j_new_password d = Some new ->
    cur <> "" ->
    User.check_password u cur = true ->
    6 <= String.length new ->
    User.username u <> "" ->
    let db' :=
      with_users
        (update_row User.id (User.id u) (User.set_password new) (users db))
        db in
    handle PUT_profile_password req db
    = (Responded (Msg Mot_de_passe_mis_a_jour_avec_succes, 200), db')
    /\ (forall req' d' pw,
          get_json req' = Some d' ->
          j_username d' = Some (User.username u) ->
          j_password d' = Some pw -> pw <> "" ->
          handle POST_login req' db'
          = if String.eqb new pw
            then
              (Responded
                 (MsgTokenUser Connexion_reussie
                    (Bearer (User.id u) (utcnow req' + JWT_EXPIRATION_DELTA))
                    (User_dict_of u), 200), db')
            else (Responded (Msg Identifiants_incorrects, 401), db')).
Proof.
  intros req db u d cur new Hc Ha Hd Hcur Hnew Ncur Hpw Hlen Nun db'.
  assert (Nnew : new <> "") by (intros ->; cbn in Hlen; lia).
  pose proof Ha as (_ & _ & _ & Hu).
  assert (Hin : In u (users db)) by now apply find_some in Hu.
  unfold handle. cbn [view]. split.
  - rewrite (token_required_run _ Ha).
    rewrite (update_password_run u req db Hd Hcur Hnew Ncur Nnew), Hpw.
    cbn [negb]. apply Nat.ltb_ge in Hlen. now rewrite Hlen.
  - intros req' d' pw Hd' Hu' Hp' Npw.
    rewrite (login_run req' db' Hd' Hu' Hp' Nun Npw).
    unfold db'. cbn [users with_users].
    rewrite !find_update_row_field by reflexivity.
    rewrite (find_by_string_unique User.username (users db) u);
      [|apply Hc | exact Hin].
    rewrite Nat.eqb_refl.
    unfold User.check_password at 1.
    cbn [User.password_hash User.set_password generate_password_hash
         check_password_hash].
    destruct (String.eqb new pw); [|reflexivity].
    rewrite find_update_row_field by reflexivity.
    cbn [User.id User.set_password]. rewrite Hu, Nat.eqb_refl. reflexivity.
Qed.

(* ===================================================================== *)
(** * Reads, server start and privileges                                  *)
(* ===================================================================== *)

Lemma token_required_stored (P : database -> Prop) f req db :
  P db ->
  (forall u, authenticated req db u -> P (snd (run (f u) db))) ->
  P (snd (run (token_required f req) db)).
Proof.
  intros H0 H. destruct (token_required_cases f req db) as [[m E]|(u & Ha & E)];
    rewrite E; [exact H0 | now apply H].
Qed.

Lemma admin_required_stored (P : database -> Prop) f u db :
  P db ->
  (User.is_admin u = true -> P (snd (run (f u) db))) ->
  P (snd (run (admin_required f u) db)).
Proof.
  intros H0 H. destruct (admin_required_cases f u db) as [[_ E]|[Ha E]];
    rewrite E; [exact H0 | now apply H].
Qed.

Ltac same_db := exec; reflexivity.

(** X13.  No GET route changes the database, whatever the request. *)
Theorem get_routes_change_nothing :
  forall rt req db, is_GET rt = true -> snd (handle rt req db) = db.
Proof.
  intros rt req db H. unfold handle.
  destruct rt; try discriminate H; cbn [view];
    try (apply token_required_stored; [reflexivity | intros u Ha]);
    try (apply admin_required_stored; [reflexivity | intros Hadm]).
  - unfold get_current_user. same_db.
  - unfold get_all_users. same_db.
  - unfold get_posts. same_db.
  - unfold get_post. same_db.
  - unfold get_comments. same_db.
  - unfold get_post_likes. same_db.
  - unfold get_comment_likes. same_db.
  - unfold check_user_liked_post. same_db.
  - unfold check_user_liked_comment. same_db.
  - unfold get_user_profile. same_db.
  - unfold search_posts. same_db.
Qed.

Lemma run_create_tables_cases now db :
  run_create_tables now db
  = match users db with
    | [] => with_users [default_admin now] db
    | _ :: _ => db
    end.
Proof.
  unfold run_create_tables, create_tables.
  destruct db as [us ps cs ls]. destruct us as [|x l]; reflexivity.
Qed.

(** X14.  [create_tables] inserts the default administrator, who can then log
    in with admin/admin123, exactly when the users table is empty; it is
    idempotent and leaves posts, comments and likes alone. *)
Theorem create_tables_seeds_one_admin :
  forall now now' db,
    (users db = [] ->
     users (run_create_tables now db) = [default_admin now]
     /\ forall req d,
          get_json req = Some d ->
          j_username d = Some "admin" -> j_password d = Some "admin123" ->
          exists t user,
            handle POST_login req (run_create_tables now db)
            = (Responded (MsgTokenUser Connexion_reussie t user, 200),
               run_create_tables now db)
            /\ t = Bearer 1 (utcnow req + JWT_EXPIRATION_DELTA))
    /\ (users db <> [] -> run_create_tables now db = db)
    /\ run_create_tables now' (run_create_tables now db)
       = run_create_tables now db
    /\ posts (run_create_tables now db) = posts db
    /\ comments (run_create_tables now db) = comments db
    /\ likes (run_create_tables now db) = likes db.
Proof.
  intros now now' db. rewrite !run_create_tables_cases.
  split; [|split; [|split; [|repeat split]]].
  - intros E. rewrite E. split; [reflexivity|].
    intros req d Hd Hu Hp. do 2 eexists.
    unfold handle. cbn [view].
    rewrite (login_run req _ Hd Hu Hp) by discriminate.
    cbn. split; reflexivity.
  - destruct (users db); [intros []; reflexivity | reflexivity].
  - destruct db as [us ps cs ls]. destruct us; reflexivity.
  - destruct db as [us ps cs ls]. destruct us; reflexivity.
  - destruct db as [us ps cs ls]. destruct us; reflexivity.
  - destruct db as [us ps cs ls]. destruct us; reflexivity.
Qed.

(** X15.  [get_posts] with [per_page = 0] raises ZeroDivisionError (the total
    pages are computed by a division by [per_page]). *)
Theorem get_posts_zero_per_page_crashes :
  forall req db,
    per_page_of req = 0%Z ->
    handle GET_posts req db = (Crashed ZeroDivisionError, db).
Proof.
  intros req db H. unfold per_page_of in H. unfold handle. cbn [view].
  unfold get_posts. rewrite H, Z.mul_0_r. reflexivity.
Qed.

Lemma privileges_update_row (l : list User.t) k (f : User.t -> User.t) :
  (forall u, User.id (f u) = User.id u) ->
  (forall u, User.is_admin (f u) = User.is_admin u) ->
  map (fun u => (User.id u, User.is_admin u)) (update_row User.id k f l)
  = map (fun u => (User.id u, User.is_admin u)) l.
Proof.
  intros Hi Ha. unfold update_row. rewrite map_map. apply map_ext.
  intros u. destruct (User.id u =? k); [now rewrite Hi, Ha | reflexivity].
Qed.

Ltac same_privileges :=
  exec; unfold privileges; cbn [users with_users];
  rewrite ?delete_post_row_users;
  cbn [users delete_comment_row delete_like_row with_likes with_comments];
  repeat (rewrite privileges_update_row by reflexivity);
  reflexivity.

(** X16.  Apart from [register], [update_user] and [delete_user], no route
    changes the list of user ids and admin flags: [update_own_profile] and
    [update_password] in particular cannot grant administrator rights. *)
Theorem only_user_management_changes_privileges :
  forall rt req db,
    manages_users rt = false ->
    privileges (snd (handle rt req db)) = privileges db.
Proof.
  intros rt req db H. unfold handle.
  destruct rt; try discriminate H; cbn [view];
    try (apply (token_required_stored
                  (fun d => privileges d = privileges db));
         [reflexivity | intros u Ha]);
    try (apply (admin_required_stored
                  (fun d => privileges d = privileges db));
         [reflexivity | intros Hadm]).
  - unfold login. same_privileges.
  - unfold get_current_user. same_privileges.
  - unfold get_all_users. same_privileges.
  - unfold get_posts. same_privileges.
  - unfold get_post. same_privileges.
  - unfold create_post. same_privileges.
  - unfold update_post. same_privileges.
  - unfold delete_post. same_privileges.
  - unfold get_comments. same_privileges.
  - unfold create_comment. same_privileges.
  - unfold update_comment. same_privileges.
  - unfold delete_comment. same_privileges.
  - unfold toggle_post_like. same_privileges.
  - unfold toggle_comment_like. same_privileges.
  - unfold get_post_likes. same_privileges.
  - unfold get_comment_likes. same_privileges.
  - unfold check_user_liked_post. same_privileges.
  - unfold check_user_liked_comment. same_privileges.
  - unfold get_user_profile. same_privileges.
  - unfold update_own_profile. same_privileges.
  - unfold update_password. same_privileges.
  - unfold search_posts. same_privileges.
Qed.

(* ===================================================================== *)
(** * Cascades and round trips                                            *)
(* ===================================================================== *)

Section UniqueKeys.
Variable A : Type.
Variable id : A -> nat.

Lemma in_ids_of_filter (key : A -> nat) (l : list A) (x : A) (k : nat) :
  NoDup (map id l) -> In x l ->
  In (id x) (map id (filter (fun y => key y =? k) l)) <-> key x = k.
Proof.
  intros Hn Hx. split.
  - intros H. apply in_map_iff in H. destruct H as (y & E & Hy).
    apply filter_In in Hy. destruct Hy as [Hy Hk]. apply Nat.eqb_eq in Hk.
    pose proof (@NoDup_map_inj A id l y x Hn Hy Hx E) as <-. exact Hk.
  - intros E. apply in_map. apply filter_In. split; [exact Hx|].
    now apply Nat.eqb_eq.
Qed.
End UniqueKeys.

Lemma delete_post_row_comments_iff (k : nat) (d : database) (c : Comment.t) :
  NoDup (map Comment.id (comments d)) ->
  In c (comments (delete_post_row k d)) <->
  In c (comments d) /\ Comment.post_id c <> k.
Proof.
  intros Hn. unfold delete_post_row. cbn.
  change (fold_right _ d (Post_comments d k))
    with (delete_comments (Post_comments d k) d).
  rewrite delete_comments_comments. unfold Post_comments.
  split; intros [Hc H]; (split; [exact Hc|]);
    rewrite (@in_ids_of_filter _ Comment.id Comment.post_id _ c k Hn Hc) in *;
    exact H.
Qed.

Lemma delete_comment_row_keeps_post_likes (pk : nat) (d : database)
  (l : Like.t) :
  In l (likes d) -> Like.post_id l <> None ->
  In l (likes (delete_comment_row pk d)).
Proof.
  intros Hl Hp. unfold delete_comment_row. cbn. apply filter_In.
  split; [exact Hl|]. unfold like_on.
  destruct (Like.post_id l); [reflexivity | congruence].
Qed.

Lemma delete_comments_keep_post_likes (cs : list Comment.t) (d : database)
  (l : Like.t) :
  In l (likes d) -> Like.post_id l <> None ->
  In l (likes (delete_comments cs d)).
Proof.
  intros Hl Hp. unfold delete_comments.
  induction cs as [|c cs IH]; cbn [fold_right]; [exact Hl|].
  now apply delete_comment_row_keeps_post_likes.
Qed.

Lemma removal_in (l l' : list Like.t) (x : Like.t) :
  removal l l' -> In x l' -> In x l.
Proof. intros [f ->] H. now apply filter_In in H. Qed.

Lemma delete_post_row_likes_in (k : nat) (d : database) (l : Like.t) :
  (forall x, In x (likes d) -> check_like_target x = true) ->
  In l (likes (delete_post_row k d)) ->
  In l (likes d) /\ Like.post_id l <> Some k.
Proof.
  intros Hx Hl.
  assert (Hin : In l (likes d)).
  { apply (@removal_in (likes d) (likes (delete_post_row k d))); [|exact Hl].
    apply delete_post_row_likes, removal_refl. }
  split; [exact Hin|]. intros E.
  unfold delete_post_row in Hl. cbn in Hl. apply filter_In in Hl.
  destruct Hl as [_ Hl]. specialize (Hx l Hin).
  unfold check_like_target in Hx. unfold like_on in Hl. rewrite E in *.
  cbn in Hx, Hl. rewrite Nat.eqb_refl in Hl.
  destruct (Like.comment_id l); cbn in *; discriminate.
Qed.

Lemma delete_post_row_keeps_likes (k j : nat) (d : database) (l : Like.t) :
  In l (likes d) -> Like.post_id l = Some j -> j <> k ->
  In l (likes (delete_post_row k d)).
Proof.
  intros Hl Hp Hj. unfold delete_post_row. cbn. apply filter_In. split.
  - apply (delete_comments_keep_post_likes (Post_comments d k) d l Hl).
    congruence.
  - unfold like_on. rewrite Hp. cbn.
    apply Nat.eqb_neq in Hj. now rewrite Hj.
Qed.

Lemma consistent_like_target (d : database) (l : Like.t) :
  consistent d -> In l (likes d) -> check_like_target l = true.
Proof.
  intros Hd Hl. apply (like_refs Hd) in Hl. unfold like_refs_ok in Hl.
  apply andb_prop in Hl. destruct Hl as [_ Hl]. unfold check_like_target.
  destruct (Like.post_id l), (Like.comment_id l); cbn; try reflexivity;
    discriminate.
Qed.

(** X17.  Deleting a post removes exactly the post and its comments, removes
    the likes on the post, keeps the likes on other posts and all users,
    and leaves no dangling reference. *)
Theorem delete_post_cascades :
  forall req db u k p,
    consistent db ->
    authenticated req db u ->
    find (fun x => Post.id x =? k) (posts db) = Some p ->
    author_or_admin (Post.user_id p) u = true ->
    let db' := snd (handle (DELETE_posts_id k) req db) in
    fst (handle (DELETE_posts_id k) req db)
    = Responded (Msg Post_supprime_avec_succes, 200)
    /\ users db' = users db
    /\ posts db' = filter (fun x => negb (Post.id x =? k)) (posts db)
    /\ (forall c, In c (comments db') <->
                  In c (comments db) /\ Comment.post_id c <> k)
    /\ (forall l, In l (likes db') ->
                  In l (likes db) /\ Like.post_id l <> Some k)
    /\ (forall l j, In l (likes db) -> Like.post_id l = Some j -> j <> k ->
                    In l (likes db'))
    /\ consistent db'.
Proof.
  intros req db u k p Hd Ha Hp Hok. unfold handle. cbn [view].
  rewrite (token_required_run _ Ha), (delete_post_run u k db Hp), Hok.
  cbn [fst snd].
  split; [|split; [|split; [|split; [|split; [|split]]]]].
  - reflexivity.
  - apply delete_post_row_users.
  - apply delete_post_row_posts.
  - intros c. apply delete_post_row_comments_iff, Hd.
  - intros l. apply delete_post_row_likes_in.
    intros x. now apply consistent_like_target.
  - intros l j. apply delete_post_row_keeps_likes.
  - now apply consistent_delete_post.
Qed.

Lemma delete_user_run u k db x :
  k <> User.id u ->
  find (fun y => User.id y =? k) (users db) = Some x ->
  run (delete_user u k) db
  = (Responded (Msg Utilisateur_supprime_avec_succes, 200),
     delete_user_row k db).
Proof.
  intros Hk Hx. unfold delete_user.
  destruct (User.id u =? k) eqn:E; [apply Nat.eqb_eq in E; congruence|].
  exec. reflexivity.
Qed.

Lemma delete_user_row_users (k : nat) (d : database) :
  users (delete_user_row k d)
  = filter (fun u => negb (User.id u =? k)) (users d).
Proof.
  unfold delete_user_row. cbn.
  change (fold_right _ d (User_posts d k))
    with (delete_posts (User_posts d k) d).
  change (fold_right _ ?x (User_comments d k))
    with (delete_comments (User_comments d k) x).
  now rewrite delete_comments_users, delete_posts_users.
Qed.

Lemma delete_user_row_posts_iff (k : nat) (d : database) (p : Post.t) :
  NoDup (map Post.id (posts d)) ->
  In p (posts (delete_user_row k d)) <->
  In p (posts d) /\ Post.user_id p <> k.
Proof.
  intros Hn. unfold delete_user_row. cbn.
  change (fold_right _ d (User_posts d k))
    with (delete_posts (User_posts d k) d).
  change (fold_right _ ?x (User_comments d k))
    with (delete_comments (User_comments d k) x).
  rewrite delete_comments_posts', delete_posts_posts. unfold User_posts.
  split; intros [Hp H]; (split; [exact Hp|]);
    rewrite (@in_ids_of_filter _ Post.id Post.user_id _ p k Hn Hp) in *;
    exact H.
Qed.

Lemma delete_posts_comments_iff (ps : list Post.t) (d : database)
  (c : Comment.t) :
  consistent d ->
  In c (comments (delete_posts ps d)) <->
  In c (comments d) /\ ~ In (Comment.post_id c) (map Post.id ps).
Proof.
  intros Hd. unfold delete_posts.
  induction ps as [|x l IH]; cbn [fold_right map].
  - cbn. tauto.
  - rewrite delete_post_row_comments_iff, IH.
    + cbn [In]. intuition congruence.
    + apply (comment_ids (consistent_delete_posts l Hd)).
Qed.

Lemma delete_user_row_comments_iff (k : nat) (d : database) (c : Comment.t) :
  consistent d ->
  In c (comments (delete_user_row k d)) <->
  In c (comments d) /\ Comment.user_id c <> k
  /\ ~ In (Comment.post_id c) (map Post.id (User_posts d k)).
Proof.
  intros Hd. unfold delete_user_row. cbn.
  change (fold_right _ d (User_posts d k))
    with (delete_posts (User_posts d k) d).
  change (fold_right _ ?x (User_comments d k))
    with (delete_comments (User_comments d k) x).
  rewrite delete_comments_comments, delete_posts_comments_iff by exact Hd.
  unfold User_comments at 1.
  split.
  - intros [[Hc Hp] H]. repeat split; auto.
    now rewrite (@in_ids_of_filter _ Comment.id Comment.user_id _ c k
                   (comment_ids Hd) Hc) in H.
  - intros (Hc & H & Hp). repeat split; auto.
    now rewrite (@in_ids_of_filter _ Comment.id Comment.user_id _ c k
                   (comment_ids Hd) Hc).
Qed.

Lemma delete_user_row_likes_in (k : nat) (d : database) (l : Like.t) :
  In l (likes (delete_user_row k d)) ->
  In l (likes d) /\ Like.user_id l <> k.
Proof.
  intros Hl. split.
  - apply (@removal_in (likes d) (likes (delete_user_row k d))); [|exact Hl].
    apply delete_user_row_likes.
  - unfold delete_user_row in Hl. cbn in Hl. apply filter_In in Hl.
    destruct Hl as [_ Hl]. now apply negb_true_iff, Nat.eqb_neq in Hl.
Qed.

Lemma token_of_unknown_user f req db k exp :
  headers_Authorization req = Bearer k exp ->
  find (fun x => User.id x =? k) (users db) = None ->
  exists m, run (token_required f req) db = (Responded (Msg m, 401), db)
            /\ ((utcnow req < exp)%Z -> m = Utilisateur_non_trouve).
Proof.
  intros Hh Hk. unfold token_required. rewrite Hh.
  destruct (exp <=? utcnow req)%Z eqn:E.
  - eexists. split; [reflexivity|]. apply Z.leb_le in E. lia.
  - mred. rewrite Hk. eexists. split; reflexivity.
Qed.

(** X18.  Deleting a user removes exactly that user, the user's posts, the
    user's comments and the comments under the user's posts, removes the
    user's likes, and leaves no dangling reference. *)
Theorem delete_user_cascades :
  forall req db u k x,
    consistent db ->
    authenticated req db u ->
    User.is_admin u = true ->
    k <> User.id u ->
    find (fun y => User.id y =? k) (users db) = Some x ->
    let db' := snd (handle (DELETE_admin_users k) req db) in
    fst (handle (DELETE_admin_users k) req db)
    = Responded (Msg Utilisateur_supprime_avec_succes, 200)
    /\ users db' = filter (fun y => negb (User.id y =? k)) (users db)
    /\ (forall p, In p (posts db') <->
                  In p (posts db) /\ Post.user_id p <> k)
    /\ (forall c, In c (comments db') <->
                  In c (comments db) /\ Comment.user_id c <> k
                  /\ ~ In (Comment.post_id c) (map Post.id (User_posts db k)))
    /\ (forall l, In l (likes db') ->
                  In l (likes db) /\ Like.user_id l <> k)
    /\ consistent db'.
Proof.
  intros req db u k x Hd Ha Hadm Hk Hx. unfold handle. cbn [view].
  rewrite (token_required_run _ Ha), (admin_required_run _ _ _ Hadm).
  rewrite (@delete_user_run u k db x Hk Hx). cbn [fst snd].
  split; [|split; [|split; [|split; [|split]]]].
  - reflexivity.
  - apply delete_user_row_users.
  - intros p. apply delete_user_row_posts_iff, Hd.
  - intros c. now apply delete_user_row_comments_iff.
  - intros l. apply delete_user_row_likes_in.
  - now apply consistent_delete_user.
Qed.

(** X19.  On the database an administrator's deletion of user k leaves, an
    unexpired token of k is answered 401 [Utilisateur_non_trouve] on every
    route behind [@token_required].  The refusal lasts as long as the key is
    free: keys are given as the largest key plus one, so when k is the next
    key, the next [register] creates a user with key k, and the old token
    then authenticates as that user. *)
Theorem deleted_user_token_until_the_key_is_reused :
  forall rt req req' db u k x exp,
    authenticated req db u ->
    User.is_admin u = true ->
    k <> User.id u ->
    find (fun y => User.id y =? k) (users db) = Some x ->
    protected rt = true ->
    headers_Authorization req' = Bearer k exp ->
    (utcnow req' < exp)%Z ->
    let db' := snd (handle (DELETE_admin_users k) req db) in
    handle rt req' db' = (Responded (Msg Utilisateur_non_trouve, 401), db')
    /\ (forall reg d un e p,
          get_json reg = Some d ->
          j_username d = Some un -> j_email d = Some e ->
          j_password d = Some p ->
          un <> "" -> e <> "" -> p <> "" ->
          ~ In un (map User.username (users db')) ->
          ~ In e (map User.email (users db')) ->
          next_id (map User.id (users db')) = k ->
          let row :=
            User.mk k un e (Hashed p)
              (match j_is_admin d with Some b => b | None => false end)
              (utcnow reg) in
          let db'' := with_users (users db' ++ [row]) db' in
          handle POST_register reg db'
          = (Responded
               (MsgUser Utilisateur_cree_avec_succes (User_dict_of row), 201),
             db'')
          /\ authenticated req' db'' row
          /\ handle GET_me req' db''
             = (Responded (OneUser (User_dict_of row), 200), db'')).
Proof.
  intros rt req req' db u k x exp Ha Hadm Hk Hx Hp Hh He. unfold handle.
  cbn [view].
  rewrite (token_required_run _ Ha), (admin_required_run _ _ _ Hadm).
  rewrite (@delete_user_run u k db x Hk Hx). cbn [snd].
  assert (Hnone : find (fun y => User.id y =? k)
                    (users (delete_user_row k db)) = None).
  { rewrite delete_user_row_users. apply find_filter_self. }
  split.
  - destruct rt; try discriminate Hp; cbn [view];
      match goal with
      | |- context [token_required ?f req'] =>
          destruct (token_of_unknown_user f req' _ Hh Hnone) as (m & -> & Hm);
            now rewrite (Hm He)
      end.
  - intros reg d un e p Hd Hun Hem Hpw Nun Ne Np Fun Fe Hnext.
    set (row := User.mk k un e (Hashed p) _ (utcnow reg)).
    set (db'' := with_users _ (delete_user_row k db)).
    pose proof (field_free User.username un _ Fun) as Eu.
    pose proof (field_free User.email e _ Fe) as Ee.
    assert (Hrow : find (fun y => User.id y =? User.id row) (users db'')
                   = Some row).
    { unfold db''. cbn [users with_users User.id row].
      rewrite find_app, Hnone. cbn [find User.id].
      now rewrite Nat.eqb_refl. }
    assert (Hauth : authenticated req' db'' row).
    { exists exp. repeat split; assumption. }
    split; [|split].
    + rewrite (register_run reg _ Hd Hun Hem Hpw Nun Ne Np), Eu, Ee.
      cbn [is_some is_none negb]. cbv zeta. rewrite Hnext. reflexivity.
    + exact Hauth.
    + rewrite (token_required_run _ Hauth).
      now apply get_current_user_run.
Qed.

Lemma liked_route_run (u : User.t) (t : target) (req : request)
  (db : database) :
  authenticated req db u ->
  target_exists db t ->
  handle (liked_route t) req db
  = (Responded (Liked (liked db (User.id u) t), 200), db).
Proof.
  intros Ha He. unfold handle.
  destruct t as [k|k]; cbn [liked_route view];
    rewrite (token_required_run _ Ha); cbn [target_exists] in He;
    [unfold check_user_liked_post | unfold check_user_liked_comment];
    unfold liked; cbn [target_post target_comment];
    exec; try reflexivity; contradiction.
Qed.

(** X20.  [check_user_liked_post] and [check_user_liked_comment] answer the
    like state of the caller, and the answer flips with each call of the
    like endpoint. *)
Theorem liked_answer_follows_the_toggle :
  forall db u t req_like req_check,
    reachable db ->
    target_exists db t ->
    authenticated req_like db u ->
    authenticated req_check db u ->
    let db' := snd (handle (like_route t) req_like db) in
    handle (liked_route t) req_check db
    = (Responded (Liked (liked db (User.id u) t), 200), db)
    /\ handle (liked_route t) req_check db'
       = (Responded (Liked (negb (liked db (User.id u) t)), 200), db').
Proof.
  intros db u t req_like req_check Hr He Hl Hc db'.
  split; [now apply liked_route_run|].
  pose proof (@like_route_once u t req_like db (reachable_likes_inv Hr) He Hl)
    as (_ & Hflip & _ & Hus & Hps & Hcs & _).
  fold db' in Hflip, Hus, Hps, Hcs.
  rewrite <- Hflip. apply liked_route_run.
  - destruct Hc as (exp & Hh & Ht & Hu). exists exp. now rewrite Hus.
  - destruct t; cbn [target_exists] in *; congruence.
Qed.

Lemma filter_nil_iff (A : Type) (p : A -> bool) (l : list A) :
  (forall x, In x l -> p x = false) -> filter p l = [].
Proof.
  induction l as [|x l IH]; cbn; [reflexivity|]. intros H.
  rewrite (H x (or_introl eq_refl)). apply IH. intros y Hy. apply H. now right.
Qed.

Lemma filter_added_false (A : Type) (p : A -> bool) (l : list A) (x : A) :
  p x = false -> filter p (l ++ [x]) = filter p l.
Proof. intros H. rewrite filter_app. cbn. rewrite H. apply app_nil_r. Qed.

Lemma no_likes_on_fresh_post (d : database) :
  consistent d ->
  Post_likes d (next_id (map Post.id (posts d))) = [].
Proof.
  intros Hd. unfold Post_likes. apply filter_nil_iff. intros l Hl.
  apply (like_refs Hd) in Hl. unfold like_refs_ok in Hl.
  apply andb_prop in Hl. destruct Hl as [_ Hl]. unfold like_on.
  destruct (Like.post_id l) as [j|]; [|reflexivity]. cbn.
  destruct (j =? next_id (map Post.id (posts d))) eqn:E; [|reflexivity].
  apply Nat.eqb_eq in E. subst j. exfalso.
  destruct (Like.comment_id l); [discriminate|].
  unfold post_exists in Hl. rewrite find_fresh_none in Hl. discriminate.
Qed.

Lemma no_comments_on_fresh_post (d : database) :
  consistent d ->
  Post_comments d (next_id (map Post.id (posts d))) = [].
Proof.
  intros Hd. unfold Post_comments. apply filter_nil_iff. intros c Hc.
  apply (comment_refs Hd) in Hc. destruct Hc as [_ Hc].
  destruct (Comment.post_id c =? _) eqn:E; [|reflexivity].
  apply Nat.eqb_eq in E. rewrite E in Hc.
  unfold post_exists in Hc. rewrite find_fresh_none in Hc. discriminate.
Qed.

(** X21.  A post created by [create_post] is answered by [get_post] under its
    new id with the same title, content and author, and with no likes and
    no comments. *)
Theorem created_post_can_be_read :
  forall req req' db u d title content,
    consistent db ->
    authenticated req db u ->
    get_json req = Some d ->
    j_title d = Some title -> j_content d = Some content ->
    title <> "" -> content <> "" ->
    let k := next_id (map Post.id (posts db)) in
    let row := Post.mk k title content (User.id u) (utcnow req) (utcnow req) in
    let shown :=
      Post.mk_dict k title content (User.id u) (utcnow req) (utcnow req)
        (Some (User.id u, User.username u)) (Some 0) (Some 0) in
    let db' := with_posts (posts db ++ [row]) db in
    handle POST_posts req db
    = (Responded (MsgPost Post_cree_avec_succes shown, 201), db')
    /\ handle (GET_posts_id k) req' db' = (Responded (OnePost shown, 200), db').
Proof.
  intros req req' db u d title content Hd Ha Hj Ht Hc Nt Nc k row shown db'.
  pose proof Ha as (_ & _ & _ & Hu).
  apply truthy_nonempty in Nt, Nc.
  assert (Hshown : Post_dict_of db' true true row = shown).
  { unfold Post_dict_of, shown, row, db', author_of.
    cbn [Post.id Post.title Post.content Post.user_id Post.created_at
         Post.updated_at users with_posts].
    rewrite Hu. unfold Post_likes, Post_comments.
    cbn [likes comments with_posts].
    fold (Post_likes db k). fold (Post_comments db k). unfold k.
    now rewrite no_likes_on_fresh_post, no_comments_on_fresh_post. }
  assert (Hfind : find (fun x => Post.id x =? k) (posts db ++ [row])
                  = Some row).
  { rewrite find_app. unfold k at 1.
    rewrite find_fresh_none. cbn. now rewrite Nat.eqb_refl. }
  unfold handle. cbn [view]. split.
  - rewrite (token_required_run _ Ha). unfold create_post, not_.
    rewrite Hj. unfold json_is_empty. rewrite Ht. cbn [is_none andb].
    rewrite !andb_false_r.
    mred. rewrite Ht, Hc, Nt, Nc. exec. rewrite <- Hshown. reflexivity.
  - unfold get_post. mred. unfold db' at 1. cbn [posts with_posts].
    rewrite Hfind. mred. cbn [Post.id row]. fold row.
    unfold db' at 1. cbn [posts with_posts]. rewrite Hfind. mred.
    now rewrite Hshown.
Qed.

(* ===================================================================== *)
(** * Pages and search results                                            *)
(* ===================================================================== *)

Section OrderByMore.
Variable A : Type.
Variable key : A -> Z.

Lemma insert_desc_perm (x : A) (l : list A) :
  Permutation (insert_desc key x l) (x :: l).
Proof.
  induction l as [|y l IH]; cbn; [apply Permutation_refl|].
  destruct (key x <? key y)%Z; [|apply Permutation_refl].
  apply perm_trans with (y :: x :: l); [now apply perm_skip | apply perm_swap].
Qed.

Lemma order_by_desc_perm (l : list A) : Permutation (order_by_desc key l) l.
Proof.
  unfold order_by_desc. induction l as [|x l IH]; cbn; [apply perm_nil|].
  apply perm_trans with (x :: fold_right (insert_desc key) [] l);
    [apply insert_desc_perm | now apply perm_skip].
Qed.

Lemma order_by_desc_in (l : list A) (x : A) :
  In x (order_by_desc key l) <-> In x l.
Proof.
  split; apply Permutation_in;
    [apply order_by_desc_perm | apply Permutation_sym, order_by_desc_perm].
Qed.

Lemma insert_desc_sorted (x : A) (l : list A) :
  StronglySorted (descending key) l -> StronglySorted (descending key) (insert_desc key x l).
Proof.
  induction 1 as [|y l Hs IH Hy]; cbn.
  - constructor; constructor.
  - destruct (key x <? key y)%Z eqn:E.
    + constructor; [exact IH|].
      apply Forall_forall. intros z Hz.
      apply (Permutation_in _ (insert_desc_perm x l)) in Hz.
      destruct Hz as [<- | Hz].
      * apply Z.ltb_lt in E. unfold descending. lia.
      * rewrite Forall_forall in Hy. now apply Hy.
    + apply Z.ltb_ge in E. constructor; [now constructor|].
      constructor; [exact E|].
      apply Forall_forall. intros z Hz. rewrite Forall_forall in Hy.
      specialize (Hy z Hz). unfold descending in *. lia.
Qed.

Lemma order_by_desc_sorted (l : list A) :
  StronglySorted (descending key) (order_by_desc key l).
Proof.
  unfold order_by_desc. induction l as [|x l IH]; cbn; [constructor|].
  now apply insert_desc_sorted.
Qed.

End OrderByMore.

Section Pages.
Variable A : Type.

Lemma firstn_in (n : nat) (l : list A) (x : A) :
  In x (firstn n l) -> In x l.
Proof.
  revert n. induction l as [|y l IH]; intros [|n]; cbn; try tauto.
  intros [H | H]; [now left | right; now apply (IH n)].
Qed.

Lemma firstn_sorted (R : A -> A -> Prop) (n : nat) (l : list A) :
  StronglySorted R l -> StronglySorted R (firstn n l).
Proof.
  intros H. revert n. induction H as [|x l Hs IH Hx]; intros [|n]; cbn;
    try constructor; [apply IH|].
  apply Forall_forall. intros y Hy. rewrite Forall_forall in Hx.
  apply Hx. now apply (firstn_in n l).
Qed.

Lemma firstn_skipn_add (a b : nat) (l : list A) :
  (firstn a l ++ firstn b (skipn a l))%list = firstn (a + b) l.
Proof.
  revert l. induction a as [|a IH]; intros l; [reflexivity|].
  destruct l as [|x l]; cbn; [now rewrite firstn_nil | now rewrite IH].
Qed.

Lemma concat_pages (P : nat) (l : list A) (n : nat) :
  List.concat (map (fun i => firstn P (skipn (i * P) l)) (seq 0 n))
  = firstn (n * P) l.
Proof.
  induction n as [|n IH]; [reflexivity|].
  rewrite seq_S, map_app, concat_app, IH. cbn [map List.concat plus].
  rewrite app_nil_r, firstn_skipn_add. f_equal. lia.
Qed.
End Pages.

Lemma limit_firstn (A : Type) (p : Z) (l : list A) :
  (0 <= p)%Z -> limit p l = firstn (Z.to_nat p) l.
Proof.
  intros H. unfold limit. apply Z.ltb_ge in H. now rewrite H.
Qed.

Lemma posts_page_nat (db : database) (i : nat) (p : Z) :
  (0 <= p)%Z ->
  posts_page db (Z.of_nat (S i)) p
  = firstn (Z.to_nat p)
      (skipn (i * Z.to_nat p) (order_by_desc Post.created_at (posts db))).
Proof.
  intros H. unfold posts_page, offset. rewrite limit_firstn by exact H.
  do 2 f_equal.
  replace (Z.of_nat (S i) - 1)%Z with (Z.of_nat i) by lia.
  rewrite Z2Nat.inj_mul by lia. now rewrite Nat2Z.id.
Qed.

(** X22.  For [per_page >= 1], [get_posts] sorts the posts newest first;
    when SQLite can bind the offset and the limit it answers 200 with the
    rows of the page, at most [per_page] of them, and otherwise it raises
    OverflowError; the pages 1 to total_pages put one after the other are
    all the posts, each once. *)
Theorem get_posts_pages_partition_the_posts :
  forall db p,
    (1 <= p)%Z ->
    let sorted := order_by_desc Post.created_at (posts db) in
    let n := total_pages (Z.of_nat (List.length (posts db))) p in
    Permutation sorted (posts db)
    /\ StronglySorted newest_first sorted
    /\ (forall req,
          per_page_of req = p ->
          (page_fits req = true ->
           handle GET_posts req db
           = (Responded
                (PostPage
                   (map (Post_dict_of db true true)
                      (posts_page db (page_of req) p))
                   (List.length (posts db)) (page_of req) p n, 200), db)
           /\ List.length (posts_page db (page_of req) p) <= Z.to_nat p)
          /\ (page_fits req = false ->
              handle GET_posts req db = (Crashed OverflowError, db)))
    /\ List.concat (map (fun i => posts_page db (Z.of_nat i) p)
                 (seq 1 (Z.to_nat n)))
       = sorted.
Proof.
  intros db p Hp sorted n.
  split; [apply order_by_desc_perm|].
  split; [apply order_by_desc_sorted|].
  split.
  - intros req Hreq. unfold page_fits. rewrite Hreq.
    unfold handle. cbn [view]. unfold get_posts.
    unfold per_page_of in Hreq. unfold posts_page, page_of.
    cbv zeta. rewrite Hreq. split; intros Hf; rewrite Hf.
    + split.
      * destruct (p =? 0)%Z eqn:E; [apply Z.eqb_eq in E; lia|].
        mred. unfold n. rewrite order_by_desc_length. reflexivity.
      * rewrite limit_firstn by lia. apply firstn_le_length.
    + reflexivity.
  - rewrite <- seq_shift, map_map.
    rewrite (map_ext _ (fun i => firstn (Z.to_nat p)
                                   (skipn (i * Z.to_nat p) sorted)))
      by (intros i; apply posts_page_nat; lia).
    rewrite concat_pages. apply firstn_all2.
    unfold sorted. rewrite order_by_desc_length.
    pose proof (@total_pages_bounds (Z.of_nat (List.length (posts db))) p
                  ltac:(lia) Hp) as [_ Hb].
    fold n in Hb. assert (0 <= n)%Z by nia.
    apply Nat2Z.inj_le. rewrite Nat2Z.inj_mul, !Z2Nat.id by lia. exact Hb.
Qed.



(* ===================================================================== *)
(** * Profile updates and like counts                                     *)
(* ===================================================================== *)

Lemma update_row_same (A : Type) (id : A -> nat) (k : nat) (l : list A) :
  update_row id k (fun r => r) l = l.
Proof.
  unfold update_row. rewrite <- (map_id l) at 2. apply map_ext.
  intros r. now destruct (id r =? k).
Qed.

(** X25.  [update_own_profile] with a JSON object answers 409 and stores
    nothing when the username, or else the email, belongs to another user;
    otherwise it answers 200 and sets the given username and email on the
    caller's row and on no other. *)
Theorem update_own_profile_renames_the_caller :
  forall req db u d,
    authenticated req db u ->
    get_json req = Some d ->
    handle PUT_profile req db
    = if taken_by_other User.username (j_username d) db (User.id u)
      then (Responded (Msg Nom_d_utilisateur_deja_existant, 409), db)
      else if taken_by_other User.email (j_email d) db (User.id u)
           then (Responded (Msg Email_deja_existant, 409), db)
           else
             (Responded
                (MsgUser Profil_mis_a_jour_avec_succes
                   (User_dict_of (renamed d u)), 200),
              with_users
                (update_row User.id (User.id u) (renamed d) (users db)) db).
Proof.
  intros req db u d Ha Hd. pose proof Ha as (_ & _ & _ & Hu).
  unfold handle. cbn [view]. rewrite (token_required_run _ Ha).
  unfold update_own_profile, taken_by_other, renamed, User_dict_of.
  rewrite Hd.
  destruct (j_username d) as [v|] eqn:Ev, (j_email d) as [e|] eqn:Ee;
    exec; try reflexivity; try congruence;
    try (rewrite ?update_row_twice by reflexivity; reflexivity);
    try (cbn in *; rewrite ?Nat.eqb_refl in *; congruence).
  rewrite update_row_same. now destruct db.
Qed.

Lemma filter_implied (A : Type) (p q : A -> bool) (l : list A) :
  (forall x, p x = true -> q x = true) -> filter q (filter p l) = filter p l.
Proof.
  intros H. induction l as [|x l IH]; cbn; [reflexivity|].
  destruct (p x) eqn:E; cbn; [rewrite (H x E)|]; now rewrite IH.
Qed.

Lemma Post_likes_count (d : database) (k : nat) :
  List.length (filter (fun l => is_none (Like.comment_id l)) (Post_likes d k))
  = likes_count d (OnPost k).
Proof.
  unfold Post_likes, likes_count. cbn [target_post target_comment].
  rewrite filter_implied; [reflexivity|].
  intros x. unfold like_on. destruct (Like.comment_id x); [|reflexivity].
  now rewrite andb_false_r.
Qed.

Lemma Comment_likes_count (d : database) (k : nat) :
  List.length (filter (fun l => is_none (Like.post_id l)) (Comment_likes d k))
  = likes_count d (OnComment k).
Proof.
  unfold Comment_likes, likes_count. cbn [target_post target_comment].
  rewrite filter_implied; [reflexivity|].
  intros x. unfold like_on. destruct (Like.post_id x); [|reflexivity].
  discriminate.
Qed.

Lemma like_entries_ids (d : database) (l : list Like.t)
  (es : list like_entry) :
  like_entries d l = Some es -> map le_id es = map Like.id l.
Proof.
  revert es. induction l as [|x l IH]; cbn [like_entries]; intros es.
  - now intros [= <-].
  - destruct (find _ (users d)); [|discriminate].
    destruct (like_entries d l) as [es'|]; [|discriminate].
    intros [= <-]. cbn. now rewrite (IH es').
Qed.

Lemma like_by_on (u : nat) (p c : option nat) (x : Like.t) :
  like_by u p c x = true -> like_on p c x = true.
Proof.
  unfold like_by, like_on. intros H. apply andb_prop in H.
  destruct H as [H ->]. apply andb_prop in H. destruct H as [_ ->].
  reflexivity.
Qed.

Lemma count_after_delete (p : Like.t -> bool) (l : list Like.t) (x : Like.t) :
  NoDup (map Like.id l) -> In x l -> p x = true ->
  S (List.length
       (filter p (filter (fun y => negb (Like.id y =? Like.id x)) l)))
  = List.length (filter p l).
Proof.
  induction l as [|y l IH]; cbn [filter map In]; [easy|].
  intros Hn Hin Hp. inversion Hn as [|? ? Hy Hl]; subst.
  destruct Hin as [-> | Hin].
  - rewrite Nat.eqb_refl, Hp. cbn [negb List.length].
    assert (F : filter (fun y => negb (Like.id y =? Like.id x)) l = l).
    { rewrite <- (filter_all l) at 2. apply filter_ext_in. intros z Hz.
      destruct (Like.id z =? Like.id x) eqn:E; [|reflexivity].
      apply Nat.eqb_eq in E. exfalso. apply Hy. rewrite <- E.
      now apply in_map. }
    now rewrite F.
  - destruct (Like.id y =? Like.id x) eqn:E.
    + apply Nat.eqb_eq in E. exfalso. apply Hy. rewrite E. now apply in_map.
    + cbn [negb filter]. destruct (p y); cbn [List.length];
        now rewrite <- (IH Hl Hin Hp).
Qed.

Lemma count_after_add (db : database) (u : nat) (t : target) (now : Z) :
  likes_count (with_likes (likes db ++ [new_like db u t now]) db) t
  = S (likes_count db t).
Proof.
  unfold likes_count, new_like. cbn [likes with_likes].
  rewrite filter_app, length_app.
  assert (H : like_on (target_post t) (target_comment t)
                (Like.mk (next_id (map Like.id (likes db))) u (target_post t)
                   (target_comment t) now) = true).
  { destruct t; unfold like_on;
      cbn [Like.post_id Like.comment_id target_post target_comment opt_eqb];
      now rewrite ?Nat.eqb_refl. }
  cbn [filter]. rewrite H. cbn [List.length]. lia.
Qed.

Lemma toggle_like_count u t req db :
  target_exists db t ->
  fst (run (toggle_like u t req) db)
  = match find (like_by (User.id u) (target_post t) (target_comment t))
            (likes db) with
    | Some x =>
        Responded
          (MsgLiked Like_retire false
             (likes_count (delete_like_row (Like.id x) db) t), 200)
    | None =>
        Responded
          (MsgLiked match t with
                    | OnPost _ => Post_like
                    | OnComment _ => Commentaire_like
                    end true
             (likes_count
                (with_likes
                   (likes db ++ [new_like db (User.id u) t (utcnow req)]) db)
                t), 201)
    end.
Proof.
  destruct t as [k|k];
    cbn [target_exists toggle_like target_post target_comment];
    intros He; [unfold toggle_post_like | unfold toggle_comment_like];
    exec; try contradiction; cbn [fst];
    rewrite <- ?Post_likes_count, <- ?Comment_likes_count; reflexivity.
Qed.

(** X26.  The likes_count in the answer of the like endpoint is the number of
    likes on the target after the call: one less than before when the like
    is removed, one more when it is added. *)
Theorem toggle_reports_the_new_count :
  forall db u t req,
    reachable db ->
    target_exists db t ->
    authenticated req db u ->
    let r := handle (like_route t) req db in
    let n := likes_count db t in
    exists m,
      fst r
      = Responded
          (if liked db (User.id u) t
           then (MsgLiked m false (n - 1), 200)
           else (MsgLiked m true (S n), 201))
      /\ likes_count (snd r) t
         = (if liked db (User.id u) t then n - 1 else S n)
      /\ (liked db (User.id u) t = true -> 1 <= n).
Proof.
  intros db u t req Hr He Ha r n. unfold r.
  rewrite (@like_route_run u t req db Ha).
  pose proof (@toggle_like_count u t req db He) as Hc.
  destruct (@toggle_like_run u t req db He) as [k Hrun].
  rewrite Hrun in *. unfold liked.
  destruct (find _ (likes db)) as [x|] eqn:Ex; cbn [fst snd] in *;
    unfold is_some, is_none, negb.
  - pose proof (find_some _ _ Ex) as [Hin Hx]. apply like_by_on in Hx.
    assert (E : S (likes_count (delete_like_row (Like.id x) db) t) = n).
    { unfold likes_count, delete_like_row. cbn [likes with_likes].
      apply count_after_delete; auto.
      apply (like_ids (reachable_consistent Hr)). }
    injection Hc as Hk. exists Like_retire. split; [|split].
    + rewrite Hk.
      replace (n - 1) with (likes_count (delete_like_row (Like.id x) db) t)
        by lia.
      reflexivity.
    + lia.
    + lia.
  - assert (E : likes_count
                  (with_likes
                     (likes db ++ [new_like db (User.id u) t (utcnow req)])
                     db) t = S n).
    { apply count_after_add. }
    injection Hc as Hk. eexists. split; [|split].
    + rewrite Hk, E. reflexivity.
    + exact E.
    + discriminate.
Qed.

(** X27.  [get_post_likes] and [get_comment_likes] list one entry per like on
    the target, with a total equal to the number of entries, and for a post
    that total is the likes_count [get_post] shows. *)
Theorem like_lists_and_counts_agree :
  forall db t req,
    consistent db ->
    target_exists db t ->
    exists es,
      handle (likes_route t) req db
      = (Responded (LikeList es (likes_count db t), 200), db)
      /\ List.length es = likes_count db t
      /\ map le_id es
         = map Like.id
             (filter (like_on (target_post t) (target_comment t)) (likes db))
      /\ match t with
         | OnPost k =>
             exists shown,
               handle (GET_posts_id k) req db
               = (Responded (OnePost shown, 200), db)
               /\ Post.d_likes_count shown = Some (likes_count db t)
         | OnComment _ => True
         end.
Proof.
  intros db t req Hd He.
  assert (Hes : forall p c,
             like_entries db (filter (like_on p c) (likes db)) <> None).
  { intros p c. apply like_entries_some. intros x Hx.
    apply filter_In in Hx. now apply consistent_like_user. }
  unfold handle.
  destruct t as [k|k]; cbn [likes_route view target_exists] in *;
    [unfold get_post_likes | unfold get_comment_likes];
    unfold likes_count; cbn [target_post target_comment].
  - specialize (Hes (Some k) None).
    destruct (like_entries db (filter (like_on (Some k) None) (likes db)))
      as [es|] eqn:E; [|contradiction].
    destruct (find (fun p => Post.id p =? k) (posts db)) as [p|] eqn:Ep;
      [|contradiction].
    exists es. pose proof (like_entries_ids _ _ E) as Hids.
    split; [|split; [|split]].
    + mred. rewrite Ep. mred. rewrite E. reflexivity.
    + rewrite <- (length_map le_id), Hids. apply length_map.
    + exact Hids.
    + eexists. split.
      * unfold get_post. mred. rewrite Ep. mred.
        pose proof (find_by_id_key _ _ _ Ep) as Hk. rewrite Hk, Ep. mred.
        reflexivity.
      * unfold Post_dict_of. cbn [Post.d_likes_count].
        pose proof (find_by_id_key _ _ _ Ep) as Hk. rewrite Hk.
        now rewrite Post_likes_count.
  - specialize (Hes None (Some k)).
    destruct (like_entries db (filter (like_on None (Some k)) (likes db)))
      as [es|] eqn:E; [|contradiction].
    destruct (find (fun p => Comment.id p =? k) (comments db)) as [p|] eqn:Ep;
      [|contradiction].
    exists es. pose proof (like_entries_ids _ _ E) as Hids.
    split; [|split; [|split]].
    + mred. rewrite Ep. mred. rewrite E. reflexivity.
    + rewrite <- (length_map le_id), Hids. apply length_map.
    + exact Hids.
    + exact I.
Qed.

(** X28.  [update_user] by an administrator on an existing user answers 409
    when the username, or else the email, belongs to another user, 400 when
    the body has is_admin and the user is the administrator, and otherwise
    200 with exactly the fields of the body set on that user's row. *)
Theorem update_user_applies_the_body :
  forall req db u k x d,
    authenticated req db u ->
    User.is_admin u = true ->
    find (fun y => User.id y =? k) (users db) = Some x ->
    get_json req = Some d ->
    handle (PUT_admin_users k) req db
    = if taken_by_other User.username (j_username d) db k
      then (Responded (Msg Nom_d_utilisateur_deja_existant, 409), db)
      else if taken_by_other User.email (j_email d) db k
           then (Responded (Msg Email_deja_existant, 409), db)
           else if is_some (j_is_admin d) && (User.id u =? k)
                then
                  (Responded
                     (Msg Vous_ne_pouvez_pas_modifier_vos_propres_droits_admin,
                      400), db)
                else
                  (Responded
                     (MsgUser Utilisateur_mis_a_jour_avec_succes
                        (User_dict_of (updated_user d x)), 200),
                   with_users
                     (update_row User.id k (updated_user d) (users db)) db).
Proof.
  intros req db u k x d Ha Hadm Hx Hd.
  unfold handle. cbn [view].
  rewrite (token_required_run _ Ha), (admin_required_run _ _ _ Hadm).
  unfold update_user, taken_by_other, updated_user, renamed, User_dict_of.
  rewrite Hd.
  destruct (j_username d) as [v|] eqn:Ev, (j_email d) as [e|] eqn:Ee,
    (j_is_admin d) as [b|] eqn:Eb, (j_password d) as [pw|] eqn:Epw;
    exec; try reflexivity; try congruence;
    try (rewrite ?update_row_twice by reflexivity; reflexivity);
    try (cbn in *; rewrite ?Nat.eqb_refl in *; congruence);
    try (rewrite update_row_same; now destruct db).
Qed.

(* ===================================================================== *)
(** * Comments and profiles                                               *)
(* ===================================================================== *)

Section OrderByAsc.
Variable A : Type.
Variable key : A -> Z.

Lemma insert_asc_perm (x : A) (l : list A) :
  Permutation (insert_asc key x l) (x :: l).
Proof.
  induction l as [|y l IH]; cbn; [apply Permutation_refl|].
  destruct (key y <? key x)%Z; [|apply Permutation_refl].
  apply perm_trans with (y :: x :: l); [now apply perm_skip | apply perm_swap].
Qed.

Lemma order_by_asc_perm (l : list A) : Permutation (order_by_asc key l) l.
Proof.
  unfold order_by_asc. induction l as [|x l IH]; cbn; [apply perm_nil|].
  apply perm_trans with (x :: fold_right (insert_asc key) [] l);
    [apply insert_asc_perm | now apply perm_skip].
Qed.

Lemma insert_asc_sorted (x : A) (l : list A) :
  StronglySorted (ascending key) l -> StronglySorted (ascending key) (insert_asc key x l).
Proof.
  induction 1 as [|y l Hs IH Hy]; cbn.
  - constructor; constructor.
  - destruct (key y <? key x)%Z eqn:E.
    + constructor; [exact IH|].
      apply Forall_forall. intros z Hz.
      apply (Permutation_in _ (insert_asc_perm x l)) in Hz.
      destruct Hz as [<- | Hz].
      * apply Z.ltb_lt in E. unfold ascending. lia.
      * rewrite Forall_forall in Hy. now apply Hy.
    + apply Z.ltb_ge in E. constructor; [now constructor|].
      constructor; [exact E|].
      apply Forall_forall. intros z Hz. rewrite Forall_forall in Hy.
      specialize (Hy z Hz). unfold ascending in *. lia.
Qed.

Lemma order_by_asc_sorted (l : list A) :
  StronglySorted (ascending key) (order_by_asc key l).
Proof.
  unfold order_by_asc. induction l as [|x l IH]; cbn; [constructor|].
  now apply insert_asc_sorted.
Qed.
End OrderByAsc.

(** X29.  [get_comments] answers 404 for a key SQLite can bind that is the
    key of no post, and for the key of a post the comments of that post,
    each once, oldest first. *)
Theorem get_comments_lists_the_comments_of_the_post :
  forall k req db,
    (sqlite_key k = true ->
     find (fun p => Post.id p =? k) (posts db) = None ->
     handle (GET_posts_comments k) req db
     = (Responded (Msg Post_non_trouve, 404), db))
    /\ (find (fun p => Post.id p =? k) (posts db) <> None ->
        exists l,
          handle (GET_posts_comments k) req db
          = (Responded (CommentList (map (Comment_dict_of db true true) l),
                        200), db)
          /\ Permutation l (Post_comments db k)
          /\ StronglySorted oldest_first l).
Proof.
  intros k req db. unfold handle. cbn [view]. unfold get_comments. split.
  - intros _ H. mred. now rewrite H.
  - intros H.
    exists (order_by_asc Comment.created_at (Post_comments db k)).
    split; [|split].
    + mred. destruct (find _ (posts db)); [reflexivity | contradiction].
    + apply order_by_asc_perm.
    + apply order_by_asc_sorted.
Qed.

(** X30.  [get_user_profile] answers 404 for a key SQLite can bind that is
    the key of no user, and for the key of a user the user's numbers of
    posts, comments and likes and at most 10 posts of the user, newest
    first: all of them when there are at most 10. *)
Theorem get_user_profile_shows_the_recent_posts :
  forall k req db,
    (sqlite_key k = true ->
     find (fun u => User.id u =? k) (users db) = None ->
     handle (GET_users_profile k) req db
     = (Responded (Msg Utilisateur_non_trouve, 404), db))
    /\ (forall u,
          find (fun u => User.id u =? k) (users db) = Some u ->
          exists l,
            handle (GET_users_profile k) req db
            = (Responded
                 (Profile (User_dict_of u)
                    (map (Post_dict_of db false true) l)
                    (List.length (User_posts db k))
                    (List.length (User_comments db k))
                    (List.length (User_likes db k)), 200), db)
            /\ List.length l <= 10
            /\ StronglySorted newest_first l
            /\ (forall p, In p l -> In p (posts db) /\ Post.user_id p = k)
            /\ (List.length (User_posts db k) <= 10 ->
                Permutation l (User_posts db k))).
Proof.
  intros k req db. unfold handle. cbn [view]. unfold get_user_profile. split.
  - intros _ H. mred. now rewrite H.
  - intros u Hu.
    exists (firstn 10 (order_by_desc Post.created_at (User_posts db k))).
    split; [|split; [|split; [|split]]].
    + mred. rewrite Hu. mred.
      pose proof (find_by_id_key _ _ _ Hu) as Hk. rewrite Hk, Hu.
      reflexivity.
    + apply firstn_le_length.
    + apply firstn_sorted, order_by_desc_sorted.
    + intros p Hp. apply firstn_in in Hp. apply order_by_desc_in in Hp.
      apply filter_In in Hp. destruct Hp as [Hp E].
      now apply Nat.eqb_eq in E.
    + intros Hfew. rewrite firstn_all2.
      * apply order_by_desc_perm.
      * now rewrite order_by_desc_length.
Qed.

(* ===================================================================== *)
(** * The constraints of models.py                                        *)
(* ===================================================================== *)

(** X1.  In every database the server can reach, no two users share an id,
    a username or an email, and no two posts, comments or likes share an id
    (the primary keys and the [unique=True] columns of models.py). *)
Theorem keys_are_unique :
  forall db,
    reachable db ->
    NoDup (map User.id (users db))
    /\ NoDup (map User.username (users db))
    /\ NoDup (map User.email (users db))
    /\ NoDup (map Post.id (posts db))
    /\ NoDup (map Comment.id (comments db))
    /\ NoDup (map Like.id (likes db)).
Proof.
  intros db H. destruct (reachable_consistent H). repeat split; assumption.
Qed.

(** X2.  In every database the server can reach, the author of every post,
    the author and the post of every comment, and the user and the target
    of every like exist: the cascades leave no dangling foreign key. *)
Theorem references_resolve :
  forall db,
    reachable db ->
    (forall p, In p (posts db) ->
               user_exists (users db) (Post.user_id p) = true)
    /\ (forall c, In c (comments db) ->
                  user_exists (users db) (Comment.user_id c) = true
                  /\ post_exists (posts db) (Comment.post_id c) = true)
    /\ (forall l, In l (likes db) -> like_refs_ok db l = true).
Proof.
  intros db H. pose proof (reachable_consistent H) as Hd.
  split; [apply (post_refs Hd)|].
  split; [apply (comment_refs Hd) | apply (like_refs Hd)].
Qed.

(** X3.  From any database with unique keys and no dangling reference, every
    request on every route and every server start leave such a database. *)
Theorem requests_keep_the_database_consistent :
  forall db,
    consistent db ->
    (forall rt req, consistent (snd (handle rt req db)))
    /\ (forall now, consistent (run_create_tables now db)).
Proof.
  intros db H. split.
  - intros rt req. exact (steps_consistent (handle_steps rt req db) H).
  - intros now. destruct db as [us ps cs ls].
    exact (steps_consistent (create_tables_steps us ps cs ls now) H).
Qed.


Lemma db_forum_consistent : consistent db_forum.
Proof. exact (reachable_consistent db_forum_reachable). Qed.

Lemma keys_are_unique_witness :
  reachable db_forum /\ NoDup (map User.username (users db_forum)).
Proof.
  split; [exact db_forum_reachable|].
  exact (proj1 (proj2 (@keys_are_unique db_forum db_forum_reachable))).
Defined.

Lemma references_resolve_witness :
  reachable db_liked
  /\ forall l, In l (likes db_liked) -> like_refs_ok db_liked l = true.
Proof.
  split; [exact db_liked_reachable|].
  exact (proj2 (proj2 (@references_resolve db_liked db_liked_reachable))).
Defined.

Lemma requests_keep_the_database_consistent_witness :
  consistent db_forum
  /\ consistent
       (snd (handle (DELETE_admin_users 2) (request_of token_admin None 20)
               db_forum)).
Proof.
  split; [exact db_forum_consistent|].
  exact (proj1 (@requests_keep_the_database_consistent db_forum
                  db_forum_consistent) (DELETE_admin_users 2)
           (request_of token_admin None 20)).
Defined.


Lemma login_token_round_trip_witness :
  let d := mk_json (Some "bob") None (Some "secret") None None None None None in
  let req := request_of NoHeader (Some d) 20 in
  let token := Bearer 2 (20 + JWT_EXPIRATION_DELTA) in
  handle POST_login req db_forum
  = (Responded (MsgTokenUser Connexion_reussie token (User_dict_of user_bob),
                200), db_forum)
  /\ handle GET_me (request_of token None 30) db_forum
     = (Responded (OneUser (User_dict_of user_bob), 200), db_forum).
Proof.
  intros d req token.
  pose proof (@login_token_round_trip req db_forum d "bob" "secret" user_bob
                db_forum_consistent eq_refl eq_refl eq_refl
                ltac:(discriminate) ltac:(discriminate) eq_refl eq_refl)
    as H.
  cbv zeta in H. destruct H as [H1 H2]. split; [exact H1|].
  exact (H2 (request_of token None 30) eq_refl).
Defined.

Lemma login_refuses_bad_credentials_witness :
  let d := mk_json (Some "bob") None (Some "guess") None None None None None in
  handle POST_login (request_of NoHeader (Some d) 20) db_forum
  = (Responded (Msg Identifiants_incorrects, 401), db_forum).
Proof.
  intros d.
  exact (@login_refuses_bad_credentials (request_of NoHeader (Some d) 20)
           db_forum d "bob" "guess" eq_refl eq_refl eq_refl
           ltac:(discriminate) ltac:(discriminate) eq_refl).
Defined.

Lemma protected_routes_need_a_valid_token_witness :
  protected POST_posts = true
  /\ exists m,
       handle POST_posts
         (request_of NoHeader (body_post (Some "t") (Some "c")) 20) db_forum
       = (Responded (Msg m, 401), db_forum).
Proof.
  split; [reflexivity|].
  apply (@protected_routes_need_a_valid_token POST_posts
           (request_of NoHeader (body_post (Some "t") (Some "c")) 20)
           db_forum eq_refl).
  intros u (exp & H & _). discriminate H.
Defined.

Lemma admin_routes_refuse_other_users_witness :
  let req := request_of token_bob None 20 in
  authenticated req db_forum user_bob
  /\ User.is_admin user_bob = false
  /\ handle (DELETE_admin_users 1) req db_forum
     = (Responded (Msg Acces_refuse_droits_administrateur_requis, 403),
        db_forum).
Proof.
  intros req.
  assert (Ha : authenticated req db_forum user_bob)
    by (apply bob_authenticated; reflexivity).
  split; [exact Ha|]. split; [reflexivity|].
  exact (@admin_routes_refuse_other_users (DELETE_admin_users 1) req db_forum
           user_bob eq_refl Ha eq_refl).
Defined.

Lemma register_then_login_witness :
  let d := mk_json (Some "carol") (Some "carol@example.com") (Some "pw")
             None None None None None in
  let row := User.mk 3 "carol" "carol@example.com" (Hashed "pw") false 30 in
  let db' := with_users (users db_forum ++ [row]) db_forum in
  handle POST_register (request_of NoHeader (Some d) 30) db_forum
  = (Responded (MsgUser Utilisateur_cree_avec_succes (User_dict_of row), 201),
     db')
  /\ handle POST_login (request_of NoHeader (Some d) 40) db'
     = (Responded
          (MsgTokenUser Connexion_reussie
             (Bearer 3 (40 + JWT_EXPIRATION_DELTA)) (User_dict_of row), 200),
        db').
Proof.
  intros d row db'.
  apply (@register_then_login (request_of NoHeader (Some d) 30)
           (request_of NoHeader (Some d) 40) db_forum d "carol"
           "carol@example.com" "pw");
    try reflexivity; try discriminate;
    rewrite db_forum_value; cbn; intros [H|[H|[]]]; discriminate H.
Defined.

Lemma update_password_checks_witness :
  let d := mk_json None None None None None None (Some "secret") (Some "abc") in
  let req := request_of token_bob (Some d) 20 in
  authenticated req db_forum user_bob
  /\ handle PUT_profile_password req db_forum
     = (Responded
          (Msg Le_nouveau_mot_de_passe_doit_contenir_au_moins_6_caracteres,
           400), db_forum).
Proof.
  intros d req.
  assert (Ha : authenticated req db_forum user_bob)
    by (apply bob_authenticated; reflexivity).
  split; [exact Ha|].
  destruct (@update_password_checks req db_forum user_bob Ha) as [_ H].
  destruct (H d "secret" "abc" eq_refl eq_refl eq_refl ltac:(discriminate)
              ltac:(discriminate)) as [_ H2].
  apply H2; [reflexivity | cbn; lia].
Defined.

Lemma password_change_round_trip_witness :
  let d := mk_json None None None None None None (Some "secret")
             (Some "better") in
  let req := request_of token_bob (Some d) 20 in
  let db' :=
    with_users
      (update_row User.id 2 (User.set_password "better") (users db_forum))
      db_forum in
  let old := mk_json (Some "bob") None (Some "secret") None None None None
               None in
  authenticated req db_forum user_bob
  /\ handle PUT_profile_password req db_forum
     = (Responded (Msg Mot_de_passe_mis_a_jour_avec_succes, 200), db')
  /\ handle POST_login (request_of NoHeader (Some old) 30) db'
     = (Responded (Msg Identifiants_incorrects, 401), db').
Proof.
  intros d req db' old.
  assert (Ha : authenticated req db_forum user_bob)
    by (apply bob_authenticated; reflexivity).
  split; [exact Ha|].
  pose proof (@password_change_round_trip req db_forum user_bob d "secret"
                "better" db_forum_consistent Ha eq_refl eq_refl eq_refl
                ltac:(discriminate) eq_refl ltac:(cbn; lia)
                ltac:(discriminate)) as H.
  cbv zeta in H. destruct H as [H1 H2]. split; [exact H1|].
  exact (H2 (request_of NoHeader (Some old) 30) old "secret" eq_refl eq_refl
            eq_refl ltac:(discriminate)).
Defined.

Lemma get_routes_change_nothing_witness :
  is_GET GET_posts_search = true
  /\ snd (handle GET_posts_search
            (mk_request NoHeader None None None (Some "ab") 20) db_forum)
     = db_forum.
Proof.
  split; [reflexivity|].
  exact (@get_routes_change_nothing GET_posts_search
           (mk_request NoHeader None None None (Some "ab") 20) db_forum
           eq_refl).
Defined.

Lemma get_posts_zero_per_page_crashes_witness :
  let req := mk_request NoHeader None None (Some 0%Z) None 20 in
  per_page_of req = 0%Z
  /\ handle GET_posts req db_forum = (Crashed ZeroDivisionError, db_forum).
Proof.
  intros req. split; [reflexivity|].
  exact (@get_posts_zero_per_page_crashes req db_forum eq_refl).
Defined.

Lemma only_user_management_changes_privileges_witness :
  let d := mk_json (Some "robert") None None (Some true) None None None None in
  let req := request_of token_bob (Some d) 20 in
  manages_users PUT_profile = false
  /\ privileges (snd (handle PUT_profile req db_forum)) = [(1, true); (2, false)].
Proof.
  intros d req. split; [reflexivity|].
  rewrite (@only_user_management_changes_privileges PUT_profile req db_forum
             eq_refl).
  reflexivity.
Defined.

Lemma delete_post_cascades_witness :
  let req := request_of token_bob None 20 in
  let db' := snd (handle (DELETE_posts_id 1) req db_forum) in
  consistent db_forum
  /\ authenticated req db_forum user_bob
  /\ (forall c, In c (comments db') <->
                In c (comments db_forum) /\ Comment.post_id c <> 1)
  /\ consistent db'.
Proof.
  intros req db'.
  assert (Ha : authenticated req db_forum user_bob)
    by (apply bob_authenticated; reflexivity).
  split; [exact db_forum_consistent|]. split; [exact Ha|].
  pose proof (@delete_post_cascades req db_forum user_bob 1
                (Post.mk 1 "ab" "cd" 2 12 12) db_forum_consistent Ha eq_refl
                eq_refl) as H.
  cbv zeta in H. destruct H as (_ & _ & _ & Hc & _ & _ & Hd).
  split; [exact Hc | exact Hd].
Defined.

Lemma delete_user_cascades_witness :
  let req := request_of token_admin None 20 in
  let db' := snd (handle (DELETE_admin_users 2) req db_forum) in
  authenticated req db_forum user_admin
  /\ users db' = [user_admin]
  /\ (forall p, In p (posts db') <->
                In p (posts db_forum) /\ Post.user_id p <> 2).
Proof.
  intros req db'.
  assert (Ha : authenticated req db_forum user_admin)
    by (apply admin_authenticated; reflexivity).
  split; [exact Ha|].
  pose proof (@delete_user_cascades req db_forum user_admin 2 user_bob
                db_forum_consistent Ha eq_refl ltac:(discriminate) eq_refl)
    as H.
  cbv zeta in H. destruct H as (_ & Hu & Hp & _).
  split; [|exact Hp]. fold db' in Hu. rewrite Hu. reflexivity.
Defined.

Lemma deleted_user_token_until_the_key_is_reused_witness :
  let req := request_of token_admin None 20 in
  let req' := request_of token_bob None 25 in
  let db' := snd (handle (DELETE_admin_users 2) req db_forum) in
  let d := mk_json (Some "mallory") (Some "mallory@example.com") (Some "pw")
             None None None None None in
  let row := User.mk 2 "mallory" "mallory@example.com" (Hashed "pw") false
               30 in
  let db'' := with_users (users db' ++ [row]) db' in
  handle GET_me req' db'
  = (Responded (Msg Utilisateur_non_trouve, 401), db')
  /\ handle POST_register (request_of NoHeader (Some d) 30) db'
     = (Responded
          (MsgUser Utilisateur_cree_avec_succes (User_dict_of row), 201),
        db'')
  /\ handle GET_me req' db''
     = (Responded (OneUser (User_dict_of row), 200), db'').
Proof.
  intros req req' db' d row db''.
  assert (Ha : authenticated req db_forum user_admin)
    by (apply admin_authenticated; reflexivity).
  pose proof (@deleted_user_token_until_the_key_is_reused GET_me req req'
                db_forum user_admin 2 user_bob 1000%Z Ha eq_refl
                ltac:(discriminate) eq_refl eq_refl eq_refl eq_refl) as H.
  cbv zeta in H. destruct H as [H1 H2]. split; [exact H1|].
  assert (Fu : ~ In "mallory" (map User.username (users db')))
    by (vm_compute; intros [E|[]]; discriminate E).
  assert (Fe : ~ In "mallory@example.com" (map User.email (users db')))
    by (vm_compute; intros [E|[]]; discriminate E).
  destruct (H2 (request_of NoHeader (Some d) 30) d "mallory"
              "mallory@example.com" "pw" eq_refl eq_refl eq_refl eq_refl
              ltac:(discriminate) ltac:(discriminate) ltac:(discriminate)
              Fu Fe eq_refl) as (R1 & _ & R3).
  split; [exact R1 | exact R3].
Defined.

Lemma liked_answer_follows_the_toggle_witness :
  let req := request_of token_bob None 14 in
  let req' := request_of token_bob None 15 in
  let db' := snd (handle (POST_posts_like 1) req db_forum) in
  handle (GET_posts_user_liked 1) req' db_forum
  = (Responded (Liked false, 200), db_forum)
  /\ handle (GET_posts_user_liked 1) req' db'
     = (Responded (Liked true, 200), db').
Proof.
  intros req req' db'.
  exact (@liked_answer_follows_the_toggle db_forum user_bob (OnPost 1) req
           req' db_forum_reachable ltac:(vm_compute; discriminate)
           (@bob_authenticated None 14%Z eq_refl)
           (@bob_authenticated None 15%Z eq_refl)).
Defined.

Lemma created_post_can_be_read_witness :
  let d := mk_json None None None None (Some "hello") (Some "world") None
             None in
  let req := request_of token_bob (Some d) 20 in
  let shown :=
    Post.mk_dict 2 "hello" "world" 2 20 20 (Some (2, "bob")) (Some 0)
      (Some 0) in
  let db' :=
    with_posts (posts db_forum ++ [Post.mk 2 "hello" "world" 2 20 20])
      db_forum in
  handle POST_posts req db_forum
  = (Responded (MsgPost Post_cree_avec_succes shown, 201), db')
  /\ handle (GET_posts_id 2) (request_of NoHeader None 30) db'
     = (Responded (OnePost shown, 200), db').
Proof.
  intros d req shown db'.
  exact (@created_post_can_be_read req (request_of NoHeader None 30) db_forum
           user_bob d "hello" "world" db_forum_consistent
           (@bob_authenticated (Some d) 20%Z eq_refl) eq_refl eq_refl eq_refl
           ltac:(discriminate) ltac:(discriminate)).
Defined.

Lemma get_posts_pages_partition_the_posts_witness :
  (1 <= 3)%Z
  /\ List.concat
       (map (fun i => posts_page db_forum (Z.of_nat i) 3)
          (seq 1 (Z.to_nat
                    (total_pages (Z.of_nat (List.length (posts db_forum)))
                       3))))
     = order_by_desc Post.created_at (posts db_forum).
Proof.
  split; [lia|].
  pose proof (@get_posts_pages_partition_the_posts db_forum 3%Z
                ltac:(lia)) as H.
  cbv zeta in H. destruct H as (_ & _ & _ & H). exact H.
Defined.


Lemma update_own_profile_renames_the_caller_witness :
  let d := mk_json (Some "admin") None None None None None None None in
  let req := request_of token_bob (Some d) 20 in
  authenticated req db_forum user_bob
  /\ handle PUT_profile req db_forum
     = (Responded (Msg Nom_d_utilisateur_deja_existant, 409), db_forum).
Proof.
  intros d req.
  assert (Ha : authenticated req db_forum user_bob)
    by (apply bob_authenticated; reflexivity).
  split; [exact Ha|].
  exact (@update_own_profile_renames_the_caller req db_forum user_bob d Ha
           eq_refl).
Defined.

Lemma toggle_reports_the_new_count_witness :
  let req := request_of token_bob None 15 in
  reachable db_liked
  /\ exists m,
       fst (handle (POST_posts_like 1) req db_liked)
       = Responded (MsgLiked m false 0, 200).
Proof.
  intros req. split; [exact db_liked_reachable|].
  assert (Ha : authenticated req db_liked user_bob)
    by (exists 1000%Z; repeat split).
  pose proof (@toggle_reports_the_new_count db_liked user_bob (OnPost 1) req
                db_liked_reachable ltac:(vm_compute; discriminate) Ha) as H.
  cbv zeta in H. destruct H as (m & H & _). exists m. exact H.
Defined.

Lemma like_lists_and_counts_agree_witness :
  consistent db_liked
  /\ exists es,
       handle (GET_posts_likes 1) (request_of NoHeader None 20) db_liked
       = (Responded (LikeList es 1, 200), db_liked)
       /\ List.length es = 1.
Proof.
  assert (Hd : consistent db_liked)
    by exact (reachable_consistent db_liked_reachable).
  split; [exact Hd|].
  destruct (@like_lists_and_counts_agree db_liked (OnPost 1)
              (request_of NoHeader None 20) Hd
              ltac:(vm_compute; discriminate)) as (es & H1 & H2 & _).
  exists es. split; [exact H1 | exact H2].
Defined.

Lemma update_user_applies_the_body_witness :
  let d := mk_json None None None (Some true) None None None None in
  let req := request_of token_admin (Some d) 20 in
  authenticated req db_forum user_admin
  /\ handle (PUT_admin_users 2) req db_forum
     = (Responded
          (MsgUser Utilisateur_mis_a_jour_avec_succes
             (User_dict_of (User.with_is_admin true user_bob)), 200),
        with_users
          (update_row User.id 2 (updated_user d) (users db_forum)) db_forum).
Proof.
  intros d req.
  assert (Ha : authenticated req db_forum user_admin)
    by (apply admin_authenticated; reflexivity).
  split; [exact Ha|].
  exact (@update_user_applies_the_body req db_forum user_admin 2 user_bob d
           Ha eq_refl eq_refl eq_refl).
Defined.
